(* ===== verification/_CoqProject ===== *)
-Q . S2P
Prelude.v
Js.v
ObjectId.v
Slugify.v
Store.v
Controller.v
Routes.v
Lifecycle.v
Express.v
Response.v
Service.v
