(* ===== verification/Prelude.v ===== *)
(** * A verification development for the Blog-API post service

    The repository is a small Express/Mongoose blogging backend.  Its
    sources under [src/] are

    - [src/controllers/post.controller.js]: the five request handlers
      [createPost], [getPosts], [getPostBySlug], [updatePost] and
      [deletePost], each an [async] function whose body is wrapped in
      [try { ... } catch (error) { next(error) }];
    - [src/routes/post.routes.js]: the router that maps
      [GET /], [GET /:slug], [POST /], [PUT /:id] and [DELETE /:id] to the
      handlers, putting [authMiddleware] in front of the three mutating
      routes only;
    - [src/src/app.js]: the application, which mounts the router under
      [/api/posts] (and auth routes under [/api/auth]) and installs the
      central [errorHandler] last;
    - [src/utils/slugify.js]: [generateSlug], which calls the [slugify]
      package with [{ lower: true, strict: true }].

    The handlers share one piece of state, the [posts] collection of the
    document store, reached through the Mongoose model [Post].  The model
    file ([models/Post]), the two middlewares ([middleware/auth.middleware],
    [middleware/error.middleware]) and the auth routes belong to the
    repository but are not under [src/]: they are modelled from the
    specification (map entries marked [spec_modelled]).

    ** Layout of the library (dependency order, as in [_CoqProject])

    - [Prelude] (this file): the [js_scope] notations for JavaScript
      strict equality, the [blog] hint database, the development's Ltac
      tactics and the generic lemmas on lists and options the components
      share.
    - [Js]: the JavaScript value semantics the handlers rely on:
      truthiness of optional strings ([!title], [if (status)]), the ASCII
      character classes of [\s], [\w] and [[A-Za-z0-9]], [toLowerCase],
      [trim] and [Number()] on query strings (as a [jsnum]: an integer or
      NaN).
    - [ObjectId]: document identifiers as 96-bit numbers, their
      [toString] (24 lowercase hex digits) and the cast from a string that
      Mongoose applies to [findById(req.params.id)] and to the [author]
      query field; the round trip of [toString] and the cast, from which
      the handlers' [toString() !== toString()] author check decides
      identifier equality.
    - [Slugify]: [generateSlug] and the pipeline of the [slugify] package
      in strict, lower-case mode (the package's character map on
      Latin-1, removal regex, strict filter, trim, whitespace collapse,
      lower-casing); theorems that a slug is lower case, URL safe, has no
      leading, trailing or doubled separators, and that the slug is empty
      exactly when no character of the title maps to a letter or digit.
    - [Store]: the [posts] collection as an ordered list of documents
      (natural order = insertion order) with the Mongo/Mongoose operations
      the handlers call ([findOne], [findById], [find] with sort, skip and
      limit, [create], [save]), the query documents the handlers build,
      the [Db] state-and-exception monad in which the handlers are written,
      and a [RegexEngine] type class: the interface through which
      [new RegExp(search, 'i')] is used.
    - [Controller]: the five handlers, one [Definition] each, following
      the source line by line, with their functional theorems on every
      branch (validation, conflict, 404, 403, success, thrown errors).
    - [Routes]: the router, [authMiddleware], the application and the
      central error handler; end-to-end theorems about what an HTTP
      request can observe.
    - [Lifecycle]: the application as a step relation on the store and
      its reachable stores; what every request and every sequence of
      requests preserves (no document removed or reordered, soft-deleted
      documents frozen), the slug uniqueness of sequential creation, and
      what breaks it: two creations interleaved at the [await] of
      [createPost] ([create_interleaved]) and updates whose body carries
      [slug] or [author].
    - [Express]: the layer stacks of [app.js] ([cors()],
      [express.json()], the two mounts, [errorHandler]) and of
      [post.routes.js] (five routes with their functions) as data, and
      Express's dispatch over them ([app.handle], [Router.handle],
      [Route.dispatch]), with Express's final handler answering an
      unhandled error with its own status; the pipeline is proved to
      refine [Routes.app] (so the theorems above hold of it), to answer
      CORS preflights with [204] before routing, and to send a malformed
      JSON body to [errorHandler] ([500]).
    - [Response]: the JSON the handlers send ([res.json]) and the
      [populate('author', 'name email')] of the two reads, over a users
      collection read-only here; no response carries a [password] key.
    - [Service]: the specification's contract over stdpp's [gmap]: the
      abstract store, [authorizeMutation] (section 4.2.C) and the
      lifecycle step [spec_step]; the abstraction [abs] of a collection;
      the forward simulation of [app_step] by [spec_step], lifted to
      sequences; [updatePost] and [deletePost] computing
      [authorizeMutation]; only the author changes a post; an author can
      always delete a live post.

    ** What the theorems show

    - Listing ([Routes.app_list_published], [Controller.getPosts_*]):
      [GET /api/posts] has no middleware, so every listing is anonymous
      and shows only published, live posts; the controller's rules for
      authenticated callers (own drafts, no status filter, page bound,
      cast and [RegExp] errors) are proved of [getPosts] itself,
      including that an [author] parameter overrides the draft
      self-restriction.
    - Reading, updating and deleting ([Controller]): a slug read is a
      published live post; updates and deletes answer [404] for missing
      or soft-deleted posts, [403] for other users, and otherwise write
      exactly [Object.assign(post, req.body)] or [deletedAt].
    - Invariants ([Lifecycle]): along every sequence of requests no
      document is removed or reordered and soft-deleted documents never
      change; a request without a [slug] key keeps slugs unique.
    - Where the code departs from the specification, as general
      theorems with a concrete run as witness: a soft-deleted post still
      blocks its slug; any two creations of one slug interleaved at their
      [await]s both succeed; the author's update with [{ author }] hands
      the post over and with [{ slug }] duplicates another document's
      slug; a title with no letter or digit is stored under the empty
      slug.
    - Refinement ([Service], [Express]): every request is a step of the
      specification's lifecycle on the abstract store, and the mutation
      handlers decide exactly as [authorizeMutation]; the Express
      pipeline agrees with the routing function.
    - [Slugify] and [ObjectId]: the slug shape, the equivalence of the
      package's reduce with one removal pass, the characterization of the
      empty slug, and the round trip of [toString] behind the author
      check.

    ** Bounds and what is not modelled

    Every recursion is structural: Express's [next] loop over the layers
    of a stack is written as recursion on the list of the remaining
    layers ([Express.app_handle], [Express.run_stack],
    [Express.router_handle]), so no fuel is needed.  ObjectIds
    are numbers below 2^96, printed with exactly 24 hex digits.  JavaScript
    numbers of the pagination are exact integers (the inputs that matter
    stay below 2^53); fractional and exponent numerals are NaN in the
    model.  Characters are Latin-1 (code points below 256): the slugify
    package's [charMap] is modelled on that range (symbols such as [&]
    and [%], accented letters), its entries for other scripts and its
    [locales] table are not.  Not modelled: dates in
    responses are milliseconds rather than ISO strings; the headers
    [cors()] sets; the auth routes and token verification (outside
    [src/]; the auth router is a parameter of [Express]); the database
    connection and server bootstrap (not in the repository's [src/]).
*)

From Stdlib Require Export String Ascii ZArith NArith.
From stdpp Require Export base list option strings sorting.

(** JavaScript strict (in)equality on values with decidable equality,
    written as the handlers write it. *)
Declare Scope js_scope.
Delimit Scope js_scope with js.
Notation "x === y" := (bool_decide (x = y)) (at level 70, no associativity) : js_scope.
Notation "x !== y" := (negb (bool_decide (x = y))) (at level 70, no associativity) : js_scope.
Open Scope js_scope.

Create HintDb blog discriminated.

(** [invc H]: invert a hypothesis and clean up. *)
Ltac invc H := inversion H; subst; clear H.

(** [case_guards]: split every [if]/[match] on a decision or a boolean in
    the goal, the way the handlers' guards are split in proofs. *)
Ltac case_guards :=
  repeat match goal with
  | |- context [bool_decide ?P] => destruct (bool_decide_reflect P)
  | |- context [decide ?P] => destruct (decide P)
  | |- context [match ?x with _ => _ end] =>
      lazymatch x with
      | context [match _ with _ => _ end] => fail
      | _ => destruct x eqn:?
      end
  end.

(** ** Generic lemmas on lists *)

Lemma elem_of_take_drop {A} (x : A) (n m : nat) (l : list A) :
  x ∈ take n (drop m l) → x ∈ l.
Proof.
  intros Hx. apply (subseteq_drop m l), (subseteq_take n (drop m l)), Hx.
Qed.

Lemma length_take_le {A} (n : nat) (l : list A) : length (take n l) ≤ n.
Proof. rewrite length_take. lia. Qed.

Lemma Forall_take_drop {A} (P : A → Prop) (n m : nat) (l : list A) :
  Forall P l → Forall P (take n (drop m l)).
Proof. intros H. apply Forall_take, Forall_drop, H. Qed.

Lemma Forall_filter_bool {A} (f : A → bool) (l : list A) :
  Forall (λ x, f x = true) (List.filter f l).
Proof.
  apply Forall_forall. intros x Hx.
  apply list_elem_of_In, filter_In in Hx. tauto.
Qed.

Lemma Forall_merge_sort {A} (R : relation A) `{RelDecision A A R}
    (P : A → Prop) (l : list A) :
  Forall P l → Forall P (merge_sort R l).
Proof. intros HP. by rewrite (merge_sort_Permutation R l). Qed.

#[export] Hint Resolve Forall_take_drop Forall_filter_bool Forall_merge_sort : blog.

Lemma filter_Forall_id {A} (f : A → bool) (l : list A) :
  Forall (λ x, f x = true) l → List.filter f l = l.
Proof. induction 1 as [|x l Hx _ IH]; simpl; [done |]. by rewrite Hx, IH. Qed.

Lemma filter_filter_id {A} (f : A → bool) (l : list A) :
  List.filter f (List.filter f l) = List.filter f l.
Proof. apply filter_Forall_id, Forall_filter_bool. Qed.

Lemma Forall_filter_weaken {A} (f : A → bool) (P : A → Prop) (l : list A) :
  (∀ x, f x = true → P x) → Forall P (List.filter f l).
Proof.
  intros H. eapply Forall_impl; [apply Forall_filter_bool |]. exact H.
Qed.

(** [ascii_cases]: prove a statement about one character by checking
    the 256 code points. *)
Ltac ascii_cases :=
  let c := fresh "c" in
  intros c; destruct c as [[] [] [] [] [] [] [] []]; vm_compute;
  intros; repeat split; try discriminate; try reflexivity.

Lemma last_map {A B} (f : A → B) (l : list A) : last (map f l) = f <$> last l.
Proof.
  induction l as [|x l IH]; [done |]. simpl map. rewrite !last_cons, IH.
  by destruct (last l).
Qed.

Lemma StronglySorted_drop {A} (R : relation A) (n : nat) (l : list A) :
  StronglySorted R l → StronglySorted R (drop n l).
Proof.
  revert l. induction n as [|n IH]; intros l Hl; [done |].
  destruct l as [|x l]; [done |]. apply IH. by inversion Hl.
Qed.

Lemma StronglySorted_take {A} (R : relation A) (n : nat) (l : list A) :
  StronglySorted R l → StronglySorted R (take n l).
Proof.
  revert n. induction l as [|x l IH]; intros [|n] Hl; simpl; [constructor.. |].
  inversion Hl as [|? ? Hs Hf]; subst. constructor; [by apply IH | by apply Forall_take].
Qed.

(** Two elements of a list with pairwise distinct keys that share a key
    are equal. *)
Lemma NoDup_fmap_key {A B} (f : A → B) (l : list A) (x y : A) :
  NoDup (f <$> l) → x ∈ l → y ∈ l → f x = f y → x = y.
Proof.
  induction l as [|z l IH]; intros Hnd Hx Hy Hf; [by apply not_elem_of_nil in Hx |].
  rewrite fmap_cons, NoDup_cons in Hnd. destruct Hnd as [Hz Hnd].
  rewrite elem_of_cons in Hx, Hy.
  destruct Hx as [->|Hx], Hy as [->|Hy]; try done.
  - destruct Hz. rewrite Hf. by apply list_elem_of_fmap_2.
  - destruct Hz. rewrite <- Hf. by apply list_elem_of_fmap_2.
  - by apply IH.
Qed.

Lemma list_find_elem_of {A} (f : A → bool) (l : list A) (x : A) :
  List.find f l = Some x → x ∈ l ∧ f x = true.
Proof. intros H. apply find_some in H as [H1 H2]. split; [by apply list_elem_of_In | done]. Qed.

Lemma list_find_None {A} (f : A → bool) (l : list A) (x : A) :
  List.find f l = None → x ∈ l → f x = false.
Proof. intros H Hx. eapply find_none; [exact H | by apply list_elem_of_In]. Qed.

Lemma list_find_None_intro {A} (f : A → bool) (l : list A) :
  (∀ x, x ∈ l → f x = false) → List.find f l = None.
Proof.
  induction l as [|y l IH]; intros Hall; [done |]. simpl.
  rewrite Hall by (apply elem_of_cons; by left).
  apply IH. intros x Hx. apply Hall, elem_of_cons. by right.
Qed.
