(* ===== verification/Js.v ===== *)
(** * JavaScript value semantics used by the handlers

    Characters are Latin-1 code points (Stdlib [ascii], 0..255); the
    strings the handlers see are modelled as [string].  This file holds
    truthiness of an optional string (a request field that is [undefined]
    or [null] is [None]), the character classes [\s], [\w] and
    [[A-Za-z0-9]] of JavaScript regular expressions restricted to that
    range, [String.prototype.toLowerCase], [String.prototype.trim], and
    [Number()] on query strings. *)

From S2P Require Import Prelude.

Local Open Scope N_scope.

Definition code (c : ascii) : N := N_of_ascii c.

(** ** Character classes *)

Definition is_digit (c : ascii) : bool := (48 <=? code c) && (code c <=? 57).
Definition is_upper (c : ascii) : bool := (65 <=? code c) && (code c <=? 90).
Definition is_lower (c : ascii) : bool := (97 <=? code c) && (code c <=? 122).
Definition is_alnum (c : ascii) : bool := is_digit c || is_upper c || is_lower c.

(** [\w]: [[A-Za-z0-9_]]. *)
Definition is_word (c : ascii) : bool := is_alnum c || (code c =? 95).

(** [\s] below U+0100: tab, line feed, vertical tab, form feed, carriage
    return, space and no-break space. *)
Definition is_js_space (c : ascii) : bool :=
  ((9 <=? code c) && (code c <=? 13)) || (code c =? 32) || (code c =? 160).

(** ** [toLowerCase] *)

(** Upper-case letters below U+0100 are A-Z and the Latin-1 capitals
    U+00C0..U+00DE except the multiplication sign U+00D7; each maps to
    the code point 32 above it. *)
Definition is_upper_latin1 (c : ascii) : bool :=
  is_upper c || ((192 <=? code c) && (code c <=? 222) && negb (code c =? 215)).

Definition char_to_lower (c : ascii) : ascii :=
  if is_upper_latin1 c then ascii_of_N (code c + 32) else c.

Definition to_lower (l : list ascii) : list ascii := map char_to_lower l.

(** ** [trim] *)

Fixpoint trim_start (l : list ascii) : list ascii :=
  match l with
  | [] => []
  | c :: l' => if is_js_space c then trim_start l' else l
  end.

Definition trim_end (l : list ascii) : list ascii := reverse (trim_start (reverse l)).

Definition js_trim (l : list ascii) : list ascii := trim_end (trim_start l).

(** ** [Number()] on a query string

    [Number(s)] trims [s]; the empty string is 0; an optional sign
    followed by decimal digits is that integer; the model maps every
    other string to NaN (the fractional, exponent, hexadecimal and
    [Infinity] forms, which JavaScript also accepts, are not modelled).
    Arithmetic on the result is exact integer arithmetic (JavaScript
    numbers are exact below 2^53). *)

Inductive jsnum := JInt (z : Z) | JNaN.

#[export] Instance jsnum_eq_dec : EqDecision jsnum.
Proof. solve_decision. Defined.

Definition digit_value (c : ascii) : Z := Z.of_N (code c) - 48.

Fixpoint digits_to_Z (acc : Z) (l : list ascii) : option Z :=
  match l with
  | [] => Some acc
  | c :: l' => if is_digit c then digits_to_Z (acc * 10 + digit_value c)%Z l' else None
  end.

Definition parse_unsigned (l : list ascii) : option Z :=
  match l with
  | [] => None
  | _ => digits_to_Z 0 l
  end.

Definition of_option_num (o : option Z) : jsnum :=
  match o with Some z => JInt z | None => JNaN end.

Definition to_number (s : string) : jsnum :=
  match js_trim (list_ascii_of_string s) with
  | [] => JInt 0
  | c :: l =>
      if code c =? 43 then of_option_num (parse_unsigned l)
      else if code c =? 45 then of_option_num (option_map Z.opp (parse_unsigned l))
      else of_option_num (parse_unsigned (c :: l))
  end.

Definition js_sub (a b : jsnum) : jsnum :=
  match a, b with JInt x, JInt y => JInt (x - y) | _, _ => JNaN end.

Definition js_mul (a b : jsnum) : jsnum :=
  match a, b with JInt x, JInt y => JInt (x * y) | _, _ => JNaN end.

(** ** Truthiness of an optional string: [!title], [if (status)]

    The value of a request field ([None] when it is [undefined]) when it
    is truthy: a string is truthy unless it is empty. *)
Definition truthy_value (o : option string) : option string :=
  match o with
  | Some s => if s === ""%string then None else Some s
  | None => None
  end.

(** The character at an end of a string (its [head] or its [last]) is
    not white space. *)
Definition not_space_at (o : option ascii) : Prop :=
  match o with Some c => is_js_space c = false | None => True end.

(** ** Lemmas *)

Example to_number_examples :
  to_number " 12 " = JInt 12 ∧ to_number "" = JInt 0 ∧ to_number "-3" = JInt (-3)
  ∧ to_number "abc" = JNaN ∧ to_number "-" = JNaN.
Proof. vm_compute. repeat split. Qed.

Lemma Forall_trim_start (P : ascii → Prop) (l : list ascii) :
  Forall P l → Forall P (trim_start l).
Proof. induction 1 as [|c l Hc Hl IH]; simpl; [done |]. destruct (is_js_space c); [done | by constructor]. Qed.

Lemma Forall_js_trim (P : ascii → Prop) (l : list ascii) :
  Forall P l → Forall P (js_trim l).
Proof.
  intros H. unfold js_trim, trim_end. apply Forall_reverse, Forall_trim_start, Forall_reverse.
  by apply Forall_trim_start.
Qed.

Lemma trim_start_head (l : list ascii) : not_space_at (head (trim_start l)).
Proof.
  induction l as [|c l IH]; simpl; [done |].
  destruct (is_js_space c) eqn:Hc; [done | simpl; exact Hc].
Qed.

Lemma trim_start_not_space (c : ascii) (l : list ascii) :
  is_js_space c = false → trim_start (c :: l) = c :: l.
Proof. intros Hc. simpl. by rewrite Hc. Qed.

Lemma trim_start_app_not_space (a b : list ascii) (c : ascii) :
  is_js_space c = false → trim_start (a ++ c :: b) = trim_start a ++ c :: b.
Proof.
  intros Hc. induction a as [|d a IH]; simpl.
  - by rewrite Hc.
  - by destruct (is_js_space d).
Qed.

Lemma trim_end_cons (c : ascii) (x : list ascii) :
  is_js_space c = false → trim_end (c :: x) = c :: trim_end x.
Proof.
  intros Hc. unfold trim_end. rewrite reverse_cons, trim_start_app_not_space by done.
  by rewrite reverse_app.
Qed.

Lemma js_trim_head (l : list ascii) : not_space_at (head (js_trim l)).
Proof.
  unfold js_trim. pose proof (trim_start_head l) as H.
  destruct (trim_start l) as [|c x]; [done |]. simpl in H.
  by rewrite trim_end_cons.
Qed.

Lemma js_trim_last (l : list ascii) : not_space_at (last (js_trim l)).
Proof. unfold js_trim, trim_end. rewrite last_reverse. apply trim_start_head. Qed.

Lemma js_trim_id (l : list ascii) :
  not_space_at (head l) → not_space_at (last l) → js_trim l = l.
Proof.
  destruct l as [|c x]; [done |]. simpl. intros Hc Hl.
  unfold js_trim. rewrite trim_start_not_space by done.
  unfold trim_end. rewrite <- head_reverse in Hl.
  destruct (reverse (c :: x)) as [|d y] eqn:Hr; [by apply (f_equal length) in Hr; rewrite length_reverse in Hr |].
  simpl in Hl. rewrite trim_start_not_space, <- Hr by done. apply reverse_involutive.
Qed.

Lemma truthy_value_Some (o : option string) (s : string) :
  truthy_value o = Some s ↔ o = Some s ∧ s ≠ ""%string.
Proof.
  destruct o as [t|]; simpl; [| naive_solver].
  case_bool_decide; naive_solver.
Qed.

(** [trim] of white space only is empty; a character that is not white
    space survives [trim]. *)
Lemma trim_start_all_space (l : list ascii) :
  Forall (λ c, is_js_space c = true) l → trim_start l = [].
Proof. induction 1 as [|c l Hc _ IH]; simpl; [done |]. by rewrite Hc. Qed.

Lemma js_trim_all_space (l : list ascii) :
  Forall (λ c, is_js_space c = true) l → js_trim l = [].
Proof. intros H. unfold js_trim, trim_end. by rewrite (trim_start_all_space l H). Qed.

Lemma elem_of_trim_start (c : ascii) (l : list ascii) :
  c ∈ l → is_js_space c = false → c ∈ trim_start l.
Proof.
  induction l as [|d l IH]; intros Hc Hs; [by apply elem_of_nil in Hc |]. simpl.
  apply elem_of_cons in Hc as [->|Hc]; [by rewrite Hs; left |].
  destruct (is_js_space d); [by apply IH | by right].
Qed.

Lemma elem_of_js_trim (c : ascii) (l : list ascii) :
  c ∈ l → is_js_space c = false → c ∈ js_trim l.
Proof.
  intros Hc Hs. unfold js_trim, trim_end. apply elem_of_reverse, elem_of_trim_start; [| done].
  apply elem_of_reverse. by apply elem_of_trim_start.
Qed.

Lemma alnum_not_space (c : ascii) : is_alnum c = true → is_js_space c = false.
Proof. revert c. ascii_cases. Qed.
