(* ===== verification/ObjectId.v ===== *)
(** * Document identifiers

    A MongoDB ObjectId is 12 bytes; the model keeps it as a number below
    2^96.  [oid_to_string] is [ObjectId.prototype.toString] (24 lowercase
    hex digits, most significant first), used by the handlers in
    [post.author.toString() !== req.user._id.toString()].  [oid_of_string]
    is the cast Mongoose applies to a string where an ObjectId is
    expected ([Post.findById(req.params.id)], the [author] query field):
    exactly 24 hex digits of either case, any other string fails the cast
    ([CastError]).  The 12-character raw-byte form the BSON library also
    accepts is not modelled. *)

From S2P Require Import Prelude Js.

Local Open Scope N_scope.

Definition ObjectId := N.

Definition oid_digits : nat := 24.
Definition oid_bound : N := 2 ^ 96.

Definition hex_digit (d : N) : ascii :=
  if d <? 10 then ascii_of_N (48 + d) else ascii_of_N (87 + d).

(** [hex_pad k n acc]: the [k] low hex digits of [n], in front of [acc]. *)
Fixpoint hex_pad (k : nat) (n : N) (acc : list ascii) : list ascii :=
  match k with
  | O => acc
  | S k' => hex_pad k' (n / 16) (hex_digit (n mod 16) :: acc)
  end.

Definition oid_to_string (n : ObjectId) : string :=
  string_of_list_ascii (hex_pad oid_digits n []).

Definition hex_value (c : ascii) : option N :=
  if (48 <=? code c) && (code c <=? 57) then Some (code c - 48)
  else if (97 <=? code c) && (code c <=? 102) then Some (code c - 87)
  else if (65 <=? code c) && (code c <=? 70) then Some (code c - 55)
  else None.

Fixpoint hex_parse (acc : N) (l : list ascii) : option N :=
  match l with
  | [] => Some acc
  | c :: l' => match hex_value c with
               | Some d => hex_parse (acc * 16 + d) l'
               | None => None
               end
  end.

Definition oid_of_string (s : string) : option ObjectId :=
  let l := list_ascii_of_string s in
  if Nat.eqb (length l) oid_digits then hex_parse 0 l else None.

(** ** Lemmas *)

Lemma hex_value_digit (d : N) : d < 16 → hex_value (hex_digit d) = Some d.
Proof.
  intros Hd. unfold hex_digit, hex_value, code.
  destruct (N.ltb_spec d 10);
    rewrite N_ascii_embedding by lia;
    repeat match goal with |- context [?a <=? ?b] => destruct (N.leb_spec a b) end;
    simpl; f_equal; lia.
Qed.

Lemma length_hex_pad (k : nat) (n : N) (acc : list ascii) :
  length (hex_pad k n acc) = (k + length acc)%nat.
Proof.
  revert n acc. induction k as [|k IH]; intros n acc; simpl; [done |].
  rewrite IH. simpl. lia.
Qed.

Lemma mod_pow16_succ (n : N) (k : nat) :
  (n / 16) mod 16 ^ N.of_nat k * 16 + n mod 16 = n mod 16 ^ N.of_nat (S k).
Proof.
  rewrite Nat2N.inj_succ, N.pow_succ_r'.
  rewrite (N.Div0.mod_mul_r n 16 (16 ^ N.of_nat k)). lia.
Qed.

Lemma hex_parse_pad (k : nat) (n a : N) (acc : list ascii) :
  hex_parse a (hex_pad k n acc)
  = hex_parse (a * 16 ^ N.of_nat k + n mod 16 ^ N.of_nat k) acc.
Proof.
  revert n a acc. induction k as [|k IH]; intros n a acc; simpl.
  - by rewrite N.mul_1_r, N.mod_1_r, N.add_0_r.
  - rewrite IH. simpl. rewrite hex_value_digit by (apply N.mod_lt; lia).
    f_equal. rewrite <- mod_pow16_succ, Nat2N.inj_succ, N.pow_succ_r'. lia.
Qed.

(** Parsing the printed form of an identifier gives it back. *)
Lemma oid_roundtrip (n : ObjectId) :
  n < oid_bound → oid_of_string (oid_to_string n) = Some n.
Proof.
  intros Hn. unfold oid_of_string, oid_to_string.
  rewrite list_ascii_of_string_of_list_ascii, length_hex_pad, Nat.add_0_r, Nat.eqb_refl.
  rewrite hex_parse_pad. cbn [hex_parse]. f_equal.
  replace (16 ^ N.of_nat oid_digits) with oid_bound by reflexivity.
  rewrite N.mod_small by exact Hn. lia.
Qed.

Lemma oid_str_neq_iff (n m : ObjectId) :
  n < oid_bound → m < oid_bound →
  (oid_to_string n !== oid_to_string m) = negb (n === m).
Proof.
  intros Hn Hm. f_equal. apply bool_decide_ext. split; [| by intros ->].
  intros Heq. apply (f_equal oid_of_string) in Heq.
  rewrite !oid_roundtrip in Heq by done. by injection Heq.
Qed.

Lemma hex_parse_bound (a : N) (l : list ascii) (n : N) :
  hex_parse a l = Some n → n < (a + 1) * 16 ^ N.of_nat (length l).
Proof.
  revert a. induction l as [|c l IH]; intros a H; simpl in H.
  - injection H as <-. simpl. lia.
  - destruct (hex_value c) as [d|] eqn:Hc; [| discriminate].
    assert (d < 16).
    { unfold hex_value in Hc.
      repeat match goal with H : context [?x <=? ?y] |- _ => destruct (N.leb_spec x y) end;
        simpl in Hc; try discriminate; injection Hc as <-; lia. }
    apply IH in H. simpl length. rewrite Nat2N.inj_succ, N.pow_succ_r'. nia.
Qed.

(** Every identifier a cast produces is a valid 96-bit ObjectId. *)
Lemma oid_of_string_bound (s : string) (n : ObjectId) :
  oid_of_string s = Some n → n < oid_bound.
Proof.
  unfold oid_of_string. destruct (Nat.eqb_spec (length (list_ascii_of_string s)) oid_digits)
    as [Hl|]; [| discriminate].
  intros H. apply hex_parse_bound in H. rewrite Hl in H. exact H.
Qed.


#[export] Hint Resolve oid_roundtrip oid_of_string_bound : blog.

