(* ===== verification/Slugify.v ===== *)
(** * Slug generation

    [src/utils/slugify.js] defines [generateSlug title] as
    [slugify(title, { lower: true, strict: true })].  The [slugify]
    package is a dependency, not code of this repository; its pipeline
    is modelled stage by stage for Latin-1 inputs (below U+0100), in the
    order the package applies the stages:

    - [slug_reduce]: the [reduce] over the characters of [title], which
      maps each through the package's character map ([char_map], its
      entries below U+0100), turns the replacement character ['-'] into a
      space, appends it and strips from the accumulated string the
      characters the package's removal regex rejects (it keeps [\w],
      [\s], the double quote and [$ * _ + ~ . ( ) ' ! - : @]);
    - [strict_filter]: [/[^A-Za-z0-9\s]/g] (the [strict] option);
    - [js_trim]: [slug.trim()];
    - [collapse_ws]: [slug.replace(/\s+/g, '-')];
    - [to_lower]: [slug.toLowerCase()] (the [lower] option).

    Characters from U+0100 on, which the package transliterates through
    the rest of its map, are outside the model, whose characters are
    Latin-1 code points. *)

From S2P Require Import Prelude Js.

Local Open Scope N_scope.

Definition is_dash (c : ascii) : bool := code c =? 45.
Definition replacement : ascii := "-".
Definition space : ascii := " ".

(** The package's character map ([charmap.json]) on Latin-1: the six
    ASCII symbols it names, the currency and legal signs, and the
    accented letters, each to its unaccented spelling. *)
Definition char_map (c : ascii) : option (list ascii) :=
  let w s := Some (list_ascii_of_string s) in
  match code c with
  | 36 => w "dollar" | 37 => w "percent" | 38 => w "and"
  | 60 => w "less" | 62 => w "greater" | 124 => w "or"
  | 162 => w "cent" | 163 => w "pound" | 164 => w "currency" | 165 => w "yen"
  | 169 => w "(c)" | 170 => w "a" | 174 => w "(r)" | 186 => w "o"
  | 192 | 193 | 194 | 195 | 196 | 197 => w "A" | 198 => w "AE" | 199 => w "C"
  | 200 | 201 | 202 | 203 => w "E" | 204 | 205 | 206 | 207 => w "I"
  | 208 => w "D" | 209 => w "N" | 210 | 211 | 212 | 213 | 214 | 216 => w "O"
  | 217 | 218 | 219 | 220 => w "U" | 221 => w "Y" | 222 => w "TH" | 223 => w "ss"
  | 224 | 225 | 226 | 227 | 228 | 229 => w "a" | 230 => w "ae" | 231 => w "c"
  | 232 | 233 | 234 | 235 => w "e" | 236 | 237 | 238 | 239 => w "i"
  | 240 => w "d" | 241 => w "n" | 242 | 243 | 244 | 245 | 246 | 248 => w "o"
  | 249 | 250 | 251 | 252 => w "u" | 253 | 255 => w "y" | 254 => w "th"
  | _ => None
  end.

(** The characters the removal regex keeps besides [\w] and [\s], by
    code point: [$ * _ + ~ . ( ) '], the double quote, [! - : @]. *)
Definition remove_extra : list N := [36; 42; 95; 43; 126; 46; 40; 41; 39; 34; 33; 45; 58; 64].

Definition kept_by_remove (c : ascii) : bool :=
  is_word c || is_js_space c || bool_decide (code c ∈ remove_extra).

Definition remove_disallowed (l : list ascii) : list ascii := List.filter kept_by_remove l.

(** [appendChar] of the [reduce] callback. *)
Definition slug_char (c : ascii) : list ascii :=
  let a := match char_map c with Some w => w | None => [c] end in
  if decide (a = [replacement]) then [space] else a.

Definition slug_reduce (l : list ascii) : list ascii :=
  fold_left (λ result c, remove_disallowed (result ++ slug_char c)) l [].

Definition strict_filter (l : list ascii) : list ascii :=
  List.filter (λ c, is_alnum c || is_js_space c) l.

(** [replace(/\s+/g, '-')]: [prev_ws] records that the previous character
    was white space, whose run has already produced its ['-']. *)
Fixpoint collapse_ws (prev_ws : bool) (l : list ascii) : list ascii :=
  match l with
  | [] => []
  | c :: l' =>
      if is_js_space c then
        (if prev_ws then collapse_ws true l' else replacement :: collapse_ws true l')
      else c :: collapse_ws false l'
  end.

Definition slugify_strict_lower (s : string) : string :=
  string_of_list_ascii
    (to_lower (collapse_ws false (js_trim (strict_filter (slug_reduce (list_ascii_of_string s)))))).

Definition generateSlug (title : string) : string := slugify_strict_lower title.

(** ** What a slug looks like *)

Definition slug_char_ok (c : ascii) : bool := is_lower c || is_digit c || is_dash c.

(** [dashes_ok after_dash l]: no two dashes in a row, and no dash at the
    end; [after_dash] is true at the start, which forbids a leading
    dash. *)
Fixpoint dashes_ok (after_dash : bool) (l : list ascii) : bool :=
  match l with
  | [] => negb after_dash
  | c :: l' => if is_dash c then negb after_dash && dashes_ok true l' else dashes_ok false l'
  end.

Definition is_slug (s : string) : bool :=
  let l := list_ascii_of_string s in
  forallb slug_char_ok l && match l with [] => true | _ => dashes_ok true l end.

Definition alnum_or_space (c : ascii) : bool := is_alnum c || is_js_space c.
Definition alnum_or_dash (c : ascii) : bool := is_alnum c || is_dash c.

(** The list the last three stages work on: the strict-filtered,
    trimmed characters. *)
Definition trimmed_chars (s : string) : list ascii :=
  js_trim (strict_filter (slug_reduce (list_ascii_of_string s))).

(** A Latin-1 title, "Crème Brûlée & Café" ([è], [û], [é] are the code
    points 232, 251 and 233; a string literal of this file would hold
    their UTF-8 bytes instead). *)
Definition title_creme : string :=
  string_of_list_ascii
    (list_ascii_of_string "Cr" ++ [ascii_of_N 232] ++ list_ascii_of_string "me Br"
     ++ [ascii_of_N 251] ++ list_ascii_of_string "l" ++ [ascii_of_N 233]
     ++ list_ascii_of_string "e & Caf" ++ [ascii_of_N 233]).

Example generateSlug_hello : generateSlug "Hello World!" = "hello-world".
Proof. vm_compute. reflexivity. Qed.

Example generateSlug_symbols : generateSlug "  Cats & Dogs -- 100% " = "cats-and-dogs-100percent".
Proof. vm_compute. reflexivity. Qed.

Example generateSlug_latin1 : generateSlug title_creme = "creme-brulee-and-cafe".
Proof. vm_compute. reflexivity. Qed.

(** ** The [reduce] stage: removing after every character is removing once *)

Lemma remove_disallowed_app (a b : list ascii) :
  remove_disallowed (a ++ b) = remove_disallowed a ++ remove_disallowed b.
Proof. apply List.filter_app. Qed.

Lemma slug_reduce_acc (l acc : list ascii) :
  fold_left (λ result c, remove_disallowed (result ++ slug_char c)) l (remove_disallowed acc)
  = remove_disallowed (acc ++ concat (map slug_char l)).
Proof.
  revert acc. induction l as [|c l IH]; intros acc; simpl.
  - by rewrite app_nil_r.
  - assert (remove_disallowed (remove_disallowed acc ++ slug_char c)
            = remove_disallowed (acc ++ slug_char c)) as ->.
    { rewrite !remove_disallowed_app. unfold remove_disallowed. by rewrite filter_filter_id. }
    by rewrite IH, app_assoc.
Qed.

(** The package strips the rejected characters from the accumulated
    string after every appended character; the result is the mapped
    title with the rejected characters removed once. *)
Theorem slug_reduce_spec (l : list ascii) :
  slug_reduce l = remove_disallowed (concat (map slug_char l)).
Proof. apply (slug_reduce_acc l []). Qed.

(** ** Per-character facts (checked on the 256 code points) *)

Lemma alnum_or_space_not_space (c : ascii) :
  alnum_or_space c = true → is_js_space c = false → is_alnum c = true ∧ is_dash c = false.
Proof. revert c. ascii_cases. Qed.

Lemma to_lower_slug_char (c : ascii) :
  alnum_or_dash c = true →
  slug_char_ok (char_to_lower c) = true ∧ is_dash (char_to_lower c) = is_dash c.
Proof. revert c. ascii_cases. Qed.

Lemma alnum_is_not_dash (c : ascii) : is_alnum c = true → is_dash c = false.
Proof. revert c. ascii_cases. Qed.

(** ** Shape of the output *)

Lemma not_space_at_last_cons (c : ascii) (t : list ascii) :
  not_space_at (last (c :: t)) → not_space_at (last t).
Proof. rewrite last_cons. by destruct (last t). Qed.

Lemma Forall_collapse_ws (b : bool) (l : list ascii) :
  Forall (λ c, alnum_or_space c = true) l → Forall (λ c, alnum_or_dash c = true) (collapse_ws b l).
Proof.
  intros Hl. revert b. induction Hl as [|c l Hc Hl IH]; intros b; simpl; [done |].
  destruct (is_js_space c) eqn:Hs; [destruct b; [done | by constructor] |].
  constructor; [| done]. apply alnum_or_space_not_space in Hs as [Ha _]; [| done].
  unfold alnum_or_dash. by rewrite Ha.
Qed.

Lemma collapse_dashes_ok (b : bool) (t : list ascii) :
  Forall (λ c, alnum_or_space c = true) t → not_space_at (last t) → (t = [] → b = false) →
  dashes_ok b (collapse_ws b t) = true.
Proof.
  intros Ht. revert b. induction Ht as [|c t Hc Ht IH]; intros b Hlast Hnil.
  - simpl. by rewrite (Hnil eq_refl).
  - pose proof (not_space_at_last_cons _ _ Hlast) as Hlast'. simpl.
    destruct (is_js_space c) eqn:Hs.
    + assert (t ≠ []) as Hne by (intros ->; simpl in Hlast; congruence).
      destruct b; simpl; apply IH; done.
    + apply alnum_or_space_not_space in Hs as [_ Hd]; [| done].
      simpl. rewrite Hd. by apply IH.
Qed.

Lemma dashes_ok_to_lower (b : bool) (l : list ascii) :
  Forall (λ c, alnum_or_dash c = true) l → dashes_ok b (to_lower l) = dashes_ok b l.
Proof.
  intros Hl. revert b. induction Hl as [|c l Hc Hl IH]; intros b; simpl; [done |].
  destruct (to_lower_slug_char c Hc) as [_ ->]. destruct (is_dash c); by rewrite IH.
Qed.

Lemma forallb_to_lower (l : list ascii) :
  Forall (λ c, alnum_or_dash c = true) l → forallb slug_char_ok (to_lower l) = true.
Proof.
  intros Hl. apply forallb_forall. intros c Hc. apply in_map_iff in Hc as (d & <- & Hd).
  apply (to_lower_slug_char d). rewrite Forall_forall in Hl. apply Hl.
  by apply list_elem_of_In.
Qed.

Lemma trimmed_chars_alnum_or_space (s : string) :
  Forall (λ c, alnum_or_space c = true) (trimmed_chars s).
Proof. apply Forall_js_trim, Forall_filter_weaken. done. Qed.

Lemma slug_output_shape (title : string) : is_slug (generateSlug title) = true.
Proof.
  unfold is_slug, generateSlug, slugify_strict_lower.
  rewrite list_ascii_of_string_of_list_ascii. fold (trimmed_chars title).
  pose proof (trimmed_chars_alnum_or_space title) as Hall.
  pose proof (js_trim_head (strict_filter (slug_reduce (list_ascii_of_string title)))) as Hhead.
  pose proof (js_trim_last (strict_filter (slug_reduce (list_ascii_of_string title)))) as Hlast.
  fold (trimmed_chars title) in Hhead, Hlast.
  rewrite forallb_to_lower by (by apply Forall_collapse_ws).
  destruct (trimmed_chars title) as [|c t] eqn:Ht; [done |].
  inv Hall. simpl in Hhead.
  destruct (alnum_or_space_not_space c H1 Hhead) as [Ha Hd].
  cbn [collapse_ws]. rewrite Hhead.
  rewrite dashes_ok_to_lower.
  - simpl. rewrite Hd. apply collapse_dashes_ok; [done | | done].
    by apply not_space_at_last_cons with c.
  - constructor; [unfold alnum_or_dash; by rewrite Ha | by apply Forall_collapse_ws].
Qed.

Lemma elem_of_collapse_ws (b : bool) (c : ascii) (l : list ascii) :
  c ∈ l → is_js_space c = false → c ∈ collapse_ws b l.
Proof.
  revert b. induction l as [|d l IH]; intros b Hc Hs; [by apply elem_of_nil in Hc |]. simpl.
  apply elem_of_cons in Hc as [->|Hc]; [rewrite Hs; by left |].
  destruct (is_js_space d); [destruct b; [by apply IH | right; by apply IH] | right; by apply IH].
Qed.

Lemma strict_filter_no_alnum (l : list ascii) :
  Forall (λ c, is_alnum c = false) l → Forall (λ c, is_js_space c = true) (strict_filter l).
Proof.
  intros H. apply Forall_forall. intros c Hc. unfold strict_filter in Hc.
  apply list_elem_of_In, filter_In in Hc as [Hin Hc]. apply list_elem_of_In in Hin.
  eapply Forall_forall in H; [| exact Hin]. rewrite H in Hc. done.
Qed.

(** The slug is empty exactly when no letter or digit is left after the
    package's [reduce]. *)
Lemma generateSlug_empty_reduce (title : string) :
  generateSlug title = ""%string
  ↔ Forall (λ c, is_alnum c = false) (slug_reduce (list_ascii_of_string title)).
Proof.
  unfold generateSlug, slugify_strict_lower. split.
  - intros Hs. apply Forall_forall. intros c Hc. destruct (is_alnum c) eqn:Ha; [exfalso | done].
    pose proof (alnum_not_space c Ha) as Hsp.
    assert (Hin : c ∈ strict_filter (slug_reduce (list_ascii_of_string title))).
    { apply list_elem_of_In, filter_In. split; [by apply list_elem_of_In | by rewrite Ha]. }
    apply (elem_of_js_trim c) in Hin; [| done]. apply (elem_of_collapse_ws false c) in Hin; [| done].
    destruct (collapse_ws false _); [by apply elem_of_nil in Hin | done].
  - intros H. by rewrite js_trim_all_space by (by apply strict_filter_no_alnum).
Qed.

(** A letter or digit survives the removal regex, so the [reduce] has
    none exactly when no character of the title maps to one. *)
Lemma slug_reduce_no_alnum (l : list ascii) :
  Forall (λ c, is_alnum c = false) (slug_reduce l)
  ↔ Forall (λ c, Forall (λ d, is_alnum d = false) (slug_char c)) l.
Proof.
  rewrite slug_reduce_spec. unfold remove_disallowed. rewrite !Forall_forall. split.
  - intros H c Hc. apply Forall_forall. intros d Hd. destruct (is_alnum d) eqn:Ha; [| done].
    rewrite <- Ha. apply H, list_elem_of_In, filter_In. split.
    + apply in_concat. exists (slug_char c).
      split; [apply in_map; by apply list_elem_of_In | by apply list_elem_of_In].
    + unfold kept_by_remove, is_word. by rewrite Ha.
  - intros H d Hd. apply list_elem_of_In, filter_In in Hd as [Hd _].
    apply in_concat in Hd as (w & Hw & Hd). apply in_map_iff in Hw as (c & <- & Hc).
    apply list_elem_of_In in Hc, Hd. specialize (H c Hc). by eapply Forall_forall in H.
Qed.

(** [generateSlug] returns the empty slug exactly when no character of
    the title, through the package's character map, is a letter or a
    digit. *)
Lemma generateSlug_empty_title (title : string) :
  generateSlug title = ""%string
  ↔ Forall (λ c, Forall (λ d, is_alnum d = false) (slug_char c)) (list_ascii_of_string title).
Proof. rewrite generateSlug_empty_reduce. apply slug_reduce_no_alnum. Qed.

(** C37: every slug is lower case and URL safe (its characters are [a-z],
    [0-9] and ['-']), with no leading, trailing or doubled ['-']. *)
Theorem generateSlug_is_slug (title : string) : is_slug (generateSlug title) = true.
Proof. apply slug_output_shape. Qed.
