(* ===== verification/Store.v ===== *)
(** * The posts collection and the Mongoose operations the handlers call

    The [Post] model ([models/Post], outside [src/]) is modelled from the
    specification's data model: a post has an identifier, a title, a
    slug, a content, tags, an optional status, an author, an optional
    deletion time and a creation time ([timestamps]); [title] and
    [content] are required, so a document whose title or content is empty
    fails validation.  The collection is a list of documents in natural
    (insertion) order; [next_id] stands for the identifier the driver
    generates next.

    The handlers are [async] functions whose [await]s may reject; they are
    written in the [Db] monad: a state monad on [Store] whose result is a
    value or a thrown [exn]. *)

From S2P Require Import Prelude Js ObjectId.

Record Post := mkPost {
  post_id : ObjectId;
  title : string;
  slug : string;
  content : string;
  tags : list string;
  status : option string;
  author : ObjectId;
  deletedAt : option Z;
  createdAt : Z;
}.

#[export] Instance Post_eq_dec : EqDecision Post.
Proof. solve_decision. Defined.

Record Store := mkStore { posts : list Post; next_id : ObjectId }.

(** What an [await] in a handler can throw. *)
Inductive exn :=
| CastError (value : string)        (* a string that is not an ObjectId *)
| ValidationError                   (* schema validation of create/save *)
| RegexSyntaxError (src : string)   (* [new RegExp(src, 'i')] *)
| QueryOptionError                  (* a skip or limit the server rejects *)
| DocumentNotFound                  (* [save] of a document that is gone *)
| TypeError                         (* [req.user._id] with no [req.user] *)
| EntityParseFailed.                (* [express.json()] on a malformed body *)

#[export] Instance exn_eq_dec : EqDecision exn.
Proof. solve_decision. Defined.

(** ** The [Db] monad *)

Inductive res (A : Type) := Ok (a : A) | Throw (e : exn).
Arguments Ok {A} a.
Arguments Throw {A} e.

Definition Db (A : Type) := Store → Store * res A.

Definition ret {A} (a : A) : Db A := λ st, (st, Ok a).
Definition throw {A} (e : exn) : Db A := λ st, (st, Throw e).
Definition bind {A B} (m : Db A) (k : A → Db B) : Db B :=
  λ st, match m st with
        | (st', Ok a) => k a st'
        | (st', Throw e) => (st', Throw e)
        end.
Definition lift {A} (r : res A) : Db A := λ st, (st, r).

Declare Scope db_scope.
Delimit Scope db_scope with db.
Notation "x <- m ;; k" := (bind m (λ x, k))
  (at level 100, m at next level, right associativity) : db_scope.
Notation "m ;; k" := (bind m (λ _ : unit, k)) (at level 100, right associativity) : db_scope.
Open Scope db_scope.

(** ** Regular expressions: the interface the store matches with

    [getPosts] builds [new RegExp(search, 'i')] and the server matches it
    against [title] and [content].  Regular-expression syntax and
    matching are not modelled; they are an interface: [regex_valid src]
    says whether the constructor accepts [src] (otherwise it throws a
    [SyntaxError]), [regex_test_i src s] whether the case-insensitive
    expression matches somewhere in [s]. *)
Class RegexEngine := {
  regex_valid : string → bool;
  regex_test_i : string → string → bool;
}.

(** ** Query documents *)

Inductive author_value := AuthorId (id : ObjectId) | AuthorStr (s : string).

(** The fields of a [find]/[findOne] filter; [None] is an absent field. *)
Record PostQuery := mkQuery {
  q_slug : option string;
  q_status : option string;
  q_author : option author_value;
  q_deletedAt_null : bool;
  q_search : option string;   (* [$or] of the regex on title and content *)
  q_tags : option string;
}.

Definition empty_query : PostQuery := mkQuery None None None false None None.

Definition set_slug (s : string) (q : PostQuery) : PostQuery :=
  mkQuery (Some s) (q_status q) (q_author q) (q_deletedAt_null q) (q_search q) (q_tags q).
Definition set_status (s : string) (q : PostQuery) : PostQuery :=
  mkQuery (q_slug q) (Some s) (q_author q) (q_deletedAt_null q) (q_search q) (q_tags q).
Definition set_author (a : author_value) (q : PostQuery) : PostQuery :=
  mkQuery (q_slug q) (q_status q) (Some a) (q_deletedAt_null q) (q_search q) (q_tags q).
Definition set_deletedAt_null (q : PostQuery) : PostQuery :=
  mkQuery (q_slug q) (q_status q) (q_author q) true (q_search q) (q_tags q).
Definition set_search (s : string) (q : PostQuery) : PostQuery :=
  mkQuery (q_slug q) (q_status q) (q_author q) (q_deletedAt_null q) (Some s) (q_tags q).
Definition set_tags (t : string) (q : PostQuery) : PostQuery :=
  mkQuery (q_slug q) (q_status q) (q_author q) (q_deletedAt_null q) (q_search q) (Some t).

(** Mongoose casts the filter before running it: an [author] given as a
    string must be an ObjectId. *)
Definition cast_author (a : author_value) : res ObjectId :=
  match a with
  | AuthorId i => Ok i
  | AuthorStr s => match oid_of_string s with Some i => Ok i | None => Throw (CastError s) end
  end.

Definition cast_query (q : PostQuery) : res (option ObjectId) :=
  match q_author q with
  | None => Ok None
  | Some a => match cast_author a with Ok i => Ok (Some i) | Throw e => Throw e end
  end.

Section Matching.
Context `{RegexEngine}.

(** Whether the document [p] satisfies the cast filter: equality on a
    scalar field, [null] matching a missing field, array membership for
    [tags], and the [$or] of the two regex tests. *)
Definition matches (q : PostQuery) (aid : option ObjectId) (p : Post) : bool :=
  match q_slug q with Some s => slug p === s | None => true end
  && match q_status q with Some s => status p === Some s | None => true end
  && match aid with Some i => author p === i | None => true end
  && (if q_deletedAt_null q then deletedAt p === None else true)
  && match q_search q with
     | Some r => regex_test_i r (title p) || regex_test_i r (content p)
     | None => true
     end
  && match q_tags q with Some t => bool_decide (t ∈ tags p) | None => true end.

(** [Post.findOne(filter)]: the first match in natural order. *)
Definition findOne (q : PostQuery) : Db (option Post) :=
  λ st, match cast_query q with
        | Ok aid => (st, Ok (List.find (matches q aid) (posts st)))
        | Throw e => (st, Throw e)
        end.

(** [.sort({ createdAt: -1 })]: newest first. *)
Definition newer_first (a b : Post) : Prop := (createdAt b ≤ createdAt a)%Z.

#[export] Instance newer_first_dec : RelDecision newer_first.
Proof. intros a b. unfold newer_first. apply _. Defined.

(** [.skip(n)] must be a non-negative integer; [.limit(n)] with [n = 0]
    is no limit and a negative [n] is [|n|]; NaN is rejected. *)
Definition skip_limit (skip limit : jsnum) (l : list Post) : res (list Post) :=
  match skip, limit with
  | JInt s, JInt n =>
      if (s <? 0)%Z then Throw QueryOptionError
      else let l' := drop (Z.to_nat s) l in
           Ok (if (n =? 0)%Z then l' else take (Z.to_nat (Z.abs n)) l')
  | _, _ => Throw QueryOptionError
  end.

(** [Post.find(filter).skip(s).limit(n).sort({ createdAt: -1 })]: the
    server sorts, then skips, then limits, whatever the call order. *)
Definition findPage (q : PostQuery) (skip limit : jsnum) : Db (list Post) :=
  λ st, match cast_query q with
        | Ok aid =>
            (st, skip_limit skip limit
                   (merge_sort newer_first (List.filter (matches q aid) (posts st))))
        | Throw e => (st, Throw e)
        end.
End Matching.

(** [Post.findById(id)]: the id string is cast first. *)
Definition findById (id : string) : Db (option Post) :=
  λ st, match oid_of_string id with
        | Some i => (st, Ok (List.find (λ p, post_id p === i) (posts st)))
        | None => (st, Throw (CastError id))
        end.

(** Schema validation: [title] and [content] are required strings. *)
Definition valid_post (p : Post) : bool := (title p !== ""%string) && (content p !== ""%string).

(** The fields a creation supplies. *)
Record NewPost := mkNewPost {
  np_title : string; np_slug : string; np_content : string;
  np_tags : list string; np_status : option string; np_author : ObjectId;
}.

(** [Post.create(fields)]: a fresh identifier, [createdAt] set to the
    current time, [deletedAt] unset, appended to the collection. *)
Definition create (np : NewPost) (now : Z) : Db Post :=
  λ st, let p := mkPost (next_id st) (np_title np) (np_slug np) (np_content np)
                        (np_tags np) (np_status np) (np_author np) None now in
        if valid_post p
        then (mkStore (posts st ++ [p]) (N.succ (next_id st)), Ok p)
        else (st, Throw ValidationError).

(** [doc.save()] writes the paths modified since the document was loaded
    ([orig]) with their new values ([upd]); the other paths of the stored
    document are left as they are. *)
Definition pick {A} `{EqDecision A} (o u s : A) : A := if decide (u = o) then s else u.

Definition merge_modified (orig upd stored : Post) : Post :=
  mkPost (post_id stored)
    (pick (title orig) (title upd) (title stored))
    (pick (slug orig) (slug upd) (slug stored))
    (pick (content orig) (content upd) (content stored))
    (pick (tags orig) (tags upd) (tags stored))
    (pick (status orig) (status upd) (status stored))
    (pick (author orig) (author upd) (author stored))
    (pick (deletedAt orig) (deletedAt upd) (deletedAt stored))
    (pick (createdAt orig) (createdAt upd) (createdAt stored)).

Definition save (orig upd : Post) : Db unit :=
  λ st, if negb (valid_post upd) then (st, Throw ValidationError)
        else if existsb (λ d, post_id d === post_id orig) (posts st)
        then (mkStore (map (λ d, if post_id d === post_id orig then merge_modified orig upd d else d)
                           (posts st)) (next_id st), Ok tt)
        else (st, Throw DocumentNotFound).

(** [save] of a document loaded from [st] and not changed since, in the
    sequential case: the stored document is replaced by its new value. *)
Definition replace_by_id (p : Post) (l : list Post) : list Post :=
  map (λ d, if post_id d === post_id p then p else d) l.

(** Well-formed collection: identifiers are distinct and below the next
    one, authors are 96-bit identifiers, every stored document passed
    validation. *)
Definition wf_store (st : Store) : Prop :=
  NoDup (post_id <$> posts st)
  ∧ Forall (λ p, (post_id p < next_id st)%N ∧ (author p < oid_bound)%N ∧ valid_post p = true)
           (posts st).

(** A regular-expression engine for literal patterns only, used to run
    the handlers on concrete requests: a pattern without metacharacters
    is accepted and matches case-insensitively as a substring. *)
Definition regex_meta : list N := [92; 94; 36; 46; 124; 63; 42; 43; 40; 41; 91; 93; 123; 125]%N.

Fixpoint is_prefix (p s : list ascii) : bool :=
  match p, s with
  | [], _ => true
  | c :: p', d :: s' => (c === d) && is_prefix p' s'
  | _ :: _, [] => false
  end.

Fixpoint contains (p s : list ascii) : bool :=
  is_prefix p s || match s with [] => false | _ :: s' => contains p s' end.

Definition literal_regex : RegexEngine := {|
  regex_valid src := forallb (λ c, negb (bool_decide (code c ∈ regex_meta))) (list_ascii_of_string src);
  regex_test_i src s := contains (to_lower (list_ascii_of_string src)) (to_lower (list_ascii_of_string s));
|}.

(** A small collection used by the concrete runs: a published post and
    a soft-deleted one by user 1, a draft by user 2. *)
Definition post_hello : Post :=
  mkPost 10%N "Hello World!" "hello-world" "First post" ["intro"] (Some "published") 1%N None 100%Z.
Definition post_secret : Post :=
  mkPost 11%N "Secret plan" "secret-plan" "Not ready" [] (Some "draft") 2%N None 200%Z.
Definition post_old : Post :=
  mkPost 12%N "Old news" "old-news" "Gone" [] (Some "published") 1%N (Some 300%Z) 50%Z.
Definition demo_store : Store := mkStore [post_hello; post_secret; post_old] 13%N.

(** ** Lemmas on the store operations *)

Section StoreLemmas.
Context `{RegexEngine}.

Lemma matches_spec (q : PostQuery) (aid : option ObjectId) (p : Post) :
  matches q aid p = true ↔
    (∀ s, q_slug q = Some s → slug p = s)
    ∧ (∀ s, q_status q = Some s → status p = Some s)
    ∧ (∀ i, aid = Some i → author p = i)
    ∧ (q_deletedAt_null q = true → deletedAt p = None)
    ∧ (∀ r, q_search q = Some r → (regex_test_i r (title p) || regex_test_i r (content p)) = true)
    ∧ (∀ t, q_tags q = Some t → t ∈ tags p).
Proof.
  unfold matches. destruct q as [sl st au dn se tg]; simpl.
  rewrite !andb_true_iff.
  destruct sl, st, aid, dn, se, tg; rewrite ?bool_decide_eq_true; naive_solver.
Qed.

Lemma findOne_Some (q : PostQuery) (st st' : Store) (p : Post) :
  findOne q st = (st', Ok (Some p)) →
  st' = st ∧ ∃ aid, cast_query q = Ok aid ∧ matches q aid p = true ∧ p ∈ posts st.
Proof.
  unfold findOne. destruct (cast_query q) as [aid|e]; intros Hf; inversion Hf; subst.
  split; [done |]. exists aid. apply list_find_elem_of in H2 as [? ?]. done.
Qed.

Lemma findOne_None (q : PostQuery) (st st' : Store) :
  findOne q st = (st', Ok None) →
  st' = st ∧ ∃ aid, cast_query q = Ok aid ∧ ∀ p, p ∈ posts st → matches q aid p = false.
Proof.
  unfold findOne. destruct (cast_query q) as [aid|e]; intros Hf; inversion Hf; subst.
  split; [done |]. exists aid. split; [done |]. intros p Hp. by eapply list_find_None.
Qed.

Lemma skip_limit_sublist (skip limit : jsnum) (l ps : list Post) :
  skip_limit skip limit l = Ok ps → ∃ n m, ps = take n (drop m l).
Proof.
  unfold skip_limit. destruct skip as [s|], limit as [n|]; try discriminate.
  destruct (s <? 0)%Z; [discriminate |]. intros Hs; injection Hs as <-.
  destruct (n =? 0)%Z; [exists (length l), (Z.to_nat s); by rewrite take_ge by (rewrite length_drop; lia)
                       | by eexists _, _].
Qed.

Lemma newer_first_total : Total newer_first.
Proof. intros a b. unfold newer_first. lia. Qed.

Lemma newer_first_trans : Transitive newer_first.
Proof. intros a b c. unfold newer_first. lia. Qed.

(** What a page of [find] results is: matching documents of the
    collection, newest first, and the read leaves the store as it is. *)
Lemma findPage_Ok (q : PostQuery) (skip limit : jsnum) (st st' : Store) (ps : list Post) :
  findPage q skip limit st = (st', Ok ps) →
  st' = st ∧ ∃ aid, cast_query q = Ok aid
    ∧ Forall (λ p, matches q aid p = true ∧ p ∈ posts st) ps
    ∧ StronglySorted newer_first ps.
Proof.
  unfold findPage. destruct (cast_query q) as [aid|e]; intros Hf; inversion Hf as [[Hst Hps]].
  subst. split; [done |]. exists aid. split; [done |].
  apply skip_limit_sublist in Hps as (n & m & ->). split.
  - apply Forall_take_drop, Forall_merge_sort, Forall_forall.
    intros p Hp. apply list_elem_of_In, filter_In in Hp as [Hin Hm].
    split; [done | by apply list_elem_of_In].
  - apply StronglySorted_take, StronglySorted_drop, StronglySorted_merge_sort;
      [apply newer_first_trans | apply newer_first_total].
Qed.
End StoreLemmas.

Lemma findOne_no_author `{RegexEngine} (q : PostQuery) (st : Store) :
  q_author q = None → findOne q st = (st, Ok (List.find (matches q None) (posts st))).
Proof. intros Ha. unfold findOne, cast_query. by rewrite Ha. Qed.

Lemma findById_cast (s : string) (i : ObjectId) (st : Store) :
  oid_of_string s = Some i →
  findById s st = (st, Ok (List.find (λ p, post_id p === i) (posts st))).
Proof. intros Hs. unfold findById. by rewrite Hs. Qed.

Lemma find_by_id_elem (l : list Post) (p : Post) :
  NoDup (post_id <$> l) → p ∈ l → List.find (λ d, post_id d === post_id p) l = Some p.
Proof.
  intros Hnd Hp. destruct (List.find _ l) as [x|] eqn:Hf.
  - apply list_find_elem_of in Hf as [Hx Hid]. f_equal.
    apply bool_decide_eq_true in Hid. by eapply NoDup_fmap_key.
  - eapply list_find_None in Hf; [| exact Hp]. by rewrite bool_decide_eq_false in Hf.
Qed.

Lemma pick_same {A} `{EqDecision A} (o u : A) : pick o u o = u.
Proof. unfold pick. by destruct (decide (u = o)). Qed.

Lemma merge_modified_same (orig upd : Post) :
  post_id upd = post_id orig → merge_modified orig upd orig = upd.
Proof. intros Hid. unfold merge_modified. rewrite !pick_same, <- Hid. by destruct upd. Qed.

Lemma save_sequential (orig upd : Post) (st : Store) :
  NoDup (post_id <$> posts st) → orig ∈ posts st → post_id upd = post_id orig →
  valid_post upd = true →
  save orig upd st = (mkStore (replace_by_id upd (posts st)) (next_id st), Ok tt).
Proof.
  intros Hnd Hin Hid Hv. unfold save. rewrite Hv. simpl.
  assert (existsb (λ d, post_id d === post_id orig) (posts st) = true) as ->.
  { apply existsb_exists. exists orig. split; [by apply list_elem_of_In | by apply bool_decide_eq_true]. }
  do 3 f_equal. unfold replace_by_id. apply map_ext_in. intros d Hd. rewrite Hid.
  case_bool_decide as Hdo; [| done].
  assert (d = orig) as -> by (eapply NoDup_fmap_key; [exact Hnd | by apply list_elem_of_In | exact Hin | exact Hdo]).
  by apply merge_modified_same.
Qed.

Lemma save_invalid (orig upd : Post) (st : Store) :
  valid_post upd = false → save orig upd st = (st, Throw ValidationError).
Proof. intros Hv. unfold save. by rewrite Hv. Qed.

Lemma fmap_post_id_replace (upd : Post) (l : list Post) :
  post_id <$> replace_by_id upd l = post_id <$> l.
Proof.
  induction l as [|d l IH]; [done |].
  change (replace_by_id upd (d :: l))
    with ((if post_id d === post_id upd then upd else d) :: replace_by_id upd l).
  rewrite !fmap_cons, IH. f_equal. case_bool_decide; congruence.
Qed.

Lemma elem_of_replace_by_id (orig upd : Post) (l : list Post) :
  orig ∈ l → post_id upd = post_id orig → upd ∈ replace_by_id upd l.
Proof.
  intros Hin Hid. unfold replace_by_id. apply list_elem_of_In, in_map_iff.
  exists orig. rewrite bool_decide_eq_true_2 by done. split; [done | by apply list_elem_of_In].
Qed.

Lemma elem_of_replace_by_id_inv (upd d : Post) (l : list Post) :
  d ∈ replace_by_id upd l → d = upd ∨ (d ∈ l ∧ post_id d ≠ post_id upd).
Proof.
  unfold replace_by_id. rewrite list_elem_of_In, in_map_iff. intros (x & <- & Hx).
  case_bool_decide; [by left | right]. split; [by apply list_elem_of_In | done].
Qed.

#[export] Hint Resolve findById_cast find_by_id_elem save_sequential save_invalid : blog.

(** ** Well-formedness under the two ways a handler writes *)

Lemma wf_store_append (st : Store) (p : Post) :
  wf_store st → post_id p = next_id st → (author p < oid_bound)%N → valid_post p = true →
  wf_store (mkStore (posts st ++ [p]) (N.succ (next_id st))).
Proof.
  intros [Hnd Hall] Hid Ha Hv. split; simpl.
  - rewrite fmap_app. apply NoDup_app. split; [done |]. split; [| apply NoDup_singleton].
    intros i Hi Hi'. apply list_elem_of_singleton in Hi'. simpl in Hi'. subst i.
    apply list_elem_of_fmap in Hi as (d & Hdi & Hd).
    eapply Forall_forall in Hall as [Hlt _]; [| exact Hd]. lia.
  - apply Forall_app. split.
    + eapply Forall_impl; [exact Hall |]. intros d (? & ? & ?). repeat split; try done. lia.
    + constructor; [| done]. repeat split; try done. lia.
Qed.

Lemma wf_store_replace (st : Store) (p p' : Post) :
  wf_store st → p ∈ posts st → post_id p' = post_id p → (author p' < oid_bound)%N →
  valid_post p' = true →
  wf_store (mkStore (replace_by_id p' (posts st)) (next_id st)).
Proof.
  intros [Hnd Hall] Hp Hid Ha Hv. split; simpl.
  - by rewrite fmap_post_id_replace.
  - apply Forall_forall. intros d Hd. apply elem_of_replace_by_id_inv in Hd as [-> | [Hd _]].
    + eapply Forall_forall in Hall as [Hlt _]; [| exact Hp]. rewrite Hid. done.
    + by eapply Forall_forall in Hall; [| exact Hd].
Qed.

Lemma elem_of_replace_by_id_other (p' d : Post) (l : list Post) :
  d ∈ l → post_id d ≠ post_id p' → d ∈ replace_by_id p' l.
Proof.
  intros Hd Hne. unfold replace_by_id. apply list_elem_of_In, in_map_iff.
  exists d. rewrite bool_decide_eq_false_2 by done. split; [done | by apply list_elem_of_In].
Qed.

Lemma fmap_slug_replace (p' : Post) (l : list Post) :
  (∀ d, d ∈ l → post_id d = post_id p' → slug d = slug p') →
  slug <$> replace_by_id p' l = slug <$> l.
Proof.
  induction l as [|d l IH]; intros Hsame; [done |].
  change (replace_by_id p' (d :: l))
    with ((if post_id d === post_id p' then p' else d) :: replace_by_id p' l).
  rewrite !fmap_cons, IH by (intros x Hx; apply Hsame; by apply list_elem_of_further).
  f_equal. case_bool_decide as Hid; [| done]. symmetry. apply Hsame; [apply list_elem_of_here | done].
Qed.
