(* ===== verification/Controller.v ===== *)
(** * The request handlers of [src/controllers/post.controller.js]

    Each handler is one [Definition] in the [Db] monad, wrapped by
    [try_next], which is the [try { ... } catch (error) { next(error) }]
    of the source: a thrown [exn] becomes [Next e], a [res.status(c).json(b)]
    becomes [Respond c b].  The request carries the authenticated user
    ([req.user], set by [authMiddleware] on the routes that have it), the
    JSON body, the query string and the route parameter ([:slug] or
    [:id]); [now] is the time [new Date()] and the timestamps read. *)

From S2P Require Import Prelude Js ObjectId Slugify Store.

Record User := mkUser { user_id : ObjectId }.

(** A JSON body as the handlers read it; [None] is an absent key.  Body
    values are strings except [status] and [deletedAt], which may also be
    [null] ([Some None]). *)
Record Body := mkBody {
  b_title : option string;
  b_content : option string;
  b_tags : option (list string);
  b_status : option (option string);
  b_author : option string;
  b_slug : option string;
  b_deletedAt : option (option Z);
  b_createdAt : option Z;
}.

Definition empty_body : Body := mkBody None None None None None None None None.

Record QueryParams := mkParams {
  qp_page : option string;
  qp_limit : option string;
  qp_search : option string;
  qp_tag : option string;
  qp_author : option string;
  qp_status : option string;
}.

Definition no_params : QueryParams := mkParams None None None None None None.

Record Request := mkRequest {
  req_user : option User;
  req_body : Body;
  req_query : QueryParams;
  req_param : string;
}.

Inductive RespBody := BMessage (m : string) | BPost (p : Post) | BPosts (ps : list Post).

Inductive Outcome := Respond (code : Z) (b : RespBody) | Next (e : exn).

Definition Handler := Store → Store * Outcome.

Definition try_next (h : Db Outcome) : Handler :=
  λ st, match h st with
        | (st', Ok o) => (st', o)
        | (st', Throw e) => (st', Next e)
        end.

Definition reply (code : Z) (b : RespBody) : Db Outcome := ret (Respond code b).

Definition msg_required := "Title and content are required"%string.
Definition msg_conflict := "Post with same title already exists"%string.
Definition msg_not_found := "Post not found"%string.
Definition msg_forbidden := "Not authorized"%string.
Definition msg_deleted := "Post deleted successfully"%string.

(** [!post || post.deletedAt]: a missing or soft-deleted document. *)
Definition live_post (o : option Post) : option Post :=
  match o with
  | Some p => match deletedAt p with Some _ => None | None => Some p end
  | None => None
  end.

(** [Object.assign(post, req.body)]: every key of the body is written to
    the document; an [author] that is not an ObjectId makes the document
    invalid ([None]), which the following [save] reports as a
    [ValidationError]. *)
Definition assign_body (p : Post) (b : Body) : option Post :=
  let author' := match b_author b with Some s => oid_of_string s | None => Some (author p) end in
  match author' with
  | Some a =>
      Some (mkPost (post_id p)
              (default (title p) (b_title b))
              (default (slug p) (b_slug b))
              (default (content p) (b_content b))
              (default (tags p) (b_tags b))
              (default (status p) (b_status b))
              a
              (default (deletedAt p) (b_deletedAt b))
              (default (createdAt p) (b_createdAt b)))
  | None => None
  end.

(** [page] and [limit] default to the numbers 1 and 10; when present they
    are strings that the arithmetic and [Number()] convert. *)
Definition num_param (o : option string) (dflt : Z) : jsnum :=
  match o with Some s => to_number s | None => JInt dflt end.

Section Handlers.
Context `{RegexEngine}.

(** Lines 51-81 of [getPosts]: the query document. *)
Definition build_query (user : option User) (qp : QueryParams) : res PostQuery :=
  let q0 := set_deletedAt_null empty_query in
  let q1 := match user with None => set_status "published" q0 | Some _ => q0 end in
  let q2 := match user, truthy_value (qp_status qp) with
            | Some u, Some st =>
                if st === "draft"%string
                then set_author (AuthorId (user_id u)) (set_status "draft" q1)
                else set_status st q1
            | _, _ => q1
            end in
  let search : res (option string) :=
    match truthy_value (qp_search qp) with
    | Some s => if regex_valid s then Ok (Some s) else Throw (RegexSyntaxError s)
    | None => Ok None
    end in
  match search with
  | Throw e => Throw e
  | Ok search =>
      let q3 := match search with Some s => set_search s q2 | None => q2 end in
      let q4 := match truthy_value (qp_tag qp) with Some t => set_tags t q3 | None => q3 end in
      let q5 := match truthy_value (qp_author qp) with
                | Some a => set_author (AuthorStr a) q4
                | None => q4
                end in
      Ok q5
  end.

Definition createPost (req : Request) (now : Z) : Handler :=
  try_next (
    let b := req_body req in
    match truthy_value (b_title b), truthy_value (b_content b) with
    | Some t, Some c =>
        let s := generateSlug t in
        existing <- findOne (set_slug s empty_query) ;;
        match existing with
        | Some _ => reply 400 (BMessage msg_conflict)
        | None =>
            match req_user req with
            | None => throw TypeError
            | Some u =>
                p <- create (mkNewPost t s c (default [] (b_tags b)) (mjoin (b_status b)) (user_id u)) now ;;
                reply 201 (BPost p)
            end
        end
    | _, _ => reply 400 (BMessage msg_required)
    end).

Definition getPosts (req : Request) : Handler :=
  try_next (
    let qp := req_query req in
    q <- lift (build_query (req_user req) qp) ;;
    let page := num_param (qp_page qp) 1 in
    let limit := num_param (qp_limit qp) 10 in
    ps <- findPage q (js_mul (js_sub page (JInt 1)) limit) limit ;;
    reply 200 (BPosts ps)).

Definition bySlugQuery (s : string) : PostQuery :=
  mkQuery (Some s) (Some "published"%string) None true None None.

Definition getPostBySlug (req : Request) : Handler :=
  try_next (
    o <- findOne (bySlugQuery (req_param req)) ;;
    match o with
    | None => reply 404 (BMessage msg_not_found)
    | Some p => reply 200 (BPost p)
    end).
End Handlers.

Definition updatePost (req : Request) : Handler :=
  try_next (
    o <- findById (req_param req) ;;
    match live_post o with
    | None => reply 404 (BMessage msg_not_found)
    | Some p =>
        match req_user req with
        | None => throw TypeError
        | Some u =>
            if oid_to_string (author p) !== oid_to_string (user_id u)
            then reply 403 (BMessage msg_forbidden)
            else match assign_body p (req_body req) with
                 | None => throw ValidationError
                 | Some p' => save p p' ;; reply 200 (BPost p')
                 end
        end
    end).

Definition mark_deleted (p : Post) (now : Z) : Post :=
  mkPost (post_id p) (title p) (slug p) (content p) (tags p) (status p) (author p)
         (Some now) (createdAt p).

Definition deletePost (req : Request) (now : Z) : Handler :=
  try_next (
    o <- findById (req_param req) ;;
    match live_post o with
    | None => reply 404 (BMessage msg_not_found)
    | Some p =>
        match req_user req with
        | None => throw TypeError
        | Some u =>
            if oid_to_string (author p) !== oid_to_string (user_id u)
            then reply 403 (BMessage msg_forbidden)
            else save p (mark_deleted p now) ;; reply 200 (BMessage msg_deleted)
        end
    end).

(** Requesters and query strings used by the concrete runs. *)
Definition alice : User := mkUser 1%N.
Definition bob : User := mkUser 2%N.

Definition params_status (st : string) : QueryParams := mkParams None None None None None (Some st).

Definition list_request (u : option User) (qp : QueryParams) : Request := mkRequest u empty_body qp "".
Definition body_request (u : option User) (b : Body) (param : string) : Request :=
  mkRequest u b no_params param.
Definition title_body (t c : string) : Body := mkBody (Some t) (Some c) None None None None None None.

(** ** The query [getPosts] builds *)

Section QueryTheorems.
Context `{RegexEngine}.

Lemma build_query_deleted (user : option User) (qp : QueryParams) (q : PostQuery) :
  build_query user qp = Ok q → q_deletedAt_null q = true.
Proof.
  unfold build_query. destruct (truthy_value (qp_search qp)) as [s|]; [destruct (regex_valid s) |];
    intros Hq; inversion Hq; subst;
    destruct user, (truthy_value (qp_status qp)); try case_bool_decide;
    destruct (truthy_value (qp_tag qp)), (truthy_value (qp_author qp)); done.
Qed.

Lemma build_query_anonymous (qp : QueryParams) (q : PostQuery) :
  build_query None qp = Ok q → q_status q = Some "published"%string.
Proof.
  unfold build_query. destruct (truthy_value (qp_search qp)) as [s|]; [destruct (regex_valid s) |];
    intros Hq; inversion Hq; subst;
    destruct (truthy_value (qp_tag qp)), (truthy_value (qp_author qp)); done.
Qed.

(** With [status=draft], the status is [draft] and the author is the
    requester, unless an [author] parameter is present: line 80
    overwrites [query.author] with it. *)
Lemma build_query_draft (u : User) (qp : QueryParams) (q : PostQuery) :
  truthy_value (qp_status qp) = Some "draft"%string →
  build_query (Some u) qp = Ok q →
  q_status q = Some "draft"%string
  ∧ q_author q = Some (match truthy_value (qp_author qp) with
                       | Some a => AuthorStr a
                       | None => AuthorId (user_id u)
                       end).
Proof.
  unfold build_query. intros Hs. rewrite Hs. simpl.
  destruct (truthy_value (qp_search qp)) as [s|]; [destruct (regex_valid s) |];
    intros Hq; inversion Hq; subst;
    destruct (truthy_value (qp_tag qp)), (truthy_value (qp_author qp)); done.
Qed.

(** An authenticated request without a [status] parameter gets no
    status constraint at all. *)
Lemma build_query_no_status (u : User) (qp : QueryParams) (q : PostQuery) :
  truthy_value (qp_status qp) = None → build_query (Some u) qp = Ok q → q_status q = None.
Proof.
  unfold build_query. intros Hs. rewrite Hs.
  destruct (truthy_value (qp_search qp)) as [s|]; [destruct (regex_valid s) |];
    intros Hq; inversion Hq; subst;
    destruct (truthy_value (qp_tag qp)), (truthy_value (qp_author qp)); done.
Qed.

(** The outcomes of [getPosts]: it never writes, and a [200] carries
    matching documents of the collection, newest first. *)
Lemma getPosts_200 (req : Request) (st st' : Store) (ps : list Post) :
  getPosts req st = (st', Respond 200 (BPosts ps)) →
  st' = st ∧ ∃ q aid, build_query (req_user req) (req_query req) = Ok q
    ∧ cast_query q = Ok aid
    ∧ Forall (λ p, matches q aid p = true ∧ p ∈ posts st) ps
    ∧ StronglySorted newer_first ps.
Proof.
  unfold getPosts, try_next, bind, lift, reply, ret.
  destruct (build_query (req_user req) (req_query req)) as [q|e] eqn:Hq; [| discriminate].
  destruct (findPage q _ _ st) as [st1 [ps1|e]] eqn:Hf; intros Heq; inversion Heq; subst.
  apply findPage_Ok in Hf as [-> (aid & Hc & Hall & Hsort)]. split; [done |]. by exists q, aid.
Qed.

Lemma getPosts_read_only (req : Request) (st : Store) : fst (getPosts req st) = st.
Proof.
  unfold getPosts, try_next, bind, lift, reply, ret.
  destruct (build_query (req_user req) (req_query req)) as [q|e]; [| done].
  destruct (findPage q _ _ st) as [st1 r] eqn:Hf. unfold findPage in Hf.
  destruct (cast_query q); injection Hf as <- <-; [| done]. by destruct (skip_limit _ _ _).
Qed.
End QueryTheorems.

(** ** [getPosts]: what a listing can show *)

Section ListingTheorems.
Context `{RegexEngine}.

(** An anonymous listing shows only published, live documents of the
    collection, whatever the query parameters, and changes nothing. *)
Lemma getPosts_anonymous_results (req : Request) (st st' : Store) (ps : list Post) :
  req_user req = None →
  getPosts req st = (st', Respond 200 (BPosts ps)) →
  st' = st ∧ Forall (λ p, status p = Some "published"%string ∧ deletedAt p = None ∧ p ∈ posts st) ps.
Proof.
  intros Hu Hg. apply getPosts_200 in Hg as [-> (q & aid & Hq & _ & Hall & _)].
  split; [done |]. rewrite Hu in Hq.
  pose proof (build_query_deleted _ _ _ Hq) as Hd. pose proof (build_query_anonymous _ _ Hq) as Hs.
  eapply Forall_impl; [exact Hall |]. intros p [Hm Hin].
  apply matches_spec in Hm as (_ & Hst & _ & Hdel & _). auto.
Qed.

(** C3: an authenticated listing with [status=draft] and no [author]
    parameter shows only the requester's own live drafts. *)
Theorem getPosts_own_drafts (req : Request) (u : User) (st st' : Store) (ps : list Post) :
  req_user req = Some u →
  truthy_value (qp_status (req_query req)) = Some "draft"%string →
  truthy_value (qp_author (req_query req)) = None →
  getPosts req st = (st', Respond 200 (BPosts ps)) →
  Forall (λ p, status p = Some "draft"%string ∧ author p = user_id u ∧ deletedAt p = None) ps.
Proof.
  intros Hu Hs Ha Hg. apply getPosts_200 in Hg as [_ (q & aid & Hq & Hc & Hall & _)].
  rewrite Hu in Hq. pose proof (build_query_deleted _ _ _ Hq) as Hd.
  destruct (build_query_draft _ _ _ Hs Hq) as [Hst Hau]. rewrite Ha in Hau.
  unfold cast_query in Hc. rewrite Hau in Hc. simpl in Hc. injection Hc as <-.
  eapply Forall_impl; [exact Hall |]. intros p [Hm _].
  apply matches_spec in Hm as (_ & Hst' & Hau' & Hdel & _). auto.
Qed.


(** C39: an authenticated listing without [status] does not filter by
    status: with no other parameter it is the first ten live documents,
    newest first, drafts of every author included.  (This is the
    handler's rule; the route [GET /api/posts] never sets [req.user],
    see [Routes.app_list_published].) *)
Theorem getPosts_authenticated_default (req : Request) (u : User) (st : Store) :
  req_user req = Some u → req_query req = no_params →
  getPosts req st
  = (st, Respond 200 (BPosts (take 10 (merge_sort newer_first
                                 (List.filter (λ p, deletedAt p === None) (posts st)))))).
Proof.
  intros Hu Hq. unfold getPosts, try_next, bind, lift, reply, ret.
  rewrite Hu, Hq. simpl. unfold findPage. simpl.
  change (Z.to_nat ((1 - 1) * 10)) with 0%nat. rewrite drop_0.
  assert (List.filter (matches (set_deletedAt_null empty_query) None) (posts st)
          = List.filter (λ p, deletedAt p === None) (posts st)) as ->; [| done].
  apply filter_ext. intros p. unfold matches. simpl. by rewrite !andb_true_r.
Qed.

(** C34: a page never holds more documents than [|limit|] (10 by
    default); a limit of 0 means no limit. *)
Theorem getPosts_page_bound (req : Request) (st st' : Store) (ps : list Post) (n : Z) :
  num_param (qp_limit (req_query req)) 10 = JInt n → n ≠ 0%Z →
  getPosts req st = (st', Respond 200 (BPosts ps)) →
  length ps ≤ Z.to_nat (Z.abs n).
Proof.
  intros Hn Hn0. unfold getPosts, try_next, bind, lift, reply, ret. rewrite Hn.
  destruct (build_query (req_user req) (req_query req)) as [q|e]; [| discriminate].
  unfold findPage. destruct (cast_query q) as [aid|e]; [| discriminate].
  unfold skip_limit. destruct (js_mul _ _) as [s|]; [| discriminate].
  destruct (s <? 0)%Z; [discriminate |].
  rewrite (proj2 (Z.eqb_neq n 0) Hn0). intros Heq. injection Heq as _ <-. apply length_take_le.
Qed.

(** C36: an [author] parameter that is not an ObjectId makes the query
    cast fail; the error goes to [next]. *)
Theorem getPosts_bad_author (req : Request) (a : string) (st : Store) :
  truthy_value (qp_search (req_query req)) = None →
  truthy_value (qp_author (req_query req)) = Some a → oid_of_string a = None →
  getPosts req st = (st, Next (CastError a)).
Proof.
  intros Hs Ha Hc. unfold getPosts, try_next, bind, lift, build_query.
  rewrite Hs, Ha. unfold findPage, cast_query. simpl. by rewrite Hc.
Qed.

(** C27: a [search] parameter that [new RegExp(search, 'i')] rejects throws
    before any query runs; the [SyntaxError] goes to [next] and nothing
    is read or written. *)
Theorem getPosts_bad_search (req : Request) (s : string) (st : Store) :
  truthy_value (qp_search (req_query req)) = Some s → regex_valid s = false →
  getPosts req st = (st, Next (RegexSyntaxError s)).
Proof.
  intros Hs Hv. unfold getPosts, try_next, bind, lift, build_query. by rewrite Hs, Hv.
Qed.
End ListingTheorems.

(** ** [getPostBySlug] *)

Section BySlugTheorems.
Context `{RegexEngine}.

(** C4: a post read by slug is a published, live document with that
    slug; drafts and deleted documents are never shown. *)
Theorem getPostBySlug_found (req : Request) (st st' : Store) (p : Post) :
  getPostBySlug req st = (st', Respond 200 (BPost p)) →
  st' = st ∧ p ∈ posts st ∧ slug p = req_param req
  ∧ status p = Some "published"%string ∧ deletedAt p = None.
Proof.
  unfold getPostBySlug, try_next, bind, reply, ret.
  rewrite findOne_no_author by done.
  destruct (List.find _ _) as [x|] eqn:Hf; intros Heq; inversion Heq; subst.
  apply list_find_elem_of in Hf as [Hin Hm].
  apply matches_spec in Hm as (Hsl & Hst & _ & Hdel & _). simpl in *.
  repeat split; auto.
Qed.

(** C32: [404] for a slug only when no published, live document has it. *)
Theorem getPostBySlug_not_found (req : Request) (st st' : Store) (b : RespBody) :
  getPostBySlug req st = (st', Respond 404 b) →
  st' = st ∧ ∀ p, p ∈ posts st → slug p = req_param req →
    status p ≠ Some "published"%string ∨ deletedAt p ≠ None.
Proof.
  unfold getPostBySlug, try_next, bind, reply, ret.
  rewrite findOne_no_author by done.
  destruct (List.find _ _) as [x|] eqn:Hf; intros Heq; inversion Heq; subst.
  split; [done |]. intros p Hp Hs.
  destruct (decide (status p = Some "published"%string)) as [Hst|]; [| by left].
  destruct (deletedAt p) as [d|] eqn:Hd; [right; congruence |].
  eapply list_find_None in Hf; [| exact Hp].
  assert (matches (bySlugQuery (req_param req)) None p = true); [| congruence].
  apply matches_spec. simpl. naive_solver.
Qed.
End BySlugTheorems.

(** ** [createPost] *)

Section CreateTheorems.
Context `{RegexEngine}.

Lemma findOne_slug_None (s : string) (st : Store) :
  List.find (matches (set_slug s empty_query) None) (posts st) = None →
  ∀ p, p ∈ posts st → slug p ≠ s.
Proof.
  intros Hf p Hp Hs. eapply list_find_None in Hf; [| exact Hp].
  unfold matches in Hf. simpl in Hf. rewrite !andb_true_r in Hf.
  by apply bool_decide_eq_false in Hf.
Qed.

(** C17: a missing or empty title or content is rejected with [400]
    before the store is touched. *)
Theorem createPost_missing_fields (req : Request) (now : Z) (st : Store) :
  truthy_value (b_title (req_body req)) = None ∨ truthy_value (b_content (req_body req)) = None →
  createPost req now st = (st, Respond 400 (BMessage msg_required)).
Proof.
  intros Hm. unfold createPost, try_next.
  destruct Hm as [-> | ->]; [done |]. by destruct (truthy_value (b_title _)).
Qed.

(** A title whose slug some stored document already has, live or
    soft-deleted, is rejected with [400] and nothing is written. *)
Lemma createPost_slug_taken (req : Request) (now : Z) (st : Store) (t c : string) (p : Post) :
  truthy_value (b_title (req_body req)) = Some t →
  truthy_value (b_content (req_body req)) = Some c →
  p ∈ posts st → slug p = generateSlug t →
  createPost req now st = (st, Respond 400 (BMessage msg_conflict)).
Proof.
  intros Ht Hc Hp Hs. unfold createPost, try_next, bind. rewrite Ht, Hc.
  rewrite findOne_no_author by done.
  destruct (List.find _ _) eqn:Hf; [done |].
  exfalso. eapply findOne_slug_None; eauto.
Qed.

(** A creation whose slug no stored document has appends the post. *)
Lemma createPost_fresh (req : Request) (now : Z) (st : Store) (t c : string) (u : User) :
  truthy_value (b_title (req_body req)) = Some t →
  truthy_value (b_content (req_body req)) = Some c →
  req_user req = Some u →
  (∀ p, p ∈ posts st → slug p ≠ generateSlug t) →
  let p := mkPost (next_id st) t (generateSlug t) c (default [] (b_tags (req_body req)))
                  (mjoin (b_status (req_body req))) (user_id u) None now in
  createPost req now st = (mkStore (posts st ++ [p]) (N.succ (next_id st)), Respond 201 (BPost p)).
Proof.
  intros Ht Hc Hu Hfresh p. unfold createPost, try_next, bind. rewrite Ht, Hc.
  rewrite findOne_no_author by done.
  destruct (List.find _ _) as [x|] eqn:Hf.
  - apply list_find_elem_of in Hf as [Hx Hm]. unfold matches in Hm. simpl in Hm.
    rewrite !andb_true_r in Hm. apply bool_decide_eq_true in Hm. by destruct (Hfresh x).
  - apply truthy_value_Some in Ht as [_ Ht], Hc as [_ Hc].
    assert (valid_post p = true) as Hv.
    { unfold valid_post. cbn -[bool_decide]. by rewrite !bool_decide_eq_false_2. }
    rewrite Hu. unfold create. cbn -[valid_post generateSlug]. subst p. by rewrite Hv.
Qed.

(** C16: otherwise the post is created with a fresh identifier, the
    requester as author, the slug of its title, no deletion time and
    the current time as creation time, appended to the collection. *)
Theorem createPost_created (req : Request) (now : Z) (st : Store) (t c : string) (u : User) :
  truthy_value (b_title (req_body req)) = Some t →
  truthy_value (b_content (req_body req)) = Some c →
  req_user req = Some u →
  (∀ p, p ∈ posts st → slug p ≠ generateSlug t) →
  let p := mkPost (next_id st) t (generateSlug t) c (default [] (b_tags (req_body req)))
                  (mjoin (b_status (req_body req))) (user_id u) None now in
  createPost req now st = (mkStore (posts st ++ [p]) (N.succ (next_id st)), Respond 201 (BPost p)).
Proof. exact (createPost_fresh req now st t c u). Qed.

(** C30: the spec's open question on empty slugs, answered by the code:
    [createPost] does not reject a title none of whose characters,
    through the slug character map, is a letter or a digit (["!!!"],
    ["?"], a title of spaces): the post is created under the empty
    slug, as long as no stored document has the empty slug.  These are
    exactly the titles whose slug is empty
    ([Slugify.generateSlug_empty_title]). *)
Theorem createPost_empty_slug (req : Request) (now : Z) (st : Store) (t c : string) (u : User) :
  truthy_value (b_title (req_body req)) = Some t →
  truthy_value (b_content (req_body req)) = Some c →
  req_user req = Some u →
  Forall (λ ch, Forall (λ d, is_alnum d = false) (slug_char ch)) (list_ascii_of_string t) →
  (∀ p, p ∈ posts st → slug p ≠ ""%string) →
  let p := mkPost (next_id st) t "" c (default [] (b_tags (req_body req)))
                  (mjoin (b_status (req_body req))) (user_id u) None now in
  createPost req now st = (mkStore (posts st ++ [p]) (N.succ (next_id st)), Respond 201 (BPost p)).
Proof.
  intros Ht Hc Hu Hnone Hfree p. apply generateSlug_empty_title in Hnone.
  rewrite <- Hnone in Hfree. subst p. rewrite <- Hnone.
  exact (createPost_fresh req now st t c u Ht Hc Hu Hfree).
Qed.
End CreateTheorems.

(** ** [updatePost] and [deletePost]: the authorization rule *)

Lemma live_post_find (l : list Post) (p : Post) :
  NoDup (post_id <$> l) → p ∈ l → deletedAt p = None →
  live_post (List.find (λ d, post_id d === post_id p) l) = Some p.
Proof.
  intros Hnd Hp Hd. rewrite find_by_id_elem by done. simpl.
  destruct (deletedAt p); [discriminate | done].
Qed.

Lemma live_post_find_none (l : list Post) (i : ObjectId) :
  (∀ p, p ∈ l → post_id p = i → deletedAt p ≠ None) →
  live_post (List.find (λ d, post_id d === i) l) = None.
Proof.
  intros Hall. destruct (List.find _ l) as [d|] eqn:Hf; [| done].
  apply list_find_elem_of in Hf as [Hd Hid]. apply bool_decide_eq_true in Hid.
  simpl. destruct (deletedAt d) eqn:Hdd; [done |]. by destruct (Hall d Hd Hid).
Qed.

Lemma assign_body_id (p p' : Post) (b : Body) : assign_body p b = Some p' → post_id p' = post_id p.
Proof.
  unfold assign_body. destruct (b_author b) as [s|]; [destruct (oid_of_string s) |];
    intros H; inversion H; done.
Qed.

Lemma author_check_equal (a : ObjectId) : (oid_to_string a !== oid_to_string a) = false.
Proof. by rewrite bool_decide_eq_true_2. Qed.

Lemma author_check_differ (a b : ObjectId) :
  (a < oid_bound)%N → (b < oid_bound)%N → a ≠ b → (oid_to_string a !== oid_to_string b) = true.
Proof. intros Ha Hb Hab. rewrite oid_str_neq_iff by done. by rewrite bool_decide_eq_false_2. Qed.

Lemma wf_store_elem (st : Store) (p : Post) :
  wf_store st → p ∈ posts st →
  (post_id p < next_id st)%N ∧ (author p < oid_bound)%N ∧ valid_post p = true.
Proof. intros [_ Hall] Hp. by eapply Forall_forall in Hall; [| exact Hp]. Qed.

(** C38: an id that is not an ObjectId fails the cast of [findById]; the
    error goes to [next] (the same holds for [deletePost]). *)
Theorem updatePost_bad_id (req : Request) (st : Store) :
  oid_of_string (req_param req) = None →
  updatePost req st = (st, Next (CastError (req_param req))).
Proof. intros Hc. unfold updatePost, try_next, bind, findById. by rewrite Hc. Qed.

(** C6: a missing or soft-deleted post is [404] to an update, and nothing
    is written. *)
Theorem updatePost_not_live (req : Request) (st : Store) (i : ObjectId) :
  oid_of_string (req_param req) = Some i →
  (∀ p, p ∈ posts st → post_id p = i → deletedAt p ≠ None) →
  updatePost req st = (st, Respond 404 (BMessage msg_not_found)).
Proof.
  intros Hc Hall. unfold updatePost, try_next, bind. rewrite (findById_cast _ _ _ Hc).
  by rewrite live_post_find_none.
Qed.

(** C5: a live post updated by someone other than its author is [403],
    and nothing is written. *)
Theorem updatePost_forbidden (req : Request) (st : Store) (p : Post) (u : User) :
  wf_store st → p ∈ posts st → deletedAt p = None →
  oid_of_string (req_param req) = Some (post_id p) →
  req_user req = Some u → (user_id u < oid_bound)%N → author p ≠ user_id u →
  updatePost req st = (st, Respond 403 (BMessage msg_forbidden)).
Proof.
  intros Hwf Hp Hd Hc Hu Hub Hne. destruct (wf_store_elem st p Hwf Hp) as (_ & Hab & _).
  unfold updatePost, try_next, bind. rewrite (findById_cast _ _ _ Hc).
  rewrite live_post_find by (done || apply Hwf). rewrite Hu.
  by rewrite (author_check_differ (author p) (user_id u) Hab Hub Hne).
Qed.

(** The author's update, for the theorems on the routes: the assigned
    document replaces the stored one. *)
Lemma updatePost_author_writes (req : Request) (st : Store) (p p' : Post) (u : User) :
  wf_store st → p ∈ posts st → deletedAt p = None →
  oid_of_string (req_param req) = Some (post_id p) →
  req_user req = Some u → author p = user_id u →
  assign_body p (req_body req) = Some p' → valid_post p' = true →
  updatePost req st = (mkStore (replace_by_id p' (posts st)) (next_id st), Respond 200 (BPost p')).
Proof.
  intros Hwf Hp Hd Hc Hu Ha Hb Hv.
  unfold updatePost, try_next, bind. rewrite (findById_cast _ _ _ Hc).
  rewrite live_post_find by (done || apply Hwf). rewrite Hu, Ha, author_check_equal, Hb.
  rewrite (save_sequential p p' st); [done | apply Hwf | done | exact (assign_body_id _ _ _ Hb) | done].
Qed.

(** C7: the author's update writes [Object.assign(post, req.body)] in
    place of the stored post and answers [200] with it. *)
Theorem updatePost_by_author (req : Request) (st : Store) (p p' : Post) (u : User) :
  wf_store st → p ∈ posts st → deletedAt p = None →
  oid_of_string (req_param req) = Some (post_id p) →
  req_user req = Some u → author p = user_id u →
  assign_body p (req_body req) = Some p' → valid_post p' = true →
  updatePost req st = (mkStore (replace_by_id p' (posts st)) (next_id st), Respond 200 (BPost p')).
Proof. exact (updatePost_author_writes req st p p' u). Qed.

(** The author's delete sets [deletedAt] to the current time in place of
    the stored post and answers [200]. *)
Theorem deletePost_by_author (req : Request) (now : Z) (st : Store) (p : Post) (u : User) :
  wf_store st → p ∈ posts st → deletedAt p = None →
  oid_of_string (req_param req) = Some (post_id p) →
  req_user req = Some u → author p = user_id u →
  deletePost req now st
  = (mkStore (replace_by_id (mark_deleted p now) (posts st)) (next_id st),
     Respond 200 (BMessage msg_deleted)).
Proof.
  intros Hwf Hp Hd Hc Hu Ha. destruct (wf_store_elem st p Hwf Hp) as (_ & _ & Hv).
  unfold deletePost, try_next, bind. rewrite (findById_cast _ _ _ Hc).
  rewrite live_post_find by (done || apply Hwf). rewrite Hu, Ha, author_check_equal.
  rewrite (save_sequential p (mark_deleted p now) st); [done | apply Hwf | done | done |].
  revert Hv. unfold valid_post. by destruct p.
Qed.

(** C8: deleting the same post twice: the first request keeps the
    document in place with [deletedAt] set to the time of the request
    (a soft delete, nothing removed) and answers [200]; the second
    answers [404] and writes nothing. *)
Theorem deletePost_twice (req : Request) (now now' : Z) (st : Store) (p : Post) (u : User) :
  wf_store st → p ∈ posts st → deletedAt p = None →
  oid_of_string (req_param req) = Some (post_id p) →
  req_user req = Some u → author p = user_id u →
  let st1 := mkStore (replace_by_id (mark_deleted p now) (posts st)) (next_id st) in
  deletePost req now st = (st1, Respond 200 (BMessage msg_deleted))
  ∧ deletePost req now' st1 = (st1, Respond 404 (BMessage msg_not_found)).
Proof.
  intros Hwf Hp Hd Hc Hu Ha st1. split; [by apply (deletePost_by_author req now st p u) |].
  unfold deletePost, try_next, bind. rewrite (findById_cast _ _ _ Hc).
  rewrite live_post_find_none; [reflexivity |].
  intros d Hdin Hid. apply elem_of_replace_by_id_inv in Hdin as [-> | [_ Hne]]; [done |].
  by destruct Hne.
Qed.

(** ** What each handler can do to the store *)

Lemma getPostBySlug_read_only `{RegexEngine} (req : Request) (st : Store) :
  fst (getPostBySlug req st) = st.
Proof.
  unfold getPostBySlug, try_next, bind, reply, ret. rewrite findOne_no_author by done.
  by destruct (List.find _ _).
Qed.

Lemma found_live (req : Request) (st st1 : Store) (o : option Post) (p : Post) :
  findById (req_param req) st = (st1, Ok o) → live_post o = Some p →
  st1 = st ∧ p ∈ posts st ∧ deletedAt p = None.
Proof.
  unfold findById. destruct (oid_of_string (req_param req)); intros Hf; inversion Hf; subst; [].
  destruct (List.find _ _) as [d|] eqn:Hd; [| done]. simpl.
  destruct (deletedAt d) eqn:Hdd; intros Hl; inversion Hl; subst.
  apply list_find_elem_of in Hd as [Hin _]. done.
Qed.

Lemma createPost_effect `{RegexEngine} (req : Request) (now : Z) (st : Store) :
  fst (createPost req now st) = st
  ∨ ∃ p u, fst (createPost req now st) = mkStore (posts st ++ [p]) (N.succ (next_id st))
      ∧ req_user req = Some u ∧ author p = user_id u
      ∧ post_id p = next_id st ∧ valid_post p = true ∧ deletedAt p = None
      ∧ (∀ d, d ∈ posts st → slug d ≠ slug p).
Proof.
  unfold createPost, try_next, bind.
  destruct (truthy_value (b_title (req_body req))) as [t|],
    (truthy_value (b_content (req_body req))) as [c|]; try by left.
  rewrite findOne_no_author by done.
  destruct (List.find _ _) as [x|] eqn:Hf; [by left |].
  destruct (req_user req) as [u|] eqn:Hu; [| by left].
  unfold create. cbn -[valid_post generateSlug].
  destruct (valid_post _) eqn:Hv; [right | by left].
  eexists _, u. repeat split; try done. simpl. by apply findOne_slug_None.
Qed.

Lemma updatePost_effect (req : Request) (st : Store) :
  wf_store st →
  fst (updatePost req st) = st
  ∨ ∃ p p', p ∈ posts st ∧ deletedAt p = None ∧ assign_body p (req_body req) = Some p'
      ∧ valid_post p' = true
      ∧ fst (updatePost req st) = mkStore (replace_by_id p' (posts st)) (next_id st)
      ∧ ∃ u, req_user req = Some u ∧ (oid_to_string (author p) !== oid_to_string (user_id u)) = false.
Proof.
  intros Hwf. unfold updatePost, try_next, bind.
  destruct (findById (req_param req) st) as [st1 [o|e]] eqn:Hf;
    [| unfold findById in Hf; destruct (oid_of_string _); by inversion Hf; left].
  destruct (live_post o) as [p|] eqn:Hl;
    [| unfold findById in Hf; destruct (oid_of_string _); by inversion Hf; left].
  destruct (found_live req st st1 o p Hf Hl) as (-> & Hin & Hd).
  destruct (req_user req) as [u|] eqn:Hu; [| by left].
  destruct (_ !== _) eqn:Ha; [by left |].
  destruct (assign_body p (req_body req)) as [p'|] eqn:Hb; [| by left].
  destruct (valid_post p') eqn:Hv; [| by left; rewrite save_invalid].
  right. exists p, p'. repeat split; try done; [| by exists u].
  rewrite (save_sequential p p' st); [done | apply Hwf | done | exact (assign_body_id _ _ _ Hb) | done].
Qed.

Lemma deletePost_effect (req : Request) (now : Z) (st : Store) :
  wf_store st →
  fst (deletePost req now st) = st
  ∨ ∃ p, p ∈ posts st ∧ deletedAt p = None
      ∧ fst (deletePost req now st) = mkStore (replace_by_id (mark_deleted p now) (posts st)) (next_id st)
      ∧ ∃ u, req_user req = Some u ∧ (oid_to_string (author p) !== oid_to_string (user_id u)) = false.
Proof.
  intros Hwf. unfold deletePost, try_next, bind.
  destruct (findById (req_param req) st) as [st1 [o|e]] eqn:Hf;
    [| unfold findById in Hf; destruct (oid_of_string _); by inversion Hf; left].
  destruct (live_post o) as [p|] eqn:Hl;
    [| unfold findById in Hf; destruct (oid_of_string _); by inversion Hf; left].
  destruct (found_live req st st1 o p Hf Hl) as (-> & Hin & Hd).
  destruct (req_user req) as [u|] eqn:Hu; [| by left].
  destruct (_ !== _) eqn:Ha; [by left |].
  destruct (wf_store_elem st p Hwf Hin) as (_ & _ & Hv).
  right. exists p. repeat split; try done; [| by exists u].
  rewrite (save_sequential p (mark_deleted p now) st); [done | apply Hwf | done | done |].
  revert Hv. unfold valid_post. by destruct p.
Qed.

(** ** Concrete runs *)

#[local] Existing Instance literal_regex.

Lemma demo_store_wf : wf_store demo_store.
Proof. split; apply (bool_decide_unpack _); vm_compute; reflexivity. Qed.

Lemma getPosts_own_drafts_witness :
  getPosts (list_request (Some bob) (params_status "draft")) demo_store
  = (demo_store, Respond 200 (BPosts [post_secret]))
  ∧ Forall (λ p, status p = Some "draft"%string ∧ author p = user_id bob ∧ deletedAt p = None)
           [post_secret].
Proof.
  assert (Hg : getPosts (list_request (Some bob) (params_status "draft")) demo_store
               = (demo_store, Respond 200 (BPosts [post_secret]))) by (vm_compute; reflexivity).
  split; [exact Hg |].
  exact (getPosts_own_drafts (list_request (Some bob) (params_status "draft")) bob _ _ _ eq_refl ltac:(vm_compute; reflexivity)
           ltac:(vm_compute; reflexivity) Hg).
Defined.


Lemma getPosts_authenticated_default_witness :
  getPosts (list_request (Some alice) no_params) demo_store
  = (demo_store, Respond 200 (BPosts [post_secret; post_hello])).
Proof.
  rewrite (getPosts_authenticated_default (list_request (Some alice) no_params) alice demo_store
             eq_refl eq_refl).
  vm_compute. reflexivity.
Defined.

Lemma getPosts_page_bound_witness :
  getPosts (list_request None (mkParams None (Some "1") None None None None)) demo_store
  = (demo_store, Respond 200 (BPosts [post_hello]))
  ∧ length [post_hello] ≤ Z.to_nat (Z.abs 1).
Proof.
  assert (Hg : getPosts (list_request None (mkParams None (Some "1") None None None None)) demo_store
               = (demo_store, Respond 200 (BPosts [post_hello]))) by (vm_compute; reflexivity).
  split; [exact Hg |].
  exact (getPosts_page_bound (list_request None (mkParams None (Some "1") None None None None)) _ _ _ 1 ltac:(vm_compute; reflexivity) ltac:(lia) Hg).
Defined.

Lemma getPosts_bad_author_witness :
  getPosts (list_request None (mkParams None None None None (Some "nobody") None)) demo_store
  = (demo_store, Next (CastError "nobody")).
Proof.
  exact (getPosts_bad_author (list_request None (mkParams None None None None (Some "nobody") None)) "nobody" demo_store ltac:(vm_compute; reflexivity)
           ltac:(vm_compute; reflexivity) ltac:(vm_compute; reflexivity)).
Defined.

(** An unbalanced parenthesis is not a regular expression. *)
Lemma getPosts_bad_search_witness :
  getPosts (list_request None (mkParams None None (Some "(") None None None)) demo_store
  = (demo_store, Next (RegexSyntaxError "(")).
Proof.
  exact (getPosts_bad_search (list_request None (mkParams None None (Some "(") None None None)) "("
           demo_store ltac:(vm_compute; reflexivity) ltac:(vm_compute; reflexivity)).
Defined.

Lemma getPostBySlug_found_witness :
  getPostBySlug (body_request None empty_body "hello-world") demo_store
  = (demo_store, Respond 200 (BPost post_hello))
  ∧ (demo_store = demo_store ∧ post_hello ∈ posts demo_store
     ∧ slug post_hello = "hello-world"%string
     ∧ status post_hello = Some "published"%string ∧ deletedAt post_hello = None).
Proof.
  assert (Hg : getPostBySlug (body_request None empty_body "hello-world") demo_store
               = (demo_store, Respond 200 (BPost post_hello))) by (vm_compute; reflexivity).
  split; [exact Hg |]. exact (getPostBySlug_found (body_request None empty_body "hello-world") _ _ _ Hg).
Defined.

(** The draft's slug answers [404]. *)
Lemma getPostBySlug_not_found_witness :
  getPostBySlug (body_request None empty_body "secret-plan") demo_store
  = (demo_store, Respond 404 (BMessage msg_not_found))
  ∧ (demo_store = demo_store ∧ ∀ p, p ∈ posts demo_store → slug p = "secret-plan"%string →
       status p ≠ Some "published"%string ∨ deletedAt p ≠ None).
Proof.
  assert (Hg : getPostBySlug (body_request None empty_body "secret-plan") demo_store
               = (demo_store, Respond 404 (BMessage msg_not_found))) by (vm_compute; reflexivity).
  split; [exact Hg |]. exact (getPostBySlug_not_found (body_request None empty_body "secret-plan") _ _ _ Hg).
Defined.

Lemma createPost_missing_fields_witness :
  createPost (body_request (Some alice) (mkBody (Some "T") (Some "") None None None None None None) "")
    100 demo_store = (demo_store, Respond 400 (BMessage msg_required)).
Proof. apply createPost_missing_fields. right. vm_compute. reflexivity. Defined.

Lemma createPost_created_witness :
  createPost (body_request (Some bob) (title_body "Second post" "More") "") 400 demo_store
  = (mkStore (posts demo_store
              ++ [mkPost 13%N "Second post" (generateSlug "Second post") "More" [] None 2%N None 400%Z])
             14%N,
     Respond 201 (BPost (mkPost 13%N "Second post" (generateSlug "Second post") "More" [] None 2%N None 400%Z))).
Proof.
  refine (createPost_created (body_request (Some bob) (title_body "Second post" "More") "") 400 demo_store "Second post" "More" bob eq_refl eq_refl eq_refl _).
  intros p Hp. apply list_elem_of_In in Hp. vm_compute in Hp. vm_compute.
  destruct Hp as [<- | [<- | [<- | []]]]; discriminate.
Defined.

(** A title of punctuation only is accepted: the post is stored under
    the empty slug (the specification leaves this case open). *)
(** Bob's post titled "!!!" is created with the empty slug. *)
Lemma createPost_empty_slug_witness :
  createPost (body_request (Some bob) (title_body "!!!" "x") "") 400 demo_store
  = (mkStore (posts demo_store ++ [mkPost 13%N "!!!" "" "x" [] None 2%N None 400%Z]) 14%N,
     Respond 201 (BPost (mkPost 13%N "!!!" "" "x" [] None 2%N None 400%Z))).
Proof.
  exact (createPost_empty_slug (body_request (Some bob) (title_body "!!!" "x") "") 400 demo_store
           "!!!" "x" bob eq_refl eq_refl eq_refl ltac:(vm_compute; repeat constructor)
           ltac:(apply Forall_forall, (bool_decide_unpack _); vm_compute; reflexivity)).
Defined.

Lemma updatePost_bad_id_witness :
  updatePost (body_request (Some alice) empty_body "xyz") demo_store
  = (demo_store, Next (CastError "xyz")).
Proof. exact (updatePost_bad_id (body_request (Some alice) empty_body "xyz") demo_store ltac:(vm_compute; reflexivity)). Defined.

Lemma updatePost_not_live_witness :
  updatePost (body_request (Some alice) (title_body "Back" "again") (oid_to_string 12%N)) demo_store
  = (demo_store, Respond 404 (BMessage msg_not_found)).
Proof.
  apply (updatePost_not_live (body_request (Some alice) (title_body "Back" "again") (oid_to_string 12%N)) demo_store 12%N); [vm_compute; reflexivity |].
  intros p Hp Hid. apply list_elem_of_In in Hp.
  destruct Hp as [<- | [<- | [<- | []]]]; vm_compute in Hid |- *; congruence.
Defined.

Lemma updatePost_forbidden_witness :
  updatePost (body_request (Some bob) (title_body "Mine now" "x") (oid_to_string 10%N)) demo_store
  = (demo_store, Respond 403 (BMessage msg_forbidden)).
Proof.
  apply (updatePost_forbidden (body_request (Some bob) (title_body "Mine now" "x") (oid_to_string 10%N)) demo_store post_hello bob demo_store_wf);
    [apply list_elem_of_In; simpl; auto 6 | reflexivity | vm_compute; reflexivity | reflexivity
    | vm_compute; reflexivity | vm_compute; discriminate].
Defined.

Lemma updatePost_by_author_witness :
  updatePost (body_request (Some alice) (title_body "Hello again" "Edited") (oid_to_string 10%N))
    demo_store
  = (mkStore (replace_by_id (mkPost 10%N "Hello again" "hello-world" "Edited" ["intro"]
                               (Some "published") 1%N None 100%Z) (posts demo_store)) 13%N,
     Respond 200 (BPost (mkPost 10%N "Hello again" "hello-world" "Edited" ["intro"]
                           (Some "published") 1%N None 100%Z))).
Proof.
  apply (updatePost_by_author (body_request (Some alice) (title_body "Hello again" "Edited") (oid_to_string 10%N)) demo_store post_hello _ alice demo_store_wf);
    [apply list_elem_of_In; simpl; auto 6 | reflexivity | vm_compute; reflexivity | reflexivity | reflexivity
    | vm_compute; reflexivity | vm_compute; reflexivity].
Defined.

Lemma deletePost_twice_witness :
  let st1 := mkStore (replace_by_id (mark_deleted post_hello 500) (posts demo_store)) (next_id demo_store) in
  deletePost (body_request (Some alice) empty_body (oid_to_string 10%N)) 500 demo_store
  = (st1, Respond 200 (BMessage msg_deleted))
  ∧ deletePost (body_request (Some alice) empty_body (oid_to_string 10%N)) 600 st1
    = (st1, Respond 404 (BMessage msg_not_found)).
Proof.
  apply (deletePost_twice (body_request (Some alice) empty_body (oid_to_string 10%N)) 500 600 demo_store post_hello alice demo_store_wf);
    [apply list_elem_of_In; simpl; auto 6 | reflexivity | vm_compute; reflexivity | reflexivity | reflexivity].
Defined.

(** ** Sequences of handler calls *)

Lemma createPost_201_elem `{RegexEngine} (req : Request) (now : Z) (st st' : Store) (p : Post) :
  createPost req now st = (st', Respond 201 (BPost p)) → p ∈ posts st'.
Proof.
  unfold createPost, try_next, bind.
  destruct (truthy_value (b_title (req_body req))), (truthy_value (b_content (req_body req)));
    try discriminate.
  rewrite findOne_no_author by done.
  destruct (List.find _ _); [discriminate |]. destruct (req_user req); [| discriminate].
  unfold create. cbn -[valid_post generateSlug]. destruct (valid_post _); [| discriminate].
  intros Heq. inversion Heq. simpl. apply list_elem_of_In, in_or_app. right. by left.
Qed.

(** [save] of a document whose slug is unchanged keeps every slug. *)
Lemma save_slugs (orig upd : Post) (st st' : Store) (r : res unit) :
  slug upd = slug orig → save orig upd st = (st', r) → slug <$> posts st' = slug <$> posts st.
Proof.
  intros Hs. unfold save. destruct (negb (valid_post upd)); [by intros [= <- _] |].
  destruct (existsb _ _); [| by intros [= <- _]]. intros [= <- _]. simpl.
  induction (posts st) as [|d l IH]; [done |]. cbn [map]. rewrite !fmap_cons, IH. f_equal.
  case_bool_decide; [| done]. simpl. unfold pick. rewrite Hs. by destruct (decide _).
Qed.

Lemma deletePost_slugs (req : Request) (now : Z) (st : Store) :
  slug <$> posts (fst (deletePost req now st)) = slug <$> posts st.
Proof.
  unfold deletePost, try_next, bind.
  destruct (findById (req_param req) st) as [st1 [o|e]] eqn:Hf;
    [| unfold findById in Hf; destruct (oid_of_string _); by inversion Hf].
  assert (st1 = st) as -> by (unfold findById in Hf; destruct (oid_of_string _); by inversion Hf).
  destruct (live_post o) as [p|]; [| done]. destruct (req_user req); [| done].
  destruct (_ !== _); [done |].
  destruct (save p (mark_deleted p now) st) as [st2 r] eqn:Hs.
  pose proof (save_slugs p (mark_deleted p now) st st2 r eq_refl Hs) as Hsl. by destruct r.
Qed.
