(* ===== verification/Routes.v ===== *)
(** * The router, the authentication middleware and the application

    [src/routes/post.routes.js] maps [GET /] to [getPosts], [GET /:slug]
    to [getPostBySlug], and [POST /], [PUT /:id], [DELETE /:id] to
    [createPost], [updatePost], [deletePost] behind [authMiddleware].
    [src/src/app.js] mounts the router under [/api/posts] (and the auth
    routes under [/api/auth]) and installs [errorHandler] last.

    [authMiddleware] and [errorHandler] are repository code outside
    [src/]; they are modelled from the specification: the middleware
    resolves the request's credentials to a user or answers [401]
    without calling the handler, and sets [req.user] otherwise; the
    error handler answers [500] with a message for every error passed to
    [next].  Nothing else sets [req.user].  A request path is the list of
    its decoded segments; Express matches the mount path
    case-insensitively.  Requests under [/api/auth] are outside the model
    ([app] answers [None]). *)

From S2P Require Import Prelude Js ObjectId Slugify Store Controller.

Inductive Method := GET | POST | PUT | DELETE | OPTIONS | OtherMethod.

#[export] Instance Method_eq_dec : EqDecision Method.
Proof. solve_decision. Defined.

Record HttpRequest := mkHttp {
  method : Method;
  path : list string;
  credential : option User;   (* the user the request's token resolves to *)
  hbody : Body;
  hquery : QueryParams;
}.

Inductive HttpBody :=
| HJson (b : RespBody)          (* [res.status(c).json(b)] of a handler *)
| HError (e : exn)              (* [errorHandler]: [{ message }] *)
| HUnauthorized                 (* [authMiddleware] rejecting the request *)
| HNotRouted                    (* Express's default [404] *)
| HEmpty.                       (* an empty body: [res.end()] *)

Record HttpResponse := HResp { code : Z; hresp_body : HttpBody }.

Definition HttpHandler := Store → Store * HttpResponse.

(** [errorHandler] after the handler: a [next(error)] becomes [500]. *)
Definition respond (o : Outcome) : HttpResponse :=
  match o with
  | Respond c b => HResp c (HJson b)
  | Next e => HResp 500 (HError e)
  end.

Definition run_handler (h : Handler) : HttpHandler :=
  λ st, let '(st', o) := h st in (st', respond o).

(** [authMiddleware]: the handler runs with [req.user] set, or [401]. *)
Definition authMiddleware (cred : option User) (h : User → Handler) : HttpHandler :=
  λ st, match cred with
        | Some u => run_handler (h u) st
        | None => (st, HResp 401 HUnauthorized)
        end.

Definition segment_is (seg lit : string) : bool :=
  string_of_list_ascii (to_lower (list_ascii_of_string seg)) === lit.

Section App.
Context `{RegexEngine}.

(** The routes of [post.routes.js], in their order; [rest] is the path
    below the mount point.  The two [GET] routes have no middleware, so
    their handlers see no [req.user]. *)
Definition postRouter (now : Z) (r : HttpRequest) (rest : list string) : HttpHandler :=
  match method r, rest with
  | GET, [] => run_handler (getPosts (mkRequest None (hbody r) (hquery r) ""))
  | GET, [s] => run_handler (getPostBySlug (mkRequest None (hbody r) (hquery r) s))
  | POST, [] =>
      authMiddleware (credential r)
        (λ u, createPost (mkRequest (Some u) (hbody r) (hquery r) "") now)
  | PUT, [id] =>
      authMiddleware (credential r) (λ u, updatePost (mkRequest (Some u) (hbody r) (hquery r) id))
  | DELETE, [id] =>
      authMiddleware (credential r)
        (λ u, deletePost (mkRequest (Some u) (hbody r) (hquery r) id) now)
  | _, _ => λ st, (st, HResp 404 HNotRouted)
  end.

(** [app.js]: the mount points, then Express's default [404]. *)
Definition app (now : Z) (r : HttpRequest) (st : Store) : option (Store * HttpResponse) :=
  match path r with
  | a :: b :: rest =>
      if segment_is a "api" then
        if segment_is b "posts" then Some (postRouter now r rest st)
        else if segment_is b "auth" then None
        else Some (st, HResp 404 HNotRouted)
      else Some (st, HResp 404 HNotRouted)
  | _ => Some (st, HResp 404 HNotRouted)
  end.
End App.

(** Requests used by the concrete runs: Alice, logged in, asks for her
    drafts; an anonymous client tries to edit a post. *)
Definition req_my_drafts : HttpRequest :=
  mkHttp GET ["api"; "posts"]%string (Some alice) empty_body (params_status "draft").
Definition req_anonymous_edit : HttpRequest :=
  mkHttp PUT ["api"; "posts"; oid_to_string 10%N]%string None (title_body "Mine" "now") no_params.

(** ** What an HTTP request can observe and change *)

Section AppTheorems.
Context `{RegexEngine}.

Lemma run_handler_fst (h : Handler) (st : Store) : fst (run_handler h st) = fst (h st).
Proof. unfold run_handler. by destruct (h st). Qed.

(** The routing of a request below [/api/posts]. *)
Lemma app_posts (now : Z) (r : HttpRequest) (rest : list string) (st : Store) :
  path r = "api" :: "posts" :: rest → app now r st = Some (postRouter now r rest st).
Proof. intros Hp. unfold app. by rewrite Hp. Qed.

(** An authenticated [PUT] or [DELETE] on [/api/posts/:id] runs the
    handler with [req.user] set and [req.params.id] the segment. *)
Lemma app_write_routes (now : Z) (r : HttpRequest) (st : Store) (id : string) (u : User) :
  path r = ["api"; "posts"; id]%string → credential r = Some u →
  (method r = PUT →
   app now r st = Some (run_handler (updatePost (mkRequest (Some u) (hbody r) (hquery r) id)) st))
  ∧ (method r = DELETE →
     app now r st = Some (run_handler (deletePost (mkRequest (Some u) (hbody r) (hquery r) id) now) st)).
Proof.
  intros Hp Hc. rewrite (app_posts now r [id]) by done. unfold postRouter, authMiddleware.
  rewrite Hc. split; intros ->; reflexivity.
Qed.

(** C1: [GET /api/posts], whatever credentials and query parameters the
    request carries, lists only published, live posts of the collection
    and changes nothing: [req.user] is never set on this route, so the
    controller's rules for authenticated listings are unreachable. *)
Theorem app_list_published (now : Z) (r : HttpRequest) (st st' : Store) (resp : HttpResponse)
    (ps : list Post) :
  method r = GET → path r = ["api"; "posts"]%string →
  app now r st = Some (st', resp) → hresp_body resp = HJson (BPosts ps) →
  st' = st ∧ Forall (λ p, status p = Some "published"%string ∧ deletedAt p = None ∧ p ∈ posts st) ps.
Proof.
  intros Hm Hp Happ Hb. rewrite (app_posts now r []) in Happ by done.
  unfold postRouter, run_handler in Happ. rewrite Hm in Happ.
  destruct (getPosts _ st) as [st1 o] eqn:Hg. injection Happ as <- <-.
  destruct o as [c [| |ps']|e]; simpl in Hb; try discriminate. injection Hb as ->.
  destruct (Z.eq_dec c 200%Z) as [->|Hc].
  - by eapply getPosts_anonymous_results; [| exact Hg].
  - exfalso. unfold getPosts, try_next, bind, lift, reply, ret in Hg.
    destruct (build_query _ _); [| discriminate].
    destruct (findPage _ _ _ _) as [? []]; inversion Hg; congruence.
Qed.

(** An anonymous request below [/api/posts]: the router changes nothing,
    and [authMiddleware] answers [401] on the three write routes. *)
Lemma postRouter_anonymous (now : Z) (r : HttpRequest) (rest : list string) (st : Store) :
  credential r = None →
  fst (postRouter now r rest st) = st
  ∧ ((method r = POST ∧ rest = [] ∨ (method r = PUT ∨ method r = DELETE) ∧ length rest = 1) →
     snd (postRouter now r rest st) = HResp 401 HUnauthorized).
Proof.
  intros Hc. unfold postRouter, authMiddleware. rewrite Hc. split.
  - destruct (method r), rest as [|x [|y rest]]; rewrite ?run_handler_fst;
      try apply getPosts_read_only; try apply getPostBySlug_read_only; done.
  - intros [[-> ->] | [[-> | ->] Hl]]; [done | |];
      destruct rest as [|x [|y rest]]; simpl in Hl; (done || lia).
Qed.

(** C18: a request without valid credentials never changes the store,
    and each of the write routes [POST /api/posts], [PUT /api/posts/:id]
    and [DELETE /api/posts/:id] answers it with [401] before any
    handler runs. *)
Theorem app_anonymous_read_only (now : Z) (r : HttpRequest) (st st' : Store) (resp : HttpResponse) :
  credential r = None → app now r st = Some (st', resp) →
  st' = st
  ∧ (∀ rest, path r = "api" :: "posts" :: rest →
     method r = POST ∧ rest = [] ∨ (method r = PUT ∨ method r = DELETE) ∧ length rest = 1 →
     resp = HResp 401 HUnauthorized).
Proof.
  intros Hc Happ. split.
  - revert Happ. unfold app.
    destruct (path r) as [|a [|b rest]]; try (intros Hs; by injection Hs).
    destruct (segment_is a "api"); [| intros Hs; by injection Hs].
    destruct (segment_is b "posts"); [| destruct (segment_is b "auth"); [done | intros Hs; by injection Hs]].
    intros Hs. injection Hs as Hs. apply (f_equal fst) in Hs. simpl in Hs. rewrite <- Hs.
    apply postRouter_anonymous, Hc.
  - intros rest Hp Hw. rewrite (app_posts now r rest st Hp) in Happ. injection Happ as Happ.
    apply (f_equal snd) in Happ. simpl in Happ. rewrite <- Happ.
    by apply postRouter_anonymous.
Qed.
End AppTheorems.

(** ** Concrete runs *)

#[local] Existing Instance literal_regex.

(** Alice, authenticated, asks for [status=draft] and gets the published
    post: her credentials never reach [getPosts]. *)
Lemma app_list_published_witness :
  app 500 req_my_drafts demo_store
  = Some (demo_store, HResp 200 (HJson (BPosts [post_hello])))
  ∧ (demo_store = demo_store
     ∧ Forall (λ p, status p = Some "published"%string ∧ deletedAt p = None ∧ p ∈ posts demo_store)
              [post_hello]).
Proof.
  assert (Ha : app 500 req_my_drafts demo_store
               = Some (demo_store, HResp 200 (HJson (BPosts [post_hello])))) by (vm_compute; reflexivity).
  split; [exact Ha |].
  exact (app_list_published 500 req_my_drafts demo_store demo_store _ [post_hello]
           eq_refl eq_refl Ha eq_refl).
Defined.

Lemma app_anonymous_read_only_witness :
  app 500 req_anonymous_edit demo_store = Some (demo_store, HResp 401 HUnauthorized)
  ∧ (demo_store = demo_store
     ∧ (∀ rest, path req_anonymous_edit = "api" :: "posts" :: rest →
        method req_anonymous_edit = POST ∧ rest = []
        ∨ (method req_anonymous_edit = PUT ∨ method req_anonymous_edit = DELETE) ∧ length rest = 1 →
        HResp 401 HUnauthorized = HResp 401 HUnauthorized)).
Proof.
  assert (Ha : app 500 req_anonymous_edit demo_store = Some (demo_store, HResp 401 HUnauthorized))
    by (vm_compute; reflexivity).
  split; [exact Ha |]. exact (app_anonymous_read_only 500 req_anonymous_edit _ _ _ eq_refl Ha).
Defined.
