(* ===== verification/Lifecycle.v ===== *)
(** * The life of the collection under a sequence of requests

    [app_step r st st'] is one request [r] handled by the application
    ([Routes.app]) from store [st] to store [st']; [reachable st0] is the
    set of stores a sequence of requests leads to from [st0].  The
    request's credentials are those of a stored user, whose identifier is
    an ObjectId ([credentials_ok]).  The theorems: along every sequence
    of requests documents are never removed or reordered and
    soft-deleted documents never change; slugs stay unique under
    sequential creation, but an update whose body has [slug] can break
    this, and so can two creations whose [await]s interleave
    ([createPost_part1] and [createPost_part2] are [createPost] cut at
    [await Post.findOne], [create_interleaved] runs both [findOne]s
    first); an update whose body has [author] hands the post over.  The
    well-formedness of the collection (kept by the model of Mongoose's
    validation and identifiers) is the auxiliary invariant these
    proofs use. *)

From S2P Require Import Prelude Js ObjectId Slugify Store Controller Routes.

Section Lifecycle.
Context `{RegexEngine}.

Definition credentials_ok (r : HttpRequest) : Prop :=
  ∀ u, credential r = Some u → (user_id u < oid_bound)%N.

Inductive app_step (r : HttpRequest) (st st' : Store) : Prop :=
| AppStep (now : Z) (resp : HttpResponse) :
    credentials_ok r → app now r st = Some (st', resp) → app_step r st st'.

Definition step (st st' : Store) : Prop := ∃ r, app_step r st st'.

Inductive reachable (st0 : Store) : Store → Prop :=
| reach_init : reachable st0 st0
| reach_step (st st' : Store) : reachable st0 st → step st st' → reachable st0 st'.
End Lifecycle.

(** [createPost] cut at its first [await]: the guards and [findOne], then
    the rest, resumed with what [findOne] returned. *)
Inductive CreateCont :=
| CDone (o : Outcome)
| CAfterFind (t s c : string) (existing : option Post).

Section Split.
Context `{RegexEngine}.

Definition createPost_part1 (req : Request) : Store → Store * CreateCont :=
  λ st, let b := req_body req in
  match truthy_value (b_title b), truthy_value (b_content b) with
  | Some t, Some c =>
      let s := generateSlug t in
      match findOne (set_slug s empty_query) st with
      | (st', Ok existing) => (st', CAfterFind t s c existing)
      | (st', Throw e) => (st', CDone (Next e))
      end
  | _, _ => (st, CDone (Respond 400 (BMessage msg_required)))
  end.

Definition createPost_part2 (req : Request) (now : Z) (k : CreateCont) : Handler :=
  match k with
  | CDone o => λ st, (st, o)
  | CAfterFind t s c existing =>
      try_next (
        match existing with
        | Some _ => reply 400 (BMessage msg_conflict)
        | None =>
            match req_user req with
            | None => throw TypeError
            | Some u =>
                p <- create (mkNewPost t s c (default [] (b_tags (req_body req)))
                               (mjoin (b_status (req_body req))) (user_id u)) now ;;
                reply 201 (BPost p)
            end
        end)
  end.

(** Two creations whose [await]s interleave: both [findOne]s run before
    either [Post.create], as two requests handled concurrently by one
    Node process can run. *)
Definition create_interleaved (r1 r2 : Request) (now1 now2 : Z) (st : Store)
    : Store * Outcome * Outcome :=
  let '(st1, k1) := createPost_part1 r1 st in
  let '(st2, k2) := createPost_part1 r2 st1 in
  let '(st3, o1) := createPost_part2 r1 now1 k1 st2 in
  let '(st4, o2) := createPost_part2 r2 now2 k2 st3 in
  (st4, o1, o2).
End Split.

(** Requests and stores used by the concrete runs: Alice creates
    "Fresh start", then deletes it; Bob then tries the same title. *)
Definition fresh_post (deleted : option Z) : Post :=
  mkPost 13%N "Fresh start" "fresh-start" "x" [] None 1%N deleted 500%Z.
Definition req_create_fresh : HttpRequest :=
  mkHttp POST ["api"; "posts"]%string (Some alice) (title_body "Fresh start" "x") no_params.
Definition store_fresh : Store := mkStore (posts demo_store ++ [fresh_post None]) 14%N.
Definition store_fresh_deleted : Store := mkStore (posts demo_store ++ [fresh_post (Some 600%Z)]) 14%N.

(** Alice hands [post_hello] to Bob. *)
Definition req_give_to_bob : HttpRequest :=
  mkHttp PUT ["api"; "posts"; oid_to_string 10%N]%string (Some alice)
    (mkBody None None None None (Some (oid_to_string 2%N)) None None None) no_params.

(** Bob gives his draft the slug of Alice's post. *)
Definition req_take_slug : HttpRequest :=
  mkHttp PUT ["api"; "posts"; oid_to_string 11%N]%string (Some bob)
    (mkBody None None None None None (Some "hello-world") None None) no_params.

(** ** Every request leaves the store as it was, appends a post, or
    rewrites one live post *)

Section Invariants.
Context `{RegexEngine}.

Lemma app_effect (now : Z) (r : HttpRequest) (st st' : Store) (resp : HttpResponse) :
  wf_store st → app now r st = Some (st', resp) →
  st' = st
  ∨ (∃ p u, st' = mkStore (posts st ++ [p]) (N.succ (next_id st))
       ∧ credential r = Some u ∧ author p = user_id u ∧ post_id p = next_id st
       ∧ valid_post p = true ∧ deletedAt p = None ∧ (∀ d, d ∈ posts st → slug d ≠ slug p))
  ∨ (∃ p p', p ∈ posts st ∧ deletedAt p = None ∧ assign_body p (hbody r) = Some p'
       ∧ valid_post p' = true ∧ st' = mkStore (replace_by_id p' (posts st)) (next_id st)
       ∧ ∃ u, credential r = Some u ∧ (oid_to_string (author p) !== oid_to_string (user_id u)) = false)
  ∨ (∃ p t, p ∈ posts st ∧ deletedAt p = None
       ∧ st' = mkStore (replace_by_id (mark_deleted p t) (posts st)) (next_id st)
       ∧ ∃ u, credential r = Some u ∧ (oid_to_string (author p) !== oid_to_string (user_id u)) = false).
Proof.
  intros Hwf. unfold app.
  destruct (path r) as [|a [|b rest]]; try (intros Hs; injection Hs as <-; by left).
  destruct (segment_is a "api"); [| intros Hs; injection Hs as <-; by left].
  destruct (segment_is b "posts");
    [| destruct (segment_is b "auth"); [done | intros Hs; injection Hs as <-; by left]].
  intros Hs. injection Hs as Hs. apply (f_equal fst) in Hs. simpl in Hs. subst st'.
  unfold postRouter, authMiddleware.
  destruct (method r), rest as [|x [|y rest]]; rewrite ?run_handler_fst;
    try (left; apply getPosts_read_only); try (left; apply getPostBySlug_read_only);
    try (left; reflexivity);
    (destruct (credential r) as [u|] eqn:Hc; [rewrite run_handler_fst | left; reflexivity]).
  - destruct (createPost_effect (mkRequest (Some u) (hbody r) (hquery r) "") now st)
      as [-> | (p & u' & -> & Hu & Ha & Hid & Hv & Hd & Hs)]; [by left |].
    injection Hu as <-. right; left. exists p, u. done.
  - destruct (updatePost_effect (mkRequest (Some u) (hbody r) (hquery r) x) st Hwf)
      as [-> | (p & p' & Hp & Hd & Hb & Hv & -> & u' & [= <-] & Ha)]; [by left |].
    right; right; left. exists p, p'. by repeat split; [.. | exists u].
  - destruct (deletePost_effect (mkRequest (Some u) (hbody r) (hquery r) x) now st Hwf)
      as [-> | (p & Hp & Hd & -> & u' & [= <-] & Ha)]; [by left |].
    right; right; right. exists p, now. by repeat split; [.. | exists u].
Qed.

Lemma assign_body_author (p p' : Post) (b : Body) :
  (author p < oid_bound)%N → assign_body p b = Some p' → (author p' < oid_bound)%N.
Proof.
  unfold assign_body. intros Hlt Hb.
  repeat case_match; simplify_eq/=; eauto using oid_of_string_bound.
Qed.

Lemma assign_body_slug (p p' : Post) (b : Body) :
  b_slug b = None → assign_body p b = Some p' → slug p' = slug p.
Proof.
  unfold assign_body. intros Hs. rewrite Hs.
  destruct (b_author b) as [a|]; [destruct (oid_of_string a) |]; intros Hb; by inversion Hb.
Qed.

Lemma step_preserves_wf (st st' : Store) : wf_store st → step st st' → wf_store st'.
Proof.
  intros Hwf [r [now resp Hcred Happ]].
  destruct (app_effect now r st st' resp Hwf Happ)
    as [-> | [(p & u & -> & Hc & Ha & Hid & Hv & _) |
             [(p & p' & Hp & _ & Hb & Hv & -> & _) | (p & t & Hp & _ & -> & _)]]].
  - done.
  - apply wf_store_append; [done | done | | done]. rewrite Ha. by apply Hcred.
  - destruct (wf_store_elem st p Hwf Hp) as (_ & Ha & _).
    eapply wf_store_replace; [done | exact Hp | exact (assign_body_id _ _ _ Hb) | | done].
    by eapply assign_body_author.
  - destruct (wf_store_elem st p Hwf Hp) as (_ & Ha & Hv).
    eapply wf_store_replace; [done | exact Hp | done | done |].
    revert Hv. unfold valid_post. by destruct p.
Qed.

(** Well-formedness is kept along every sequence of requests (it is
    what the Mongoose model's validation and identifiers give). *)
Lemma reachable_wf (st0 st : Store) : wf_store st0 → reachable st0 st → wf_store st.
Proof. intros H0 Hr. induction Hr as [|st st' _ IH Hs]; [done |]. by eapply step_preserves_wf. Qed.

Lemma same_id_same_post (st : Store) (p d : Post) :
  wf_store st → p ∈ posts st → d ∈ posts st → post_id d = post_id p → d = p.
Proof. intros Hwf Hp Hd Hid. eapply NoDup_fmap_key; [apply Hwf | exact Hd | exact Hp | exact Hid]. Qed.

Lemma step_keeps_deleted (st st' : Store) (d : Post) :
  wf_store st → step st st' → d ∈ posts st → deletedAt d ≠ None → d ∈ posts st'.
Proof.
  intros Hwf [r [now resp _ Happ]] Hd Hdel.
  destruct (app_effect now r st st' resp Hwf Happ)
    as [-> | [(p & u & -> & _) | [(p & p' & Hp & Hpl & Hb & _ & -> & _) | (p & t & Hp & Hpl & -> & _)]]].
  - done.
  - simpl. apply list_elem_of_In, in_or_app. left. by apply list_elem_of_In.
  - apply elem_of_replace_by_id_other; [done |]. rewrite (assign_body_id _ _ _ Hb).
    intros Hid. rewrite (same_id_same_post st p d) in Hdel; done.
  - apply elem_of_replace_by_id_other; [done |]. simpl.
    intros Hid. rewrite (same_id_same_post st p d) in Hdel; done.
Qed.

Lemma step_ids_extend (st st' : Store) :
  wf_store st → step st st' → ∃ l, post_id <$> posts st' = (post_id <$> posts st) ++ l.
Proof.
  intros Hwf [r [now resp _ Happ]].
  destruct (app_effect now r st st' resp Hwf Happ)
    as [-> | [(p & u & -> & _) | [(p & p' & _ & _ & _ & _ & -> & _) | (p & t & _ & _ & -> & _)]]].
  - exists []. by rewrite app_nil_r.
  - exists [post_id p]. simpl. by rewrite fmap_app.
  - exists []. simpl. by rewrite fmap_post_id_replace, app_nil_r.
  - exists []. simpl. by rewrite fmap_post_id_replace, app_nil_r.
Qed.

(** C22: a soft-deleted document is never changed again: every request
    keeps it in the collection exactly as it is (in particular
    [deletedAt] is never cleared). *)
Theorem deleted_posts_frozen (st st' : Store) (d : Post) :
  wf_store st → step st st' → d ∈ posts st → deletedAt d ≠ None → d ∈ posts st'.
Proof. exact (step_keeps_deleted st st' d). Qed.

(** C23: no request removes or reorders documents: the identifiers after
    a request are those before it, possibly followed by a new one (the
    delete route only soft-deletes). *)
Theorem ids_append_only (st st' : Store) :
  wf_store st → step st st' → ∃ l, post_id <$> posts st' = (post_id <$> posts st) ++ l.
Proof. exact (step_ids_extend st st'). Qed.

(** C19: along any sequence of requests from a well-formed collection,
    the identifiers of the first collection stay a prefix of those of
    every later one (no document is removed or reordered), and every
    document that was soft-deleted at the start is still there,
    unchanged. *)
Theorem reachable_history (st0 st : Store) :
  wf_store st0 → reachable st0 st →
  (∃ l, post_id <$> posts st = (post_id <$> posts st0) ++ l)
  ∧ ∀ d, d ∈ posts st0 → deletedAt d ≠ None → d ∈ posts st.
Proof.
  intros H0 Hr. induction Hr as [|st st' Hr [[l Hl] Hdel] Hs].
  - split; [exists []; by rewrite app_nil_r | done].
  - pose proof (reachable_wf st0 st H0 Hr) as Hwf. split.
    + destruct (step_ids_extend st st' Hwf Hs) as [l' ->]. exists (l ++ l'). by rewrite Hl, app_assoc.
    + intros d Hd Hdd. apply (step_keeps_deleted st st' d Hwf Hs); [by apply Hdel | done].
Qed.

(** C24: a request whose body has no [slug] keeps slugs unique: creation
    checks the slug against every stored document, and updates and
    deletes without a [slug] key keep every slug. *)
Theorem slug_unique_step (r : HttpRequest) (st st' : Store) :
  wf_store st → NoDup (slug <$> posts st) → app_step r st st' → b_slug (hbody r) = None →
  NoDup (slug <$> posts st').
Proof.
  intros Hwf Hnd [now resp _ Happ] Hs.
  destruct (app_effect now r st st' resp Hwf Happ)
    as [-> | [(p & u & -> & _ & _ & _ & _ & _ & Hfresh) |
             [(p & p' & Hp & _ & Hb & _ & -> & _) | (p & t & Hp & _ & -> & _)]]].
  - done.
  - simpl. rewrite fmap_app. apply NoDup_app. split; [done |]. split; [| apply NoDup_singleton].
    intros x Hx Hx'. apply list_elem_of_singleton in Hx'. simpl in Hx'. subst x.
    apply list_elem_of_fmap in Hx as (d & Hds & Hd). by apply (Hfresh d).
  - simpl. rewrite fmap_slug_replace; [done |]. intros d Hd Hid.
    rewrite (assign_body_id _ _ _ Hb) in Hid. rewrite (same_id_same_post st p d) by done.
    symmetry. by eapply assign_body_slug.
  - simpl. rewrite fmap_slug_replace; [done |]. intros d Hd Hid. simpl in Hid.
    by rewrite (same_id_same_post st p d).
Qed.
End Invariants.

(** ** Slugs under sequences of creations *)

Section Sequences.
Context `{RegexEngine}.

(** C15: creating a post and then another whose title slugs the same way
    answers [400] to the second request and writes nothing. *)
Theorem create_twice_conflict (r1 r2 : Request) (now1 now2 : Z) (st st1 : Store)
    (p : Post) (t c : string) :
  createPost r1 now1 st = (st1, Respond 201 (BPost p)) →
  truthy_value (b_title (req_body r2)) = Some t →
  truthy_value (b_content (req_body r2)) = Some c →
  generateSlug t = slug p →
  createPost r2 now2 st1 = (st1, Respond 400 (BMessage msg_conflict)).
Proof.
  intros H1 Ht Hc Hs. apply (createPost_slug_taken r2 now2 st1 t c p); try done.
  by eapply createPost_201_elem.
Qed.

(** C14: soft deletion does not free a slug: after a post is created and
    a delete request runs, a creation whose title slugs to the same
    slug is still refused. *)
Theorem create_after_delete_conflict (r1 r2 r3 : Request) (now1 now2 now3 : Z)
    (st st1 st2 : Store) (p : Post) (o : Outcome) (t c : string) :
  createPost r1 now1 st = (st1, Respond 201 (BPost p)) →
  deletePost r2 now2 st1 = (st2, o) →
  truthy_value (b_title (req_body r3)) = Some t →
  truthy_value (b_content (req_body r3)) = Some c →
  generateSlug t = slug p →
  createPost r3 now3 st2 = (st2, Respond 400 (BMessage msg_conflict)).
Proof.
  intros H1 H2 Ht Hc Hs.
  assert (slug p ∈ slug <$> posts st2) as Hin.
  { pose proof (deletePost_slugs r2 now2 st1) as Hsl. rewrite H2 in Hsl. simpl in Hsl.
    rewrite Hsl. apply list_elem_of_fmap_2. by eapply createPost_201_elem. }
  apply list_elem_of_fmap in Hin as (d & Hd & Hdin).
  apply (createPost_slug_taken r3 now3 st2 t c d); try done. congruence.
Qed.

(** [createPost] is its two halves run back to back: cut at
    [await Post.findOne], the handler behaves the same when nothing runs
    between the halves. *)
Lemma createPost_split (req : Request) (now : Z) (st : Store) :
  createPost req now st
  = let '(st1, k) := createPost_part1 req st in createPost_part2 req now k st1.
Proof.
  unfold createPost, createPost_part1, createPost_part2, try_next, bind.
  destruct (truthy_value (b_title (req_body req))), (truthy_value (b_content (req_body req)));
    reflexivity.
Qed.

(** The first half of a creation whose slug no stored document has:
    [findOne] finds nothing and the store is unchanged. *)
Lemma createPost_part1_fresh (req : Request) (st : Store) (t c : string) :
  truthy_value (b_title (req_body req)) = Some t →
  truthy_value (b_content (req_body req)) = Some c →
  (∀ d, d ∈ posts st → slug d ≠ generateSlug t) →
  createPost_part1 req st = (st, CAfterFind t (generateSlug t) c None).
Proof.
  intros Ht Hc Hf. unfold createPost_part1. rewrite Ht, Hc, findOne_no_author by done.
  rewrite list_find_None_intro; [done |]. intros d Hd. unfold matches. simpl.
  rewrite !andb_true_r. by apply bool_decide_eq_false_2, Hf.
Qed.

(** The second half resumed after a [findOne] that found nothing creates
    the post, whatever was written in between. *)
Lemma createPost_part2_fresh (req : Request) (now : Z) (st : Store) (t s c : string) (u : User) :
  req_user req = Some u → t ≠ ""%string → c ≠ ""%string →
  createPost_part2 req now (CAfterFind t s c None) st
  = (mkStore (posts st ++ [mkPost (next_id st) t s c (default [] (b_tags (req_body req)))
                             (mjoin (b_status (req_body req))) (user_id u) None now])
             (N.succ (next_id st)),
     Respond 201 (BPost (mkPost (next_id st) t s c (default [] (b_tags (req_body req)))
                           (mjoin (b_status (req_body req))) (user_id u) None now))).
Proof.
  intros Hu Ht Hc. unfold createPost_part2, try_next, bind. rewrite Hu. unfold create, valid_post.
  cbn [title content]. by rewrite !bool_decide_eq_false_2.
Qed.

(** C26: two creations whose titles slug the same way, interleaved at
    their [await]s (both [findOne]s before either [create]) on a
    collection where that slug is free, both succeed: each is answered
    [201] and both documents are appended with the same slug. *)
Theorem create_race_duplicate_slug (r1 r2 : Request) (now1 now2 : Z) (st : Store)
    (t1 c1 t2 c2 : string) (u1 u2 : User) :
  truthy_value (b_title (req_body r1)) = Some t1 → truthy_value (b_content (req_body r1)) = Some c1 →
  truthy_value (b_title (req_body r2)) = Some t2 → truthy_value (b_content (req_body r2)) = Some c2 →
  req_user r1 = Some u1 → req_user r2 = Some u2 →
  generateSlug t2 = generateSlug t1 →
  (∀ d, d ∈ posts st → slug d ≠ generateSlug t1) →
  let p1 := mkPost (next_id st) t1 (generateSlug t1) c1 (default [] (b_tags (req_body r1)))
                   (mjoin (b_status (req_body r1))) (user_id u1) None now1 in
  let p2 := mkPost (N.succ (next_id st)) t2 (generateSlug t1) c2 (default [] (b_tags (req_body r2)))
                   (mjoin (b_status (req_body r2))) (user_id u2) None now2 in
  create_interleaved r1 r2 now1 now2 st
  = (mkStore (posts st ++ [p1; p2]) (N.succ (N.succ (next_id st))),
     Respond 201 (BPost p1), Respond 201 (BPost p2)).
Proof.
  intros Ht1 Hc1 Ht2 Hc2 Hu1 Hu2 Hs Hfresh p1 p2. unfold create_interleaved.
  rewrite (createPost_part1_fresh r1 st t1 c1) by done.
  rewrite (createPost_part1_fresh r2 st t2 c2) by (rewrite ?Hs; done). rewrite Hs.
  apply truthy_value_Some in Ht1 as [_ Ht1], Hc1 as [_ Hc1], Ht2 as [_ Ht2], Hc2 as [_ Hc2].
  rewrite (createPost_part2_fresh r1 now1 st t1 _ c1 u1) by done.
  rewrite (createPost_part2_fresh r2 now2 _ t2 _ c2 u2) by done.
  simpl. by rewrite <- app_assoc.
Qed.

(** An authenticated [PUT /api/posts/:id] by the author of a live post
    writes [Object.assign(post, req.body)] in its place. *)
Lemma app_update_by_author (now : Z) (r : HttpRequest) (st : Store) (p p' : Post) (u : User)
    (id : string) :
  wf_store st → p ∈ posts st → deletedAt p = None → author p = user_id u →
  method r = PUT → path r = ["api"; "posts"; id]%string → oid_of_string id = Some (post_id p) →
  credential r = Some u → assign_body p (hbody r) = Some p' → valid_post p' = true →
  app now r st = Some (mkStore (replace_by_id p' (posts st)) (next_id st), HResp 200 (HJson (BPost p'))).
Proof.
  intros Hwf Hp Hd Ha Hm Hpath Hid Hc Hb Hv.
  rewrite (proj1 (app_write_routes now r st id u Hpath Hc) Hm). unfold run_handler.
  by rewrite (updatePost_author_writes _ st p p' u).
Qed.

(** A rewrite that keeps [title] and [content] keeps a stored document
    valid. *)
Lemma valid_post_same_text (st : Store) (p p' : Post) :
  wf_store st → p ∈ posts st → title p' = title p → content p' = content p → valid_post p' = true.
Proof.
  intros Hwf Hp Ht Hc. destruct (wf_store_elem st p Hwf Hp) as (_ & _ & Hv).
  unfold valid_post in *. by rewrite Ht, Hc.
Qed.

(** C28: an update can hand a post to another author: the author of a
    live post who sends [PUT /api/posts/:id] with the body
    [{ author: s }], [s] any ObjectId string, gets [200] and the stored
    document now has [s] as its author ([Object.assign] writes the key
    like any other). *)
Theorem update_transfers_author (now : Z) (r : HttpRequest) (st : Store) (p : Post) (u : User)
    (id s : string) (a : ObjectId) :
  wf_store st → p ∈ posts st → deletedAt p = None → author p = user_id u →
  method r = PUT → path r = ["api"; "posts"; id]%string → oid_of_string id = Some (post_id p) →
  credential r = Some u →
  hbody r = mkBody None None None None (Some s) None None None → oid_of_string s = Some a →
  let p' := mkPost (post_id p) (title p) (slug p) (content p) (tags p) (status p) a
                   (deletedAt p) (createdAt p) in
  app now r st = Some (mkStore (replace_by_id p' (posts st)) (next_id st), HResp 200 (HJson (BPost p'))).
Proof.
  intros Hwf Hp Hd Ha Hm Hpath Hid Hc Hb Hs p'.
  apply (app_update_by_author now r st p p' u id); try done.
  - rewrite Hb. unfold assign_body. simpl. by rewrite Hs.
  - by apply (valid_post_same_text st p).
Qed.

(** C29: an update can give a post the slug of another document: the
    author of a live post who sends [PUT /api/posts/:id] with the body
    [{ slug: s }], [s] the slug of another stored document, gets [200]
    and the collection then holds two documents with the slug [s]
    (nothing checks the slug of an update). *)
Theorem update_duplicates_slug (now : Z) (r : HttpRequest) (st : Store) (p d : Post) (u : User)
    (id : string) :
  wf_store st → p ∈ posts st → deletedAt p = None → author p = user_id u →
  d ∈ posts st → post_id d ≠ post_id p →
  method r = PUT → path r = ["api"; "posts"; id]%string → oid_of_string id = Some (post_id p) →
  credential r = Some u →
  hbody r = mkBody None None None None None (Some (slug d)) None None →
  let p' := mkPost (post_id p) (title p) (slug d) (content p) (tags p) (status p) (author p)
                   (deletedAt p) (createdAt p) in
  let st' := mkStore (replace_by_id p' (posts st)) (next_id st) in
  app now r st = Some (st', HResp 200 (HJson (BPost p'))) ∧ ¬ NoDup (slug <$> posts st').
Proof.
  intros Hwf Hp Hd Ha Hdin Hne Hm Hpath Hid Hc Hb p' st'. split.
  - apply (app_update_by_author now r st p p' u id); try done.
    + rewrite Hb. unfold assign_body. simpl. by destruct p.
    + by apply (valid_post_same_text st p).
  - intros Hnd.
    assert (d = p') as Heq.
    { eapply (NoDup_fmap_key slug); [exact Hnd | | | reflexivity].
      - by apply elem_of_replace_by_id_other.
      - by apply (elem_of_replace_by_id p). }
    apply Hne. by rewrite Heq.
Qed.
End Sequences.

(** ** Concrete runs *)

#[local] Existing Instance literal_regex.

Lemma step_create_fresh : app_step req_create_fresh demo_store store_fresh.
Proof.
  apply (AppStep req_create_fresh _ _ 500%Z (HResp 201 (HJson (BPost (fresh_post None))))).
  - intros u Hu. injection Hu as <-. vm_compute. reflexivity.
  - vm_compute. reflexivity.
Qed.

Lemma store_fresh_wf : wf_store store_fresh.
Proof. split; apply (bool_decide_unpack _); vm_compute; reflexivity. Qed.

Lemma reach_create_fresh : reachable demo_store store_fresh.
Proof. eapply reach_step; [apply reach_init | exists req_create_fresh; apply step_create_fresh]. Qed.

(** After Alice's creation the three identifiers of [demo_store] are
    still first, and the soft-deleted [post_old] is still there. *)
Lemma reachable_history_witness :
  (wf_store demo_store ∧ reachable demo_store store_fresh)
  ∧ ((∃ l, post_id <$> posts store_fresh = (post_id <$> posts demo_store) ++ l)
     ∧ ∀ d, d ∈ posts demo_store → deletedAt d ≠ None → d ∈ posts store_fresh).
Proof.
  split; [split; [exact demo_store_wf | exact reach_create_fresh] |].
  exact (reachable_history demo_store store_fresh demo_store_wf reach_create_fresh).
Defined.

(** Alice's "Hello again" and Bob's "hello, AGAIN!", interleaved on
    [demo_store], are both created with the slug [hello-again]. *)
Lemma create_race_duplicate_slug_witness :
  (∀ d, d ∈ posts demo_store → slug d ≠ generateSlug "Hello again")
  ∧ create_interleaved (body_request (Some alice) (title_body "Hello again" "A") "")
      (body_request (Some bob) (title_body "hello, AGAIN!" "B") "") 500 600 demo_store
    = (mkStore (posts demo_store
                ++ [mkPost (next_id demo_store) "Hello again" (generateSlug "Hello again") "A" [] None
                      (user_id alice) None 500;
                    mkPost (N.succ (next_id demo_store)) "hello, AGAIN!" (generateSlug "Hello again") "B"
                      [] None (user_id bob) None 600])
               (N.succ (N.succ (next_id demo_store))),
       Respond 201 (BPost (mkPost (next_id demo_store) "Hello again" (generateSlug "Hello again") "A" []
                             None (user_id alice) None 500)),
       Respond 201 (BPost (mkPost (N.succ (next_id demo_store)) "hello, AGAIN!" (generateSlug "Hello again")
                             "B" [] None (user_id bob) None 600))).
Proof.
  assert (Hf : ∀ d, d ∈ posts demo_store → slug d ≠ generateSlug "Hello again").
  { apply Forall_forall. apply (bool_decide_unpack _). vm_compute. reflexivity. }
  split; [exact Hf |].
  exact (create_race_duplicate_slug (body_request (Some alice) (title_body "Hello again" "A") "")
           (body_request (Some bob) (title_body "hello, AGAIN!" "B") "") 500 600 demo_store
           "Hello again" "A" "hello, AGAIN!" "B" alice bob
           ltac:(vm_compute; reflexivity) ltac:(vm_compute; reflexivity)
           ltac:(vm_compute; reflexivity) ltac:(vm_compute; reflexivity)
           eq_refl eq_refl ltac:(vm_compute; reflexivity) Hf).
Defined.

Lemma update_transfers_author_witness :
  app 0 req_give_to_bob demo_store
  = Some (mkStore (replace_by_id (mkPost 10%N "Hello World!" "hello-world" "First post" ["intro"]
                                    (Some "published") 2%N None 100%Z) (posts demo_store)) 13%N,
          HResp 200 (HJson (BPost (mkPost 10%N "Hello World!" "hello-world" "First post" ["intro"]
                                     (Some "published") 2%N None 100%Z)))).
Proof.
  exact (update_transfers_author 0 req_give_to_bob demo_store post_hello alice (oid_to_string 10%N)
           (oid_to_string 2%N) 2%N demo_store_wf ltac:(apply list_elem_of_In; simpl; auto)
           eq_refl eq_refl eq_refl eq_refl ltac:(vm_compute; reflexivity) eq_refl eq_refl
           ltac:(vm_compute; reflexivity)).
Defined.

Lemma update_duplicates_slug_witness :
  app 0 req_take_slug demo_store
  = Some (mkStore (replace_by_id (mkPost 11%N "Secret plan" "hello-world" "Not ready" []
                                    (Some "draft") 2%N None 200%Z) (posts demo_store)) 13%N,
          HResp 200 (HJson (BPost (mkPost 11%N "Secret plan" "hello-world" "Not ready" []
                                     (Some "draft") 2%N None 200%Z))))
  ∧ ¬ NoDup (slug <$> posts (mkStore (replace_by_id (mkPost 11%N "Secret plan" "hello-world" "Not ready" []
                                    (Some "draft") 2%N None 200%Z) (posts demo_store)) 13%N)).
Proof.
  exact (update_duplicates_slug 0 req_take_slug demo_store post_secret post_hello bob (oid_to_string 11%N)
           demo_store_wf ltac:(apply list_elem_of_In; simpl; auto) eq_refl eq_refl
           ltac:(apply list_elem_of_In; simpl; auto) ltac:(discriminate) eq_refl eq_refl
           ltac:(vm_compute; reflexivity) eq_refl eq_refl).
Defined.

(** The soft-deleted [post_old] survives Alice's creation unchanged. *)
Lemma deleted_posts_frozen_witness :
  (wf_store demo_store ∧ step demo_store store_fresh ∧ post_old ∈ posts demo_store
   ∧ deletedAt post_old ≠ None) ∧ post_old ∈ posts store_fresh.
Proof.
  assert (Hs : step demo_store store_fresh) by (exists req_create_fresh; apply step_create_fresh).
  assert (Hin : post_old ∈ posts demo_store) by (apply list_elem_of_In; simpl; auto 6).
  assert (Hd : deletedAt post_old ≠ None) by discriminate.
  split; [exact (conj demo_store_wf (conj Hs (conj Hin Hd))) |].
  exact (deleted_posts_frozen demo_store store_fresh post_old demo_store_wf Hs Hin Hd).
Defined.

Lemma ids_append_only_witness :
  (wf_store demo_store ∧ step demo_store store_fresh)
  ∧ ∃ l, post_id <$> posts store_fresh = (post_id <$> posts demo_store) ++ l.
Proof.
  assert (Hs : step demo_store store_fresh) by (exists req_create_fresh; apply step_create_fresh).
  split; [split; [exact demo_store_wf | exact Hs] |].
  exact (ids_append_only demo_store store_fresh demo_store_wf Hs).
Defined.

Lemma slug_unique_step_witness :
  (wf_store demo_store ∧ NoDup (slug <$> posts demo_store)
   ∧ app_step req_create_fresh demo_store store_fresh ∧ b_slug (hbody req_create_fresh) = None)
  ∧ NoDup (slug <$> posts store_fresh).
Proof.
  assert (Hnd : NoDup (slug <$> posts demo_store))
    by (apply (bool_decide_unpack _); vm_compute; reflexivity).
  split; [split; [exact demo_store_wf | split; [exact Hnd | split; [apply step_create_fresh | reflexivity]]] |].
  exact (slug_unique_step req_create_fresh demo_store store_fresh demo_store_wf Hnd
           step_create_fresh eq_refl).
Defined.

Lemma create_twice_conflict_witness :
  createPost (body_request (Some alice) (title_body "Fresh start" "x") "") 500 demo_store
  = (store_fresh, Respond 201 (BPost (fresh_post None)))
  ∧ createPost (body_request (Some bob) (title_body "FRESH  start!!" "y") "") 600 store_fresh
    = (store_fresh, Respond 400 (BMessage msg_conflict)).
Proof.
  assert (H1 : createPost (body_request (Some alice) (title_body "Fresh start" "x") "") 500 demo_store
               = (store_fresh, Respond 201 (BPost (fresh_post None)))) by (vm_compute; reflexivity).
  split; [exact H1 |].
  exact (create_twice_conflict _ (body_request (Some bob) (title_body "FRESH  start!!" "y") "")
           500 600 demo_store store_fresh (fresh_post None) "FRESH  start!!" "y" H1
           ltac:(vm_compute; reflexivity) ltac:(vm_compute; reflexivity) ltac:(vm_compute; reflexivity)).
Defined.

(** Alice creates "Fresh start" and deletes it; Bob's "Fresh Start" is
    still refused. *)
Lemma create_after_delete_conflict_witness :
  createPost (body_request (Some alice) (title_body "Fresh start" "x") "") 500 demo_store
  = (store_fresh, Respond 201 (BPost (fresh_post None)))
  ∧ deletePost (body_request (Some alice) empty_body (oid_to_string 13%N)) 600 store_fresh
    = (store_fresh_deleted, Respond 200 (BMessage msg_deleted))
  ∧ createPost (body_request (Some bob) (title_body "Fresh Start" "y") "") 700 store_fresh_deleted
    = (store_fresh_deleted, Respond 400 (BMessage msg_conflict)).
Proof.
  assert (H1 : createPost (body_request (Some alice) (title_body "Fresh start" "x") "") 500 demo_store
               = (store_fresh, Respond 201 (BPost (fresh_post None)))) by (vm_compute; reflexivity).
  assert (H2 : deletePost (body_request (Some alice) empty_body (oid_to_string 13%N)) 600 store_fresh
               = (store_fresh_deleted, Respond 200 (BMessage msg_deleted))) by (vm_compute; reflexivity).
  split; [exact H1 | split; [exact H2 |]].
  exact (create_after_delete_conflict _ _ (body_request (Some bob) (title_body "Fresh Start" "y") "")
           500 600 700 demo_store store_fresh store_fresh_deleted (fresh_post None) _
           "Fresh Start" "y" H1 H2
           ltac:(vm_compute; reflexivity) ltac:(vm_compute; reflexivity) ltac:(vm_compute; reflexivity)).
Defined.
