(* ===== verification/Express.v ===== *)
(** * The Express pipeline: the layer stacks of [app.js] and [post.routes.js]

    [src/src/app.js] builds the application as a stack of layers, in the
    order of its [app.use] calls: [cors()], [express.json()], the auth
    router under [/api/auth], the post router under [/api/posts], and the
    error-handling middleware [errorHandler].  [src/routes/post.routes.js]
    builds the post router as a stack of five routes, each a method, a
    path pattern and a list of functions ([authMiddleware] in front of the
    three mutating handlers).

    This file models both stacks as data and the dispatch of Express over
    them (the [next] loop of [Router.prototype.handle] and
    [Route.prototype.dispatch]): a layer either answers, calls [next()]
    with the request it may have changed, or calls [next(err)]; a pending
    error skips every layer but error-handling ones; a request that
    nothing answers ends in the default [404], or, with an error, in the
    error's own status ([400] for a body that does not parse, [500]
    otherwise).
    The auth router is outside [src/] and is a parameter of the model.

    The main theorem, [express_app_refines], shows that this pipeline and
    the routing function [Routes.app] agree on every request that is not
    a CORS preflight ([OPTIONS]) and whose JSON body is well formed, so the
    theorems of [Controller], [Routes] and [Lifecycle] hold of the
    pipeline; the two remaining cases are handled by [cors()] and
    [express.json()] before any router runs: a preflight is answered
    [204], and a malformed body reaches [errorHandler] ([500]). *)

From S2P Require Import Prelude Js ObjectId Slugify Store Controller Routes Lifecycle.

(** ** Requests as the pipeline sees them *)

(** The raw body: absent (no JSON content type), a JSON object, or text
    that [JSON.parse] rejects. *)
Inductive RawBody := RawNone | RawJson (b : Body) | RawMalformed.

Record XRequest := mkXReq {
  x_method : Method;
  x_path : list string;
  x_cred : option User;       (* the user the request's token resolves to *)
  x_raw : RawBody;
  x_query : QueryParams;
}.

(** The fields of [req] that the layers write: [req.user] (set by
    [authMiddleware]), [req.body] (set by [express.json()]) and the route
    parameter [req.params.slug] / [req.params.id]. *)
Record Ctx := mkCtx { cx_user : option User; cx_body : Body; cx_param : string }.

Definition ctx0 : Ctx := mkCtx None empty_body "".

Definition set_user (u : User) (cx : Ctx) : Ctx := mkCtx (Some u) (cx_body cx) (cx_param cx).
Definition set_body (b : Body) (cx : Ctx) : Ctx := mkCtx (cx_user cx) b (cx_param cx).
Definition set_param (p : string) (cx : Ctx) : Ctx := mkCtx (cx_user cx) (cx_body cx) p.

(** What a layer function does: answer, call [next()] with the request
    as it left it, or call [next(err)]. *)
Inductive MwOut := MDone (resp : HttpResponse) | MNext (cx : Ctx) | MError (e : exn).

Definition Mw := XRequest → Ctx → Store → Store * MwOut.

(** ** The functions of the post router *)

(** A controller handler as a route function: [res.status(c).json(b)]
    answers, [next(error)] in its [catch] passes the error on. *)
Definition handler (h : Request → Handler) : Mw :=
  λ x cx st,
    let '(st', o) := h (mkRequest (cx_user cx) (cx_body cx) (x_query x) (cx_param cx)) st in
    (st', match o with Respond c b => MDone (HResp c (HJson b)) | Next e => MError e end).

(** [authMiddleware] (outside [src/], from the specification): [401]
    without credentials, otherwise [req.user] is set and [next()]. *)
Definition auth_mw : Mw :=
  λ x cx st,
    match x_cred x with
    | None => (st, MDone (HResp 401 HUnauthorized))
    | Some u => (st, MNext (set_user u cx))
    end.

(** ** Routes and their dispatch *)

(** The path patterns of [post.routes.js]: ['/'] and ['/:param']; a
    parameter matches one non-empty segment. *)
Inductive PathPat := PRoot | PParam.

Record Route := mkRoute { rt_method : Method; rt_path : PathPat; rt_stack : list Mw }.

Definition route_match (rt : Route) (m : Method) (rest : list string) : option string :=
  if decide (rt_method rt = m) then
    match rt_path rt, rest with
    | PRoot, [] => Some ""
    | PParam, [s] => if s === "" then None else Some s
    | _, _ => None
    end
  else None.

(** [Route.prototype.dispatch]: the functions of one route in order, each
    reached by the previous one's [next()]. *)
Fixpoint run_stack (fs : list Mw) (x : XRequest) (cx : Ctx) (st : Store) : Store * MwOut :=
  match fs with
  | [] => (st, MNext cx)
  | f :: fs' =>
      let '(st1, o) := f x cx st in
      match o with
      | MNext cx' => run_stack fs' x cx' st1
      | _ => (st1, o)
      end
  end.

(** [Router.prototype.handle]: the first route whose method and path
    match runs; falling out of its stack goes on to the next routes; an
    error leaves the router. *)
Fixpoint router_handle (routes : list Route) (x : XRequest) (rest : list string)
    (cx : Ctx) (st : Store) : Store * MwOut :=
  match routes with
  | [] => (st, MNext cx)
  | rt :: rs =>
      match route_match rt (x_method x) rest with
      | Some prm =>
          let '(st1, o) := run_stack (rt_stack rt) x (set_param prm cx) st in
          match o with
          | MNext cx' => router_handle rs x rest cx' st1
          | _ => (st1, o)
          end
      | None => router_handle rs x rest cx st
      end
  end.

Section PostRoutes.
Context `{RegexEngine}.

(** [post.routes.js], lines 14-20, in order. *)
Definition post_routes (now : Z) : list Route :=
  [ mkRoute GET PRoot [handler getPosts];
    mkRoute GET PParam [handler getPostBySlug];
    mkRoute POST PRoot [auth_mw; handler (λ rq, createPost rq now)];
    mkRoute PUT PParam [auth_mw; handler updatePost];
    mkRoute DELETE PParam [auth_mw; handler (λ rq, deletePost rq now)] ].

End PostRoutes.

(** ** The application stack *)

Inductive AppLayer :=
| UseMw (f : Mw)                                  (* [app.use(fn)] *)
| UseRouter (prefix : list string) (r : list string → Mw)
                                                  (* [app.use(path, router)] *)
| UseErr (h : exn → HttpResponse).                (* [app.use((err, req, res, next) => ...)] *)

(** The mount path of [app.use(path, ...)] is matched segment by segment
    and case-insensitively; the router sees the rest of the path. *)
Fixpoint strip_prefix (pre path : list string) : option (list string) :=
  match pre, path with
  | [], _ => Some path
  | p :: pre', s :: path' => if segment_is s p then strip_prefix pre' path' else None
  | _ :: _, [] => None
  end.

(** [app.handle]: the layers in order; a pending error skips every layer
    but error handlers, and no error skips them; at the end the default
    handler ([finalhandler]) answers [404], or, for an error nothing
    handled, the error's own status ([err.status] when it is 4xx or 5xx)
    and [500] otherwise. *)
Definition err_status (e : exn) : Z :=
  match e with
  | EntityParseFailed => 400    (* body-parser's [createError(400, ...)] *)
  | _ => 500                    (* Mongoose and runtime errors carry no status *)
  end.

Definition final_response (err : option exn) : HttpResponse :=
  match err with Some e => HResp (err_status e) (HError e) | None => HResp 404 HNotRouted end.

Fixpoint app_handle (ls : list AppLayer) (x : XRequest) (err : option exn)
    (cx : Ctx) (st : Store) : Store * HttpResponse :=
  let continue (r : Store * MwOut) (ls' : list AppLayer) :=
    let '(st1, o) := r in
    match o with
    | MDone resp => (st1, resp)
    | MNext cx' => app_handle ls' x None cx' st1
    | MError e => app_handle ls' x (Some e) cx st1
    end in
  match ls with
  | [] => (st, final_response err)
  | l :: ls' =>
      match err, l with
      | None, UseMw f => continue (f x cx st) ls'
      | None, UseRouter pre r =>
          match strip_prefix pre (x_path x) with
          | Some rest => continue (r rest x cx st) ls'
          | None => app_handle ls' x err cx st
          end
      | Some e, UseErr h => (st, h e)
      | _, _ => app_handle ls' x err cx st
      end
  end.

(** [cors()] with its defaults: a preflight ([OPTIONS]) request is
    answered [204] with an empty body; every other request goes on. *)
Definition cors_mw : Mw :=
  λ x cx st, if decide (x_method x = OPTIONS) then (st, MDone (HResp 204 HEmpty)) else (st, MNext cx).

(** [express.json()]: [req.body] is the parsed object, [{}] when the
    request has no JSON body, and a malformed body is [next(err)]. *)
Definition json_mw : Mw :=
  λ x cx st,
    match x_raw x with
    | RawNone => (st, MNext (set_body empty_body cx))
    | RawJson b => (st, MNext (set_body b cx))
    | RawMalformed => (st, MError EntityParseFailed)
    end.

(** [errorHandler] (outside [src/], from the specification): [500] with
    the error's message. *)
Definition errorHandler (e : exn) : HttpResponse := HResp 500 (HError e).

Section AppStack.
Context `{RegexEngine}.

(** The auth router of [routes/auth.routes], outside [src/]: a
    parameter. *)
Variable authRoutes : list string → Mw.

(** [app.js], lines 9-15, in order. *)
Definition app_layers (now : Z) : list AppLayer :=
  [ UseMw cors_mw;
    UseMw json_mw;
    UseRouter ["api"; "auth"]%string authRoutes;
    UseRouter ["api"; "posts"]%string (λ rest x cx st, router_handle (post_routes now) x rest cx st);
    UseErr errorHandler ].

Definition express_app (now : Z) (x : XRequest) (st : Store) : Store * HttpResponse :=
  app_handle (app_layers now) x None ctx0 st.
End AppStack.

(** The body [express.json()] leaves in [req.body], when it parses. *)
Definition parsed_body (rb : RawBody) : option Body :=
  match rb with RawNone => Some empty_body | RawJson b => Some b | RawMalformed => None end.

(** The request of [Routes] that a pipeline request becomes once its body
    is parsed. *)
Definition to_http (x : XRequest) (b : Body) : HttpRequest :=
  mkHttp (x_method x) (x_path x) (x_cred x) b (x_query x).

(** Requests used by the concrete runs. *)

(** An auth router that answers nothing, standing in for
    [routes/auth.routes] in the concrete runs. *)
Definition auth_none : list string → Mw := λ _ _ cx st, (st, MNext cx).

Definition x_my_drafts : XRequest :=
  mkXReq GET ["api"; "posts"]%string (Some alice) RawNone (params_status "draft").
Definition x_preflight : XRequest :=
  mkXReq OPTIONS ["api"; "posts"; "hello-world"]%string None RawNone no_params.
Definition x_bad_json : XRequest :=
  mkXReq PUT ["api"; "posts"; oid_to_string 10%N]%string (Some alice) RawMalformed no_params.

(** ** The pipeline refines the routing function *)

Lemma json_mw_parsed (x : XRequest) (b : Body) (cx : Ctx) (st : Store) :
  parsed_body (x_raw x) = Some b → json_mw x cx st = (st, MNext (set_body b cx)).
Proof. unfold json_mw. by destruct (x_raw x); intros [= <-]. Qed.

Lemma cors_mw_pass (x : XRequest) (cx : Ctx) (st : Store) :
  x_method x ≠ OPTIONS → cors_mw x cx st = (st, MNext cx).
Proof. unfold cors_mw. by destruct (decide (x_method x = OPTIONS)). Qed.

Lemma segment_is_unique (s a b : string) : segment_is s a = true → segment_is s b = true → a = b.
Proof. unfold segment_is. intros Ha Hb. apply bool_decide_eq_true in Ha, Hb. congruence. Qed.

Section Refinement.
Context `{RegexEngine}.
Variable authRoutes : list string → Mw.

(** Two equations about the same call are merged. *)
Ltac merge_calls :=
  repeat match goal with H1 : ?t = _, H2 : ?t = _ |- _ => rewrite H1 in H2 end; simplify_eq.

(** C13: the pipeline agrees with [Routes.app] on every request that is not a
    CORS preflight, whose body parses and whose path has no empty
    segment, wherever [Routes.app] answers (everywhere but [/api/auth]). *)
Theorem express_app_refines (now : Z) (x : XRequest) (b : Body) (st st' : Store) (resp : HttpResponse) :
  x_method x ≠ OPTIONS → parsed_body (x_raw x) = Some b → Forall (λ s, s ≠ ""%string) (x_path x) →
  app now (to_http x b) st = Some (st', resp) →
  express_app authRoutes now x st = (st', resp).
Proof.
  intros Hm Hb0 Hp. unfold express_app, app_layers, app. cbn [app_handle].
  rewrite cors_mw_pass by done. cbn [app_handle]. rewrite json_mw_parsed with (b := b) by done. simpl.
  destruct (x_path x) as [|a [|b' rest]] eqn:Hpath; simpl;
    [intros Hs; injection Hs as <- <-; try destruct (segment_is _ "api"); reflexivity .. |].
  destruct (segment_is a "api") eqn:Ha; [| intros Hs; injection Hs as <- <-; reflexivity].
  destruct (segment_is b' "posts") eqn:Hb.
  - assert (segment_is b' "auth" = false) as ->.
    { destruct (segment_is b' "auth") eqn:Hb'; [| done]. by pose proof (segment_is_unique _ _ _ Hb Hb'). }
    intros Hs. injection Hs as Hs. rewrite <- Hs. clear Hs.
    apply Forall_cons_1 in Hp as [_ Hp]. apply Forall_cons_1 in Hp as [_ Hp].
    unfold postRouter, post_routes, to_http. simpl.
    destruct (x_method x), rest as [|s [|s' rest]]; simpl; try reflexivity;
      unfold route_match; simpl;
      rewrite ?(bool_decide_false (_ = ""%string)) by (by inversion Hp); simpl;
      unfold handler, authMiddleware, auth_mw, set_user, set_param, set_body, ctx0; unfold run_handler; simpl;
      repeat (case_match; simpl in *; simplify_eq; merge_calls); reflexivity.
  - destruct (segment_is b' "auth"); [done |]. intros Hs; injection Hs as <- <-; reflexivity.
Qed.

End Refinement.

(** ** What the layers in front of the routers do *)

Section Front.
Context `{RegexEngine}.
Variable authRoutes : list string → Mw.

(** C21: a CORS preflight is answered [204] by [cors()], the first layer
    of [app.js], whatever its path and credentials, before any router
    runs: nothing is read or written. *)
Theorem express_preflight (now : Z) (x : XRequest) (st : Store) :
  x_method x = OPTIONS → express_app authRoutes now x st = (st, HResp 204 HEmpty).
Proof. intros Hm. unfold express_app, app_layers. simpl. unfold cors_mw. by rewrite decide_True. Qed.

(** C31: a request whose body is not valid JSON fails in [express.json()]:
    the error skips both routers and reaches [errorHandler], the last
    layer of [app.js], which answers [500]; the store is unchanged.
    (Without that layer Express's default handler would answer with the
    parse error's own status, [400].) *)
Theorem express_malformed_body (now : Z) (x : XRequest) (st : Store) :
  x_method x ≠ OPTIONS → x_raw x = RawMalformed →
  express_app authRoutes now x st = (st, HResp 500 (HError EntityParseFailed)).
Proof.
  intros Hm Hr. unfold express_app, app_layers. cbn [app_handle].
  rewrite cors_mw_pass by done. cbn [app_handle]. unfold json_mw. by rewrite Hr.
Qed.
End Front.

(** ** Concrete runs *)

#[local] Existing Instance literal_regex.

Lemma express_app_refines_witness :
  express_app auth_none 500 x_my_drafts demo_store = (demo_store, HResp 200 (HJson (BPosts [post_hello]))).
Proof.
  apply (express_app_refines auth_none 500 x_my_drafts empty_body);
    [discriminate | reflexivity | repeat constructor; discriminate | vm_compute; reflexivity].
Defined.

Lemma express_preflight_witness :
  express_app auth_none 500 x_preflight demo_store = (demo_store, HResp 204 HEmpty).
Proof. apply express_preflight. reflexivity. Defined.

Lemma express_malformed_body_witness :
  express_app auth_none 500 x_bad_json demo_store = (demo_store, HResp 500 (HError EntityParseFailed)).
Proof. apply express_malformed_body; [discriminate | reflexivity]. Defined.
