(* ===== verification/Response.v ===== *)
(** * The JSON the handlers send, and the [populate] projection

    Every success of a handler ends in [res.status(c).json(x)]: Express
    serializes the Mongoose document (or array, or [{ message }]) with its
    [toJSON].  The two read handlers first call
    [.populate('author', 'name email')] (lines 84 and 104 of
    [post.controller.js]): the [author] identifier of each post is
    replaced by the referenced user document restricted to [_id], [name]
    and [email], or by [null] when no user has that identifier.  The
    write handlers answer with the unpopulated document, whose [author]
    is the identifier's hex string.

    This file models JSON values (after the [ejson] of the QCert
    development, without numbers other than integers), the users
    collection read by [populate] (the [User] model is outside [src/] and
    is modelled from the specification: identifier, name, e-mail, password
    hash), the serialization of posts, and the body of each response.
    The theorem: no response of the post routes contains a [password]
    key, whatever the stored users, because the populated [author] holds
    only the user's [_id], [name] and [email].  Dates are
    serialized as numbers of milliseconds (Express writes ISO strings,
    which carry the same information). *)

From stdpp Require Import sets.
From S2P Require Import Prelude Js ObjectId Slugify Store Controller.

(** ** JSON values *)

Inductive json :=
| JNull
| JBool (b : bool)
| JNum (z : Z)
| JStr (s : string)
| JArr (l : list json)
| JObj (fields : list (string * json)).

(** The keys of every object inside a JSON value. *)
Fixpoint json_keys (j : json) : list string :=
  match j with
  | JArr l => concat (map json_keys l)
  | JObj fs => concat (map (λ '(k, v), k :: json_keys v) fs)
  | _ => []
  end.

(** ** The users collection that [populate] reads *)

Record UserDoc := mkUserDoc { u_id : ObjectId; u_name : string; u_email : string; u_password : string }.

(** [.populate('author', 'name email')]: the user with the post's author
    identifier, with [_id] (always selected), [name] and [email]; [null]
    when there is none. *)
Definition populate_author (users : list UserDoc) (a : ObjectId) : json :=
  match List.find (λ u, u_id u === a) users with
  | Some u => JObj [("_id", JStr (oid_to_string (u_id u))); ("name", JStr (u_name u));
                    ("email", JStr (u_email u))]
  | None => JNull
  end.

(** ** Serialization of a post *)

(** [toJSON] of a post document, its [author] field given: a missing
    [status] is left out, a [null] [deletedAt] is written. *)
Definition post_json (a : json) (p : Post) : json :=
  JObj ([("_id", JStr (oid_to_string (post_id p))); ("title", JStr (title p));
         ("slug", JStr (slug p)); ("content", JStr (content p));
         ("tags", JArr (map JStr (tags p)))]
        ++ match status p with Some s => [("status", JStr s)] | None => [] end
        ++ [("author", a);
            ("deletedAt", match deletedAt p with Some t => JNum t | None => JNull end);
            ("createdAt", JNum (createdAt p))]).

(** The author as a response shows it: populated for the two reads,
    the identifier's string for the writes. *)
Definition author_json (populated : option (list UserDoc)) (p : Post) : json :=
  match populated with
  | Some users => populate_author users (author p)
  | None => JStr (oid_to_string (author p))
  end.

(** [res.json(...)] of a handler's body. *)
Definition body_json (populated : option (list UserDoc)) (b : RespBody) : json :=
  match b with
  | BMessage m => JObj [("message", JStr m)]
  | BPost p => post_json (author_json populated p) p
  | BPosts ps => JArr (map (λ p, post_json (author_json populated p) p) ps)
  end.

(** Which handlers populate: [getPosts] and [getPostBySlug]. *)
Inductive PostHandler := HCreate | HList | HBySlug | HUpdate | HDelete.

Definition populates (h : PostHandler) (users : list UserDoc) : option (list UserDoc) :=
  match h with HList | HBySlug => Some users | _ => None end.

(** The JSON of a handler's outcome: its status and body, or the error
    passed to [next]. *)
Definition outcome_json (h : PostHandler) (users : list UserDoc) (o : Outcome) : (Z * json) + exn :=
  match o with
  | Respond c b => inl (c, body_json (populates h users) b)
  | Next e => inr e
  end.

(** The users of the concrete runs, with their password hashes. *)
Definition demo_users : list UserDoc :=
  [mkUserDoc 1%N "Alice" "alice@example.org" "$2b$10$alicehash";
   mkUserDoc 2%N "Bob" "bob@example.org" "$2b$10$bobhash"].

(** The keys the post routes ever send. *)
Definition response_keys : list string :=
  ["message"; "_id"; "title"; "slug"; "content"; "tags"; "status"; "author"; "deletedAt";
   "createdAt"; "name"; "email"]%string.

(** ** Lemmas *)

Lemma json_keys_strs (l : list string) : concat (map json_keys (map JStr l)) = [].
Proof. induction l; [done |]. done. Qed.

Lemma populate_author_keys (users : list UserDoc) (a : ObjectId) :
  json_keys (populate_author users a) ⊆ response_keys.
Proof.
  unfold populate_author. destruct (List.find _ _); simpl; unfold response_keys; set_solver.
Qed.

Lemma author_json_keys (populated : option (list UserDoc)) (p : Post) :
  json_keys (author_json populated p) ⊆ response_keys.
Proof. destruct populated; [apply populate_author_keys | simpl; set_solver]. Qed.

Lemma post_json_keys (a : json) (p : Post) :
  json_keys a ⊆ response_keys → json_keys (post_json a p) ⊆ response_keys.
Proof.
  intros Ha. unfold post_json. destruct (status p); destruct (deletedAt p); simpl;
    rewrite json_keys_strs; unfold response_keys in *; set_solver.
Qed.

(** Every key of every response body is one of [response_keys]. *)
Lemma body_json_keys (populated : option (list UserDoc)) (b : RespBody) :
  json_keys (body_json populated b) ⊆ response_keys.
Proof.
  destruct b as [m|p|ps]; simpl.
  - unfold response_keys. set_solver.
  - apply post_json_keys, author_json_keys.
  - intros k Hk. apply list_elem_of_In, in_concat in Hk as (ks & Hks & Hk).
    rewrite map_map in Hks. apply in_map_iff in Hks as (p & <- & _).
    apply (post_json_keys _ p (author_json_keys populated p)). by apply list_elem_of_In.
Qed.

(** C35: no response of the post routes carries a [password] key: the
    populated author shows only [_id], [name] and [email] of the user,
    whatever the users collection holds. *)
Theorem outcome_json_no_password (h : PostHandler) (users : list UserDoc) (o : Outcome) (c : Z) (j : json) :
  outcome_json h users o = inl (c, j) → "password"%string ∉ json_keys j.
Proof.
  destruct o as [c' b|e]; simpl; intros Hj; inversion Hj; subst.
  intros Hin%body_json_keys. revert Hin. apply (bool_decide_unpack _). vm_compute. reflexivity.
Qed.

(** ** Concrete runs *)

#[local] Existing Instance literal_regex.

(** The published post read by slug: its author is populated with
    Alice's name and e-mail, and her password hash is not sent. *)
Lemma outcome_json_no_password_witness :
  ∃ j, outcome_json HBySlug demo_users
         (snd (getPostBySlug (body_request None empty_body "hello-world") demo_store)) = inl (200%Z, j)
     ∧ "password"%string ∉ json_keys j.
Proof.
  eexists. split; [vm_compute; reflexivity |].
  apply (outcome_json_no_password HBySlug demo_users
           (snd (getPostBySlug (body_request None empty_body "hello-world") demo_store)) 200%Z).
  vm_compute. reflexivity.
Defined.
