(* ===== verification/Service.v ===== *)
(** * The post service as the specification states it, and the refinement

    The specification (sections 3 and 4.2.C) describes the service
    abstractly: a store of posts keyed by identifier, where a request
    reads, creates a live post whose author is the caller under a slug no
    stored post has, or, when [authorizeMutation] allows it, rewrites a
    live post of the caller's in place (an update, or a soft delete that
    sets [deletedAt]).  Posts are never removed.

    This file states that contract over stdpp's [gmap] ([spec_step]) and
    proves that the application refines it: the abstraction [abs] maps
    the ordered collection of [Store] to the map from each identifier to
    the first document with it, and every request of [Lifecycle.app_step]
    is a [spec_step] of the abstract store (a forward simulation, lifted
    to sequences of requests as in a simulation diagram).  Properties
    proved once of the contract then hold of the code: only a post's
    author changes it.  The handlers' 404/403 decisions are shown to
    compute [authorizeMutation] on the abstract store, and a listing of
    [getPosts] to be the page of the posts that the specification's
    [buildListFilter] (section 4.2.A, here [listFilter]) selects, in
    every case but the one where the code departs from it. *)

From Stdlib Require Import Btauto.
From stdpp Require Import gmap relations.
From S2P Require Import Prelude Js ObjectId Slugify Store Controller Routes Lifecycle.

(** ** The abstract service *)

Abbreviation PostMap := (gmap ObjectId Post).

(** The abstraction of a collection: each identifier to the first
    document that has it, which is what [findById] returns. *)
Definition abs (st : Store) : PostMap := list_to_map ((λ p, (post_id p, p)) <$> posts st).

(** Section 4.2.C: [authorizeMutation(requester, post)]. *)
Inductive Authz := AuthNotFound | AuthForbidden | AuthAllowed (p : Post).

Definition authorizeMutation (u : User) (o : option Post) : Authz :=
  match o with
  | None => AuthNotFound
  | Some p =>
      match deletedAt p with
      | Some _ => AuthNotFound
      | None => if decide (author p = user_id u) then AuthAllowed p else AuthForbidden
      end
  end.

(** Section 4.2.A: [buildListFilter(requester, params)] as the set of
    posts it selects, rule by rule: live posts only; anonymous callers
    see published posts; an authenticated caller with [status=draft]
    sees their own drafts, with another [status] that status, and with
    none every status; [search] is a case-insensitive substring of the
    title or the content; [tag] is one of the tags; [author] is the
    author's identifier. *)
Definition contains_ci (term text : string) : bool :=
  contains (to_lower (list_ascii_of_string term)) (to_lower (list_ascii_of_string text)).

Definition listFilter (requester : option User) (qp : QueryParams) (p : Post) : bool :=
  (deletedAt p === None)
  && match requester with
     | None => status p === Some "published"%string
     | Some u =>
         match truthy_value (qp_status qp) with
         | Some s =>
             if s === "draft"%string
             then (status p === Some "draft"%string) && (author p === user_id u)
             else status p === Some s
         | None => true
         end
     end
  && match truthy_value (qp_search qp) with
     | Some s => contains_ci s (title p) || contains_ci s (content p)
     | None => true
     end
  && match truthy_value (qp_tag qp) with Some t => bool_decide (t ∈ tags p) | None => true end
  && match truthy_value (qp_author qp) with
     | Some a => bool_decide (oid_of_string a = Some (author p))
     | None => true
     end.

(** One request of the specification's lifecycle, by the caller [u]. *)
Inductive spec_step (u : option User) (σ σ' : PostMap) : Prop :=
| SpecRead : σ' = σ → spec_step u σ σ'
| SpecCreate (c : User) (p : Post) :
    u = Some c → σ !! post_id p = None → author p = user_id c → deletedAt p = None →
    (∀ i d, σ !! i = Some d → slug d ≠ slug p) →
    σ' = <[post_id p := p]> σ → spec_step u σ σ'
| SpecUpdate (c : User) (p p' : Post) :
    u = Some c → authorizeMutation c (σ !! post_id p) = AuthAllowed p → post_id p' = post_id p →
    σ' = <[post_id p := p']> σ → spec_step u σ σ'
| SpecDelete (c : User) (p : Post) (t : Z) :
    u = Some c → authorizeMutation c (σ !! post_id p) = AuthAllowed p →
    σ' = <[post_id p := mark_deleted p t]> σ → spec_step u σ σ'.

(** Any step of the specification, by any caller. *)
Definition spec_any (σ σ' : PostMap) : Prop := ∃ u, spec_step u σ σ'.

(** A request and a store used by the concrete runs: Alice deletes
    [post_hello]. *)
Definition req_delete_hello : HttpRequest :=
  mkHttp DELETE ["api"; "posts"; oid_to_string 10%N]%string (Some alice) empty_body no_params.
Definition store_hello_deleted : Store :=
  mkStore (replace_by_id (mark_deleted post_hello 700) (posts demo_store)) 13%N.

(** ** The abstraction *)

Lemma abs_lookup (l : list Post) (i : ObjectId) :
  (list_to_map ((λ p, (post_id p, p)) <$> l) : PostMap) !! i = List.find (λ d, post_id d === i) l.
Proof.
  induction l as [|d l IH]; [done |]. simpl.
  case_bool_decide as Hd; [subst; apply lookup_insert_eq |]. by rewrite lookup_insert_ne.
Qed.

Lemma find_app {A} (f : A → bool) (l1 l2 : list A) :
  List.find f (l1 ++ l2) = match List.find f l1 with Some x => Some x | None => List.find f l2 end.
Proof. induction l1 as [|x l1 IH]; [done |]. simpl. by destruct (f x). Qed.

(** Appending a document with a fresh identifier inserts it. *)
Lemma abs_append (st : Store) (p : Post) (n : ObjectId) :
  (∀ d, d ∈ posts st → post_id d ≠ post_id p) →
  abs (mkStore (posts st ++ [p]) n) = <[post_id p := p]> (abs st).
Proof.
  intros Hfresh. apply map_eq. intros i. unfold abs. simpl. rewrite !abs_lookup, find_app.
  destruct (decide (i = post_id p)) as [->|Hne].
  - rewrite lookup_insert_eq, list_find_None_intro; [simpl; by rewrite bool_decide_true |].
    intros d Hd. rewrite bool_decide_false; [done | by apply Hfresh].
  - rewrite lookup_insert_ne, abs_lookup by done. destruct (List.find _ _); [done |].
    simpl. by rewrite bool_decide_false.
Qed.

(** Replacing the document with identifier [post_id p'] by [p'] leaves
    the other identifiers' lookups alone, and, when there is such a
    document, writes [p'] at that key. *)
Lemma find_replace_by_id_ne (p' : Post) (l : list Post) (i : ObjectId) :
  i ≠ post_id p' →
  List.find (λ d, post_id d === i) (replace_by_id p' l) = List.find (λ d, post_id d === i) l.
Proof.
  intros Hi. induction l as [|d l IH]; [done |].
  change (replace_by_id p' (d :: l))
    with ((if post_id d === post_id p' then p' else d) :: replace_by_id p' l).
  destruct (decide (post_id d = post_id p')) as [Hd|Hd].
  - rewrite (bool_decide_true (post_id d = post_id p')) by done. simpl.
    rewrite !bool_decide_false by congruence. apply IH.
  - rewrite (bool_decide_false (post_id d = post_id p')) by done. simpl. by rewrite IH.
Qed.

Lemma find_replace_by_id_eq (p' : Post) (l : list Post) :
  (∃ d, d ∈ l ∧ post_id d = post_id p') →
  List.find (λ d, post_id d === post_id p') (replace_by_id p' l) = Some p'.
Proof.
  intros Hex. induction l as [|d l IH]; [by destruct Hex as (? & ?%elem_of_nil & _) |].
  change (replace_by_id p' (d :: l))
    with ((if post_id d === post_id p' then p' else d) :: replace_by_id p' l).
  destruct (decide (post_id d = post_id p')) as [Hd|Hd].
  - rewrite (bool_decide_true (post_id d = post_id p')) by done. simpl. by rewrite bool_decide_true.
  - rewrite (bool_decide_false (post_id d = post_id p')) by done. simpl.
    rewrite bool_decide_false by done. apply IH.
  destruct Hex as (x & [->|Hx]%elem_of_cons & Hid); [congruence | by exists x].
Qed.

Lemma abs_replace (st : Store) (p' : Post) (n : ObjectId) :
  (∃ d, d ∈ posts st ∧ post_id d = post_id p') →
  abs (mkStore (replace_by_id p' (posts st)) n) = <[post_id p' := p']> (abs st).
Proof.
  intros Hex. apply map_eq. intros i. unfold abs. simpl. rewrite abs_lookup.
  destruct (decide (i = post_id p')) as [->|Hi].
  - rewrite lookup_insert_eq. by apply find_replace_by_id_eq.
  - by rewrite lookup_insert_ne, abs_lookup, find_replace_by_id_ne.
Qed.

(** In a well-formed collection the abstract store holds exactly the
    stored documents, at their identifiers. *)
Lemma abs_lookup_elem (st : Store) (p : Post) :
  wf_store st → p ∈ posts st → abs st !! post_id p = Some p.
Proof. intros [Hnd _] Hp. unfold abs. rewrite abs_lookup. by apply find_by_id_elem. Qed.

Lemma abs_lookup_some (st : Store) (i : ObjectId) (d : Post) :
  abs st !! i = Some d → d ∈ posts st ∧ post_id d = i.
Proof.
  unfold abs. rewrite abs_lookup. intros Hf. apply list_find_elem_of in Hf as [Hd Hid].
  by apply bool_decide_eq_true in Hid.
Qed.

(** ** Authorization *)

Lemma authorize_allowed_inv (c : User) (o : option Post) (p : Post) :
  authorizeMutation c o = AuthAllowed p → o = Some p ∧ deletedAt p = None ∧ author p = user_id c.
Proof.
  destruct o as [d|]; simpl; [| done].
  destruct (deletedAt d) eqn:Hd; [done |]. case_decide; [| done]. by intros [= <-].
Qed.

(** The handlers compare identifiers through their strings; for 96-bit
    identifiers that is identifier equality. *)
Lemma author_check_false (a b : ObjectId) :
  (a < oid_bound)%N → (b < oid_bound)%N → (oid_to_string a !== oid_to_string b) = false → a = b.
Proof.
  intros Ha Hb. rewrite oid_str_neq_iff by done. intros Hn.
  apply negb_false_iff, bool_decide_eq_true in Hn. done.
Qed.

Lemma authorize_live (st : Store) (p : Post) (u : User) :
  wf_store st → p ∈ posts st → deletedAt p = None → author p = user_id u →
  authorizeMutation u (abs st !! post_id p) = AuthAllowed p.
Proof.
  intros Hwf Hp Hd Ha. rewrite (abs_lookup_elem st p Hwf Hp). simpl. rewrite Hd.
  by rewrite decide_True.
Qed.

(** ** Properties of the contract *)

(** In the specification, a stored post changes only by a step of its
    author, while it is live. *)
Lemma spec_step_author (u : option User) (σ σ' : PostMap) (i : ObjectId) (d : Post) :
  spec_step u σ σ' → σ !! i = Some d → σ' !! i ≠ Some d →
  ∃ c, u = Some c ∧ author d = user_id c ∧ deletedAt d = None.
Proof.
  intros Hs Hd Hne. destruct Hs as [-> | c p Hu Hfresh _ _ _ -> | c p p' Hu Hauth _ -> | c p t Hu Hauth ->].
  - done.
  - rewrite lookup_insert_ne in Hne; [done |]. intros <-. congruence.
  - destruct (decide (post_id p = i)) as [<-|Hi]; [| by rewrite lookup_insert_ne in Hne].
    apply authorize_allowed_inv in Hauth as (Hl & Hdel & Ha). rewrite Hl in Hd. injection Hd as <-.
    by exists c.
  - destruct (decide (post_id p = i)) as [<-|Hi]; [| by rewrite lookup_insert_ne in Hne].
    apply authorize_allowed_inv in Hauth as (Hl & Hdel & Ha). rewrite Hl in Hd. injection Hd as <-.
    by exists c.
Qed.

(** ** The application refines the specification *)

Section Refinement.
Context `{RegexEngine}.

(** One request of the application is one step of the specification by
    its caller. *)
Lemma app_step_spec (r : HttpRequest) (st st' : Store) :
  wf_store st → app_step r st st' → spec_step (credential r) (abs st) (abs st').
Proof.
  intros Hwf [now resp Hcred Happ].
  destruct (app_effect now r st st' resp Hwf Happ)
    as [-> | [(p & u & -> & Hc & Ha & Hid & Hv & Hd & Hs) |
             [(p & p' & Hp & Hd & Hb & Hv & -> & u & Hc & Hau) | (p & t & Hp & Hd & -> & u & Hc & Hau)]]].
  - by apply SpecRead.
  - apply (SpecCreate _ _ _ u p); try done.
    + destruct (abs st !! post_id p) as [d|] eqn:E; [| done].
      apply abs_lookup_some in E as [Hin Hid']. destruct (wf_store_elem st d Hwf Hin) as (Hlt & _). lia.
    + intros i d Hl. apply abs_lookup_some in Hl as [Hin _]. by apply Hs.
    + apply abs_append. intros d Hin. destruct (wf_store_elem st d Hwf Hin) as (Hlt & _). lia.
  - destruct (wf_store_elem st p Hwf Hp) as (_ & Hab & _).
    pose proof (author_check_false _ _ Hab (Hcred u Hc) Hau) as Ha.
    pose proof (assign_body_id _ _ _ Hb) as Hid.
    apply (SpecUpdate _ _ _ u p p'); [done | by apply authorize_live | done |].
    rewrite <- Hid. apply abs_replace. by exists p.
  - destruct (wf_store_elem st p Hwf Hp) as (_ & Hab & _).
    pose proof (author_check_false _ _ Hab (Hcred u Hc) Hau) as Ha.
    apply (SpecDelete _ _ _ u p t); [done | by apply authorize_live |].
    apply (abs_replace st (mark_deleted p t)). by exists p.
Qed.
(** C10: every request the application handles, from a well-formed
    collection, is a step of the specification's lifecycle on the
    abstract store, by the request's caller: a read, a creation by the
    caller, or a rewrite of a live post that [authorizeMutation] allows
    the caller. *)
Theorem app_refines_spec (r : HttpRequest) (st st' : Store) :
  wf_store st → app_step r st st' → spec_step (credential r) (abs st) (abs st').
Proof. exact (app_step_spec r st st'). Qed.

(** C9: only the author changes a post: when a request removes a document
    from the collection (an update or a soft delete rewrites it), the
    request carried the credentials of that document's author, and the
    document was live. *)
Theorem only_author_changes (r : HttpRequest) (st st' : Store) (d : Post) :
  wf_store st → app_step r st st' → d ∈ posts st → d ∉ posts st' →
  ∃ u, credential r = Some u ∧ author d = user_id u ∧ deletedAt d = None.
Proof.
  intros Hwf Hstep Hd Hd'.
  apply (spec_step_author (credential r) (abs st) (abs st') (post_id d) d).
  - by apply app_step_spec.
  - by apply abs_lookup_elem.
  - intros Hl. apply abs_lookup_some in Hl as [Hin _]. done.
Qed.

(** C20: the simulation extends to sequences of requests: every collection
    reachable from a well-formed one is abstracted by a store reachable
    in the specification. *)
Theorem reachable_refines_spec (st0 st : Store) :
  wf_store st0 → reachable st0 st → rtc spec_any (abs st0) (abs st).
Proof.
  intros Hwf0 Hr. cut (wf_store st ∧ rtc spec_any (abs st0) (abs st)); [by intros [_ ?] |].
  induction Hr as [|st st' _ [Hwf IH] [r Hstep]]; [done |]. split.
  - apply (step_preserves_wf st st' Hwf). by exists r.
  - eapply rtc_r; [exact IH |]. exists (credential r). by apply app_step_spec.
Qed.
End Refinement.

(** ** The handlers decide as [authorizeMutation] does *)

(** The document [findById] loads is the abstract store's entry. *)
Lemma findById_abs (s : string) (i : ObjectId) (st : Store) :
  oid_of_string s = Some i → findById s st = (st, Ok (abs st !! i)).
Proof. intros Hs. unfold abs. rewrite abs_lookup. by apply findById_cast. Qed.

(** The guards of [updatePost] and [deletePost], lines 123-129 and
    147-153, computed on the loaded document. *)
Lemma guards_authorize (st : Store) (i : ObjectId) (u : User) :
  wf_store st → (user_id u < oid_bound)%N →
  match live_post (abs st !! i) with
  | None => authorizeMutation u (abs st !! i) = AuthNotFound
  | Some p =>
      (if oid_to_string (author p) !== oid_to_string (user_id u)
       then authorizeMutation u (abs st !! i) = AuthForbidden
       else authorizeMutation u (abs st !! i) = AuthAllowed p ∧ p ∈ posts st)
  end.
Proof.
  intros Hwf Hu. destruct (abs st !! i) as [d|] eqn:E; [| done]. unfold live_post, authorizeMutation.
  apply abs_lookup_some in E as [Hin _]. destruct (deletedAt d) eqn:Hd; [done |].
  destruct (wf_store_elem st d Hwf Hin) as (_ & Ha & _).
  rewrite oid_str_neq_iff by done. case_bool_decide.
  - by rewrite decide_True.
  - by rewrite decide_False.
Qed.

(** C11: [updatePost] implements [authorizeMutation] of the specification
    on the abstract store: [404] when it says NotFound, [403] when it
    says Forbidden (nothing written in both), and when it allows the
    update the assigned document replaces the stored one. *)
Theorem updatePost_refines_authorize (req : Request) (st : Store) (i : ObjectId) (u : User) :
  wf_store st → oid_of_string (req_param req) = Some i → req_user req = Some u →
  (user_id u < oid_bound)%N →
  match authorizeMutation u (abs st !! i) with
  | AuthNotFound => updatePost req st = (st, Respond 404 (BMessage msg_not_found))
  | AuthForbidden => updatePost req st = (st, Respond 403 (BMessage msg_forbidden))
  | AuthAllowed p =>
      ∀ p', assign_body p (req_body req) = Some p' → valid_post p' = true →
        updatePost req st = (mkStore (replace_by_id p' (posts st)) (next_id st), Respond 200 (BPost p'))
  end.
Proof.
  intros Hwf Hc Hu Hub. pose proof (guards_authorize st i u Hwf Hub) as Hg.
  unfold updatePost, try_next, bind. rewrite (findById_abs _ _ _ Hc). rewrite Hu.
  destruct (live_post (abs st !! i)) as [p|]; [| by rewrite Hg].
  destruct (_ !== _); [by rewrite Hg |]. destruct Hg as [-> Hin].
  intros p' Hb Hv. rewrite Hb.
  rewrite (save_sequential p p' st); [done | apply Hwf | done | exact (assign_body_id _ _ _ Hb) | done].
Qed.

(** C12: [deletePost] implements [authorizeMutation] likewise: [404],
    [403], or the soft delete of the allowed post, which sets
    [deletedAt] to the current time. *)
Theorem deletePost_refines_authorize (req : Request) (now : Z) (st : Store) (i : ObjectId) (u : User) :
  wf_store st → oid_of_string (req_param req) = Some i → req_user req = Some u →
  (user_id u < oid_bound)%N →
  deletePost req now st
  = match authorizeMutation u (abs st !! i) with
    | AuthNotFound => (st, Respond 404 (BMessage msg_not_found))
    | AuthForbidden => (st, Respond 403 (BMessage msg_forbidden))
    | AuthAllowed p =>
        (mkStore (replace_by_id (mark_deleted p now) (posts st)) (next_id st),
         Respond 200 (BMessage msg_deleted))
    end.
Proof.
  intros Hwf Hc Hu Hub. pose proof (guards_authorize st i u Hwf Hub) as Hg.
  unfold deletePost, try_next, bind. rewrite (findById_abs _ _ _ Hc). rewrite Hu.
  destruct (live_post (abs st !! i)) as [p|]; [| by rewrite Hg].
  destruct (_ !== _); [by rewrite Hg |]. destruct Hg as [-> Hin].
  destruct (wf_store_elem st p Hwf Hin) as (_ & _ & Hv).
  rewrite (save_sequential p (mark_deleted p now) st); [done | apply Hwf | done | done |].
  revert Hv. unfold valid_post. by destruct p.
Qed.

(** ** Progress *)

Section Progress.
Context `{RegexEngine}.

(** C25: the author of a live post can always soft-delete it: from any
    well-formed collection, every request [DELETE /api/posts/:id] whose
    [id] names the post and which carries the author's credentials is
    answered [200], and the post stays in the collection with
    [deletedAt] set to the time of the request. *)
Theorem author_can_delete (now : Z) (r : HttpRequest) (st : Store) (p : Post) (u : User) (id : string) :
  wf_store st → p ∈ posts st → deletedAt p = None → author p = user_id u →
  method r = DELETE → path r = ["api"; "posts"; id]%string → oid_of_string id = Some (post_id p) →
  credential r = Some u →
  app now r st = Some (mkStore (replace_by_id (mark_deleted p now) (posts st)) (next_id st),
                       HResp 200 (HJson (BMessage msg_deleted))).
Proof.
  intros Hwf Hp Hd Ha Hm Hpath Hid Hc.
  rewrite (proj2 (app_write_routes now r st id u Hpath Hc) Hm). unfold run_handler.
  by rewrite (deletePost_by_author _ now st p u).
Qed.
End Progress.

(** ** The listing filter *)

Section ListFilter.
Context `{RegexEngine}.

(** A search term the engine accepts is matched as a case-insensitive
    substring, as the specification says; [literal_regex] is such an
    engine. *)
Hypothesis regex_substring : ∀ s x, regex_valid s = true → regex_test_i s x = contains_ci s x.

Lemma build_query_listFilter (user : option User) (qp : QueryParams) (q : PostQuery)
    (aid : option ObjectId) (p : Post) :
  user = None ∨ truthy_value (qp_status qp) ≠ Some "draft"%string ∨ truthy_value (qp_author qp) = None →
  build_query user qp = Ok q → cast_query q = Ok aid →
  matches q aid p = listFilter user qp p.
Proof.
  intros Hex. unfold build_query, listFilter.
  destruct (truthy_value (qp_search qp)) as [s|] eqn:Hs;
    [destruct (regex_valid s) eqn:Hv; [| discriminate] |];
    intros Hq; injection Hq as <-;
    destruct user as [u|], (truthy_value (qp_status qp)) as [st|] eqn:Hst;
    try (case_bool_decide as Hd; [subst st |]);
    destruct (truthy_value (qp_tag qp)) as [t|], (truthy_value (qp_author qp)) as [a|] eqn:Ha;
    unfold cast_query; simpl;
    try (destruct (oid_of_string a) as [i|]; [| discriminate]);
    intros [= <-]; unfold matches; simpl;
    rewrite ?(regex_substring s) by done;
    try (destruct Hex as [?|[?|?]]; congruence);
    repeat match goal with |- context [bool_decide (Some ?i = Some ?x)] =>
      rewrite (bool_decide_ext (Some i = Some x) (x = i)) by naive_solver end;
    btauto.
Qed.

(** C33: [getPosts] refines the specification's [buildListFilter] with
    its pagination and sort: a successful listing with a positive limit
    is exactly the page [(page - 1) * limit, limit] of the posts the
    specification's filter selects, newest first, except when an
    authenticated caller asks for drafts and names an author (where the
    code departs from rule 3, see [Controller.getPosts_draft_author_param]). *)
Theorem getPosts_refines_listFilter (req : Request) (st st' : Store) (ps : list Post) (pg n : Z) :
  req_user req = None ∨ truthy_value (qp_status (req_query req)) ≠ Some "draft"%string
    ∨ truthy_value (qp_author (req_query req)) = None →
  num_param (qp_page (req_query req)) 1 = JInt pg → num_param (qp_limit (req_query req)) 10 = JInt n →
  (0 < n)%Z →
  getPosts req st = (st', Respond 200 (BPosts ps)) →
  st' = st ∧ ps = take (Z.to_nat n) (drop (Z.to_nat ((pg - 1) * n))
                    (merge_sort newer_first (List.filter (listFilter (req_user req) (req_query req)) (posts st)))).
Proof.
  intros Hex Hpg Hn Hpos. unfold getPosts, try_next, bind, lift, reply, ret. rewrite Hpg, Hn.
  destruct (build_query (req_user req) (req_query req)) as [q|e] eqn:Hq; [| discriminate].
  unfold findPage. destruct (cast_query q) as [aid|e] eqn:Hc; [| discriminate].
  unfold skip_limit. simpl. destruct ((pg - 1) * n <? 0)%Z; [discriminate |].
  rewrite (proj2 (Z.eqb_neq n 0)) by lia. rewrite Z.abs_eq by lia.
  intros [= <- <-]. split; [done |]. do 3 f_equal.
  apply filter_ext. intros p. by apply (build_query_listFilter _ _ q aid).
Qed.
End ListFilter.

(** ** Concrete runs *)

#[local] Existing Instance literal_regex.

Lemma step_delete_hello : app_step req_delete_hello demo_store store_hello_deleted.
Proof.
  apply (AppStep req_delete_hello _ _ 700%Z (HResp 200 (HJson (BMessage msg_deleted)))).
  - intros u [= <-]. vm_compute. reflexivity.
  - vm_compute. reflexivity.
Qed.

(** Alice's creation of "Fresh start" is a creation of the
    specification. *)
Lemma app_refines_spec_witness :
  (wf_store demo_store ∧ app_step req_create_fresh demo_store store_fresh)
  ∧ spec_step (Some alice) (abs demo_store) (abs store_fresh).
Proof.
  split; [split; [exact demo_store_wf | exact step_create_fresh] |].
  exact (app_refines_spec req_create_fresh demo_store store_fresh demo_store_wf step_create_fresh).
Defined.

(** Alice's delete removes [post_hello] from the collection: she is its
    author. *)
Lemma only_author_changes_witness :
  (wf_store demo_store ∧ app_step req_delete_hello demo_store store_hello_deleted
   ∧ post_hello ∈ posts demo_store ∧ post_hello ∉ posts store_hello_deleted)
  ∧ ∃ u, credential req_delete_hello = Some u ∧ author post_hello = user_id u ∧ deletedAt post_hello = None.
Proof.
  assert (Hin : post_hello ∈ posts demo_store) by (apply list_elem_of_In; simpl; auto).
  assert (Hout : post_hello ∉ posts store_hello_deleted)
    by (apply (bool_decide_unpack _); vm_compute; reflexivity).
  split; [exact (conj demo_store_wf (conj step_delete_hello (conj Hin Hout))) |].
  exact (only_author_changes req_delete_hello demo_store store_hello_deleted post_hello
           demo_store_wf step_delete_hello Hin Hout).
Defined.

Lemma reachable_refines_spec_witness :
  (wf_store demo_store ∧ reachable demo_store store_fresh) ∧ rtc spec_any (abs demo_store) (abs store_fresh).
Proof.
  assert (Hr : reachable demo_store store_fresh).
  { eapply reach_step; [apply reach_init | exists req_create_fresh; apply step_create_fresh]. }
  split; [split; [exact demo_store_wf | exact Hr] |].
  exact (reachable_refines_spec demo_store store_fresh demo_store_wf Hr).
Defined.

(** Bob may not edit Alice's post: [authorizeMutation] says Forbidden
    and the handler answers [403]. *)
Lemma updatePost_refines_authorize_witness :
  authorizeMutation bob (abs demo_store !! (10%N : ObjectId)) = AuthForbidden
  ∧ updatePost (body_request (Some bob) (title_body "Mine now" "x") (oid_to_string 10%N)) demo_store
    = (demo_store, Respond 403 (BMessage msg_forbidden)).
Proof.
  assert (Ha : authorizeMutation bob (abs demo_store !! (10%N : ObjectId)) = AuthForbidden) by (vm_compute; reflexivity).
  split; [exact Ha |].
  pose proof (updatePost_refines_authorize (body_request (Some bob) (title_body "Mine now" "x") (oid_to_string 10%N))
                demo_store 10%N bob demo_store_wf ltac:(vm_compute; reflexivity) eq_refl
                ltac:(vm_compute; reflexivity)) as H.
  rewrite Ha in H. exact H.
Defined.

Lemma deletePost_refines_authorize_witness :
  authorizeMutation alice (abs demo_store !! (10%N : ObjectId)) = AuthAllowed post_hello
  ∧ deletePost (body_request (Some alice) empty_body (oid_to_string 10%N)) 700 demo_store
    = (store_hello_deleted, Respond 200 (BMessage msg_deleted)).
Proof.
  assert (Ha : authorizeMutation alice (abs demo_store !! (10%N : ObjectId)) = AuthAllowed post_hello)
    by (vm_compute; reflexivity).
  split; [exact Ha |].
  rewrite (deletePost_refines_authorize (body_request (Some alice) empty_body (oid_to_string 10%N)) 700
             demo_store 10%N alice demo_store_wf ltac:(vm_compute; reflexivity) eq_refl
             ltac:(vm_compute; reflexivity)), Ha.
  reflexivity.
Defined.

Lemma author_can_delete_witness :
  app 700 req_delete_hello demo_store
  = Some (mkStore (replace_by_id (mark_deleted post_hello 700) (posts demo_store)) (next_id demo_store),
          HResp 200 (HJson (BMessage msg_deleted))).
Proof.
  exact (author_can_delete 700 req_delete_hello demo_store post_hello alice (oid_to_string 10%N)
           demo_store_wf ltac:(apply list_elem_of_In; simpl; auto) eq_refl eq_refl eq_refl eq_refl
           ltac:(vm_compute; reflexivity) eq_refl).
Defined.

(** Bob lists his drafts: the page is what the specification's filter
    selects. *)
Lemma getPosts_refines_listFilter_witness :
  getPosts (list_request (Some bob) (params_status "draft")) demo_store
  = (demo_store, Respond 200 (BPosts [post_secret]))
  ∧ (demo_store = demo_store
     ∧ [post_secret] = take 10 (drop 0 (merge_sort newer_first
                        (List.filter (listFilter (Some bob) (params_status "draft")) (posts demo_store))))).
Proof.
  assert (Hg : getPosts (list_request (Some bob) (params_status "draft")) demo_store
               = (demo_store, Respond 200 (BPosts [post_secret]))) by (vm_compute; reflexivity).
  split; [exact Hg |].
  exact (getPosts_refines_listFilter (λ _ _ _, eq_refl) (list_request (Some bob) (params_status "draft"))
           demo_store demo_store [post_secret] 1 10
           (or_intror (or_intror eq_refl)) eq_refl eq_refl ltac:(lia) Hg).
Defined.
